(** * Lightweight-Charts (modified): drawing tools, invalidation and panes

    A shallow embedding of the chart widget, the chart model, the pane
    widget, the trendline and the Fibonacci retracement, the price-scale
    API, the RSI indicator with its manager, and the pane view and the
    renderer of the crosshair, followed by the properties checked against
    them.

    Conventions of the embedding:
    - a JavaScript [number] that holds a price, a time or a pixel is a
      binary64 [float] (Rocq's primitive floats), so [NaN], [Infinity],
      [Math.sqrt] and the rounding of [/] are the ones of the program;
    - a [number] that the program always makes a whole number (the
      index of a loop, a time-point index, a counter) is a [Z]; one
      that a caller hands in stays a [float], also where the program
      goes on to use it as an index;
    - [T | null] and [T | undefined] are [option T];
    - a JavaScript [Map] is an association list in insertion order, the
      order in which [forEach] visits it;
    - a method that mutates [this] is a function from state to state, and
      one that can throw returns a [Completion] next to the state;
    - classes whose source is not part of the repository slice
      (TimeScale, PriceScale, Pane, Crosshair, InvalidateMask) appear as
      records holding what the embedded code reads from them. *)

From Stdlib Require Import Floats ZArith List String Bool Lia DecimalString.
From Stdlib Require DecimalZ DecimalPos.
Import ListNotations.

Set Implicit Arguments.
Set Warnings "-inexact-float".

(* ------------------------------------------------------------------ *)
(** ** JavaScript numbers *)

Module Js.

Local Open Scope float_scope.

Definition NaN : float := nan.
Definition Infinity : float := infinity.

(** [a > b], [a <= b], [a !== b], [a === b] on numbers. *)
Definition gt (a b : float) : bool := b <? a.
Definition le (a b : float) : bool := a <=? b.
Definition lt (a b : float) : bool := a <? b.
Definition ge (a b : float) : bool := b <=? a.
Definition strictEq (a b : float) : bool := a =? b.
Definition strictNe (a b : float) : bool := negb (a =? b).

Definition Math_abs (a : float) : float := abs a.
Definition Math_sqrt (a : float) : float := sqrt a.

(** [Math.pow(a, 2)]: the square. *)
Definition Math_pow2 (a : float) : float := a * a.

Definition isNegZero (a : float) : bool :=
  match classify a with NZero => true | _ => false end.

(** [Math.max] and [Math.min] of two numbers: [NaN] is contagious and
    [+0] counts as larger than [-0]. *)
Definition Math_max (a b : float) : float :=
  if is_nan a || is_nan b then NaN
  else if a <? b then b
  else if b <? a then a
  else if isNegZero a then b else a.

Definition Math_min (a b : float) : float :=
  if is_nan a || is_nan b then NaN
  else if a <? b then a
  else if b <? a then b
  else if isNegZero a then a else b.

(** [arr[i]] for a number [i] used as an index: [undefined] outside
    [0 .. length-1]. *)
Definition index {A} (l : list A) (i : Z) : option A :=
  if (i <? 0)%Z then None else nth_error l (Z.to_nat i).

(** The whole number that a [number] is, if it is one; [-0] is [0]. *)
Definition wholeNumber (x : float) : option Z :=
  match Prim2SF x with
  | S754_zero _ => Some 0%Z
  | S754_finite s m e =>
      let magnitude :=
        if (0 <=? e)%Z then Some (Z.pos m * 2 ^ e)%Z
        else if (Z.pos m mod 2 ^ (- e) =? 0)%Z then Some (Z.pos m / 2 ^ (- e))%Z
        else None in
      match magnitude with
      | Some n => Some (if s then (- n)%Z else n)
      | None => None
      end
  | S754_infinity _ | S754_nan => None
  end.

(** [arr[x]] for any number [x]: the element at [x] when [x] is a whole
    number within [0 .. length-1], [undefined] for every other number,
    fractions and [NaN] included. *)
Definition indexNumber {A} (l : list A) (x : float) : option A :=
  match wholeNumber x with
  | Some n => if (n <? Z.of_nat (List.length l))%Z then index l n else None
  | None => None
  end.

(** [arr.splice(start, 1)]: a negative [start] counts from the end
    (clamped at 0); nothing is removed when [start] is past the end. *)
Definition splice1 {A} (l : list A) (start : Z) : list A :=
  let len := Z.of_nat (List.length l) in
  let s := if (start <? 0)%Z then Z.max (len + start) 0 else Z.min start len in
  firstn (Z.to_nat s) l ++ skipn (S (Z.to_nat s)) l.

(** [arr.indexOf(x)], [-1] when absent. *)
Fixpoint indexOf_from {A} (eqb : A -> A -> bool) (x : A) (l : list A) (i : Z) : Z :=
  match l with
  | [] => (-1)%Z
  | y :: l' => if eqb y x then i else indexOf_from eqb x l' (i + 1)%Z
  end.

Definition indexOf {A} (eqb : A -> A -> bool) (x : A) (l : list A) : Z :=
  indexOf_from eqb x l 0%Z.

(** [arr.findIndex(f)], [-1] when no element satisfies [f]. *)
Fixpoint findIndex_from {A} (f : A -> bool) (l : list A) (i : Z) : Z :=
  match l with
  | [] => (-1)%Z
  | y :: l' => if f y then i else findIndex_from f l' (i + 1)%Z
  end.

Definition findIndex {A} (f : A -> bool) (l : list A) : Z :=
  findIndex_from f l 0%Z.

End Js.

(* ------------------------------------------------------------------ *)
(** ** JavaScript [Map] with string keys, in insertion order *)

Module JsMap.

Definition t (V : Type) : Type := list (string * V).

Definition empty {V} : t V := [].

Fixpoint get {V} (m : t V) (k : string) : option V :=
  match m with
  | [] => None
  | (k', v) :: m' => if String.eqb k' k then Some v else get m' k
  end.

Definition has {V} (m : t V) (k : string) : bool :=
  match get m k with Some _ => true | None => false end.

(** [set] keeps the position of a key that is already present. *)
Fixpoint set {V} (m : t V) (k : string) (v : V) : t V :=
  match m with
  | [] => [(k, v)]
  | (k', v') :: m' =>
      if String.eqb k' k then (k', v) :: m' else (k', v') :: set m' k v
  end.

Fixpoint delete {V} (m : t V) (k : string) : t V :=
  match m with
  | [] => []
  | (k', v') :: m' =>
      if String.eqb k' k then m' else (k', v') :: delete m' k
  end.

Definition size {V} (m : t V) : nat := List.length m.

(** A [Map] holds each key once. *)
Fixpoint uniqueKeys {V} (m : t V) : bool :=
  match m with
  | [] => true
  | (k, _) :: m' => negb (has m' k) && uniqueKeys m'
  end.

End JsMap.

(* ------------------------------------------------------------------ *)
(** ** Fibonacci retracement (model/fibonacci-retracement) *)

Module Fibonacci.

Local Open Scope float_scope.
Local Open Scope string_scope.

Record FibonacciPoint : Type := { time : float; value : float }.

Record FibonacciData : Type :=
  { id : string; point1 : FibonacciPoint; point2 : FibonacciPoint }.

Inductive LineStyle : Type := solid | dashed | dotted.

Record FibonacciOptions : Type :=
  { color : string;
    lineWidth : float;
    lineStyle : LineStyle;
    showLabels : bool;
    extendLines : bool;
    levels : list float }.

(** [Partial<FibonacciOptions>]. *)
Record PartialFibonacciOptions : Type :=
  { p_color : option string;
    p_lineWidth : option float;
    p_lineStyle : option LineStyle;
    p_showLabels : option bool;
    p_extendLines : option bool;
    p_levels : option (list float) }.

Definition noOptions : PartialFibonacciOptions :=
  {| p_color := None; p_lineWidth := None; p_lineStyle := None;
     p_showLabels := None; p_extendLines := None; p_levels := None |}.

Definition defaultFibonacciOptions : FibonacciOptions :=
  {| color := "#2196F3";
     lineWidth := 1;
     lineStyle := solid;
     showLabels := true;
     extendLines := false;
     levels := [0; 0.236; 0.382; 0.5; 0.618; 0.786; 1.0] |}.

Definition orElse {A} (o : option A) (d : A) : A :=
  match o with Some a => a | None => d end.

(** [{ ...target, ...source }]. *)
Definition spread (target : FibonacciOptions) (source : PartialFibonacciOptions)
  : FibonacciOptions :=
  {| color := orElse (p_color source) (color target);
     lineWidth := orElse (p_lineWidth source) (lineWidth target);
     lineStyle := orElse (p_lineStyle source) (lineStyle target);
     showLabels := orElse (p_showLabels source) (showLabels target);
     extendLines := orElse (p_extendLines source) (extendLines target);
     levels := orElse (p_levels source) (levels target) |}.

Record FibonacciRetracement : Type :=
  { _data : FibonacciData; _options : FibonacciOptions }.

Definition new (data : FibonacciData) (options : option PartialFibonacciOptions)
  : FibonacciRetracement :=
  {| _data := data;
     _options := spread defaultFibonacciOptions (orElse options noOptions) |}.

Definition applyOptions (options : PartialFibonacciOptions) (f : FibonacciRetracement)
  : FibonacciRetracement :=
  {| _data := _data f; _options := spread (_options f) options |}.

Definition updatePoints (p1 p2 : option FibonacciPoint) (f : FibonacciRetracement)
  : FibonacciRetracement :=
  let d := _data f in
  {| _data := {| id := id d;
                 point1 := orElse p1 (point1 d);
                 point2 := orElse p2 (point2 d) |};
     _options := _options f |}.

Record LevelPrice : Type :=
  { level : float; price : float; percentage : string }.

Section CalculateLevels.

(** [Number.prototype.toFixed], a built-in of the host. *)
Variable toFixed : float -> Z -> string.

Definition calculateLevels (f : FibonacciRetracement) : list LevelPrice :=
  let point1 := point1 (_data f) in
  let point2 := point2 (_data f) in
  let priceRange := Js.Math_abs (value point2 - value point1) in
  let isUptrend := Js.gt (value point2) (value point1) in
  let baseLevelPrice := if isUptrend then value point2 else value point1 in
  map (fun level =>
         let retracement := priceRange * level in
         let price := if isUptrend then baseLevelPrice - retracement
                      else baseLevelPrice + retracement in
         let percentage := toFixed (level * 100) 1 ++ "%" in
         {| level := level; price := price; percentage := percentage |})
      (levels (_options f)).

End CalculateLevels.

Definition getTimeRange (f : FibonacciRetracement) : float * float :=
  let p1 := point1 (_data f) in
  let p2 := point2 (_data f) in
  (Js.Math_min (time p1) (time p2), Js.Math_max (time p1) (time p2)).

Definition isTimeInRange (f : FibonacciRetracement) (t : float) : bool :=
  let '(startTime, endTime) := getTimeRange f in
  extendLines (_options f) || (Js.ge t startTime && Js.le t endTime).

(** The level prices as the specification words them: the base is the
    higher anchor in an uptrend and the lower anchor in a downtrend. *)
Definition spec_levelPrices (f : FibonacciRetracement) : list (float * float) :=
  let p1 := value (point1 (_data f)) in
  let p2 := value (point2 (_data f)) in
  let range := Js.Math_abs (p2 - p1) in
  let isUptrend := Js.gt p2 p1 in
  let base := if isUptrend then Js.Math_max p1 p2 else Js.Math_min p1 p2 in
  map (fun l => (l, if isUptrend then base - range * l else base + range * l))
      (levels (_options f)).

Definition levelPrices (ls : list LevelPrice) : list (float * float) :=
  map (fun lp => (level lp, price lp)) ls.

Definition retracement (p1 p2 : float) : FibonacciRetracement :=
  new {| id := "fib";
         point1 := {| time := 0; value := p1 |};
         point2 := {| time := 1; value := p2 |} |} None.

End Fibonacci.

(* ------------------------------------------------------------------ *)
(** ** Completions of a call: normal, or abrupt by a thrown [Error] *)

Module Completion.

Inductive Error : Type :=
| MkError (message : string)   (* [new Error(message)] *)
| ValueIsNull.                 (* raised by [ensureNotNull] *)

Inductive t (A : Type) : Type :=
| Normal (a : A)
| Throw (e : Error).

Arguments Normal {A} a.
Arguments Throw {A} e.

Definition isThrow {A} (c : t A) : bool :=
  match c with Throw _ => true | Normal _ => false end.

(** [helpers/assertions.ensureNotNull]: its type, [T | null -> T], leaves
    nothing to return on [null] but an exception. *)
Definition ensureNotNull {A} (v : option A) : t A :=
  match v with Some a => Normal a | None => Throw ValueIsNull end.

(** A method running on a state [S] that may throw: the state reached
    when the exception leaves the method is kept. *)
Definition M (S A : Type) : Type := S -> t A * S.

Definition ret {S A} (a : A) : M S A := fun s => (Normal a, s).

Definition bind {S A B} (m : M S A) (k : A -> M S B) : M S B :=
  fun s => match m s with
           | (Normal a, s') => k a s'
           | (Throw e, s') => (Throw e, s')
           end.

Definition throw {S A} (e : Error) : M S A := fun s => (Throw e, s).

(** A statement that cannot throw. *)
Definition exec {S} (f : S -> S) : M S unit := fun s => (Normal tt, f s).

Definition gets {S A} (f : S -> A) : M S A := fun s => (Normal (f s), s).

Definition lift {S A} (c : t A) : M S A := fun s => (c, s).

(** [list.forEach(x => body(x))]. *)
Fixpoint forEach {S A} (l : list A) (body : A -> M S unit) : M S unit :=
  match l with
  | [] => ret tt
  | x :: l' => bind (body x) (fun _ => forEach l' body)
  end.

End Completion.

Declare Scope js_scope.
Delimit Scope js_scope with js.
Notation "x <- m ;; k" := (Completion.bind m (fun x => k))
  (at level 61, m at next level, right associativity) : js_scope.
Notation "m ;; k" := (Completion.bind m (fun _ => k))
  (at level 61, right associativity) : js_scope.

(* ------------------------------------------------------------------ *)
(** ** The time scale and the price scale, as the drawing code sees them

    Neither class is part of the sources at hand; the records hold the
    answers of the methods that the embedded code calls.  A method whose
    answer the callers compare with [null] or [undefined] answers an
    [option]. *)

Module TimeScale.

Record TimeScalePoint : Type := { originalTime : option float }.

Record t : Type :=
  { baseIndex : Z;
    indexToCoordinate : Z -> option float;
    indexToTimeScalePoint : Z -> option TimeScalePoint;
    coordinateToIndex : float -> option Z;
    timeToIndex : float -> bool -> option Z }.

(** [timeScale.indexToTimeScalePoint(i)?.originalTime] *)
Definition originalTimeAt (ts : t) (i : Z) : option float :=
  match indexToTimeScalePoint ts i with
  | Some p => originalTime p
  | None => None
  end.

End TimeScale.

Module PriceScale.

Record t : Type :=
  { id : string;
    firstValue : option float;
    coordinateToPrice : float -> float -> option float;
    priceToCoordinate : float -> float -> option float }.

(** The fields of [PriceScaleOptions] that the sources read or set. *)
Record PriceScaleOptions : Type := { autoScale : bool; visible : bool }.

(** [DeepPartial<PriceScaleOptions>] *)
Record Patch : Type := { p_autoScale : option bool; p_visible : option bool }.

Definition merge (o : PriceScaleOptions) (p : Patch) : PriceScaleOptions :=
  {| autoScale := match p_autoScale p with Some b => b | None => autoScale o end;
     visible := match p_visible p with Some b => b | None => visible o end |}.

(** Modelled from the spec: the enum [DefaultPriceScaleId] is declared in
    model/default-price-scale, which is not among the sources; the data
    model names the two default sides of a pane, left and right. *)
Definition DefaultPriceScaleId_Left : string := "left".
Definition DefaultPriceScaleId_Right : string := "right".

End PriceScale.

(* ------------------------------------------------------------------ *)
(** ** Trendline (model/trendline, model/trendline-data) *)

Module Trendline.

Local Open Scope string_scope.

(** [Time] is [string | number]; the drawing code reads it [as number]. *)
Record TrendlinePoint : Type := { time : float; value : float }.

Record TrendlineData : Type :=
  { id : string; point1 : TrendlinePoint; point2 : TrendlinePoint }.

Inductive LineStyle : Type := solid | dashed | dotted.
Inductive Extend : Type := extend_left | extend_right | extend_both | extend_none.

Record TrendlineOptions : Type :=
  { color : string;
    lineWidth : float;
    lineStyle : LineStyle;
    extend : Extend;
    visible : bool }.

Record PartialOptions : Type :=
  { p_color : option string;
    p_lineWidth : option float;
    p_lineStyle : option LineStyle;
    p_extend : option Extend;
    p_visible : option bool }.

Definition noOptions : PartialOptions :=
  {| p_color := None; p_lineWidth := None; p_lineStyle := None;
     p_extend := None; p_visible := None |}.

Definition defaultTrendlineOptions : TrendlineOptions :=
  {| color := "#2196F3";
     lineWidth := 1%float;
     lineStyle := solid;
     extend := extend_none;
     visible := true |}.

Definition orElse {A} (o : option A) (d : A) : A :=
  match o with Some a => a | None => d end.

(** The local [merge(target, source)]: [{ ...target, ...source }]. *)
Definition merge (target : TrendlineOptions) (source : PartialOptions)
  : TrendlineOptions :=
  {| color := orElse (p_color source) (color target);
     lineWidth := orElse (p_lineWidth source) (lineWidth target);
     lineStyle := orElse (p_lineStyle source) (lineStyle target);
     extend := orElse (p_extend source) (extend target);
     visible := orElse (p_visible source) (visible target) |}.

Record t : Type := { _data : TrendlineData; _options : TrendlineOptions }.

Definition new (data : TrendlineData) (options : option PartialOptions) : t :=
  {| _data := data;
     _options := merge defaultTrendlineOptions (orElse options noOptions) |}.

Definition updateOptions (options : PartialOptions) (tl : t) : t :=
  {| _data := _data tl; _options := merge (_options tl) options |}.

(** [Partial<TrendlineData>] *)
Record PartialData : Type :=
  { p_id : option string;
    p_point1 : option TrendlinePoint;
    p_point2 : option TrendlinePoint }.

Definition updateData (data : PartialData) (tl : t) : t :=
  let d := _data tl in
  {| _data := {| id := orElse (p_id data) (id d);
                 point1 := orElse (p_point1 data) (point1 d);
                 point2 := orElse (p_point2 data) (point2 d) |};
     _options := _options tl |}.

End Trendline.

(* ------------------------------------------------------------------ *)
(** ** Invalidation masks *)

Module InvalidateMask.

Inductive InvalidationLevel : Type := LevelNone | Cursor | Light | Full.

Definition levelRank (l : InvalidationLevel) : nat :=
  match l with LevelNone => 0 | Cursor => 1 | Light => 2 | Full => 3 end.

Definition levelMax (a b : InvalidationLevel) : InvalidationLevel :=
  if Nat.leb (levelRank a) (levelRank b) then b else a.

Record PaneInvalidation : Type :=
  { level : InvalidationLevel; autoScale : bool }.

Record LogicalRange : Type := { from : float; to : float }.

(** [ITimeScaleAnimation] *)
Record Animation : Type :=
  { finished : float -> bool; getPosition : float -> float }.

Inductive TimeScaleInvalidation : Type :=
| FitContent
| ApplyRange (value : LogicalRange)
| ApplyBarSpacing (value : float)
| ApplyRightOffset (value : float)
| ResetTimeScale
| AnimationTick (value : Animation).

(** Modelled from the spec: the class [InvalidateMask] lives in
    model/invalidate-mask, which is not among the sources.  The data
    model gives it a per-pane record of level and auto-scale flag, a
    global level and an ordered sequence of time-scale invalidations;
    merging takes the maximum level per pane, ORs the auto-scale flags
    and concatenates the time-scale invalidations. *)
Record t : Type :=
  { globalLevel : InvalidationLevel;
    invalidatedPanes : list (Z * PaneInvalidation);
    timeScaleInvalidations : list TimeScaleInvalidation }.

(** Modelled from the spec: [new InvalidateMask(level)], a mask of the
    global level [level] with no pane record and no time-scale
    invalidation. *)
Definition ofLevel (l : InvalidationLevel) : t :=
  {| globalLevel := l; invalidatedPanes := []; timeScaleInvalidations := [] |}.

(** Modelled from the spec: [InvalidateMask.full()] and
    [InvalidateMask.light()]. *)
Definition full : t := ofLevel Full.
Definition light : t := ofLevel Light.

Fixpoint findPane (ps : list (Z * PaneInvalidation)) (i : Z) : option PaneInvalidation :=
  match ps with
  | [] => None
  | (j, inv) :: ps' => if Z.eqb j i then Some inv else findPane ps' i
  end.

Definition joinPane (a b : PaneInvalidation) : PaneInvalidation :=
  {| level := levelMax (level a) (level b);
     autoScale := autoScale a || autoScale b |}.

Fixpoint upsertPane (ps : list (Z * PaneInvalidation)) (i : Z) (inv : PaneInvalidation)
  : list (Z * PaneInvalidation) :=
  match ps with
  | [] => [(i, inv)]
  | (j, old) :: ps' =>
      if Z.eqb j i then (j, joinPane old inv) :: ps'
      else (j, old) :: upsertPane ps' i inv
  end.

(** Modelled from the spec: [invalidatePane(index, invalidation)] joins
    the record into the one of the pane. *)
Definition invalidatePane (i : Z) (inv : PaneInvalidation) (m : t) : t :=
  {| globalLevel := globalLevel m;
     invalidatedPanes := upsertPane (invalidatedPanes m) i inv;
     timeScaleInvalidations := timeScaleInvalidations m |}.

Definition fullInvalidation (m : t) : InvalidationLevel := globalLevel m.

Definition invalidateForPane (m : t) (i : Z) : PaneInvalidation :=
  match findPane (invalidatedPanes m) i with
  | Some inv => {| level := levelMax (globalLevel m) (level inv);
                   autoScale := autoScale inv |}
  | None => {| level := globalLevel m; autoScale := false |}
  end.

Definition addTimeScaleInvalidation (i : TimeScaleInvalidation) (m : t) : t :=
  {| globalLevel := globalLevel m;
     invalidatedPanes := invalidatedPanes m;
     timeScaleInvalidations := timeScaleInvalidations m ++ [i] |}.

Definition setTimeScaleAnimation (a : Animation) (m : t) : t :=
  addTimeScaleInvalidation (AnimationTick a) m.

(** Modelled from the spec: [merge(other)], the maximum level per pane
    and globally, the auto-scale flags ORed, the time-scale
    invalidations of [other] after those of the mask. *)
Definition merge (m other : t) : t :=
  {| globalLevel := levelMax (globalLevel m) (globalLevel other);
     invalidatedPanes :=
       fold_left (fun acc p => upsertPane acc (fst p) (snd p))
                 (invalidatedPanes other) (invalidatedPanes m);
     timeScaleInvalidations :=
       timeScaleInvalidations m ++ timeScaleInvalidations other |}.

End InvalidateMask.

(* ------------------------------------------------------------------ *)
(** ** Series, panes and the crosshair, as the chart model uses them *)

Module Series.

(** A series is an object; [uid] is its identity. *)
Record t : Type := { uid : nat; priceScaleId : option string }.

Definition same (a b : t) : bool := Nat.eqb (uid a) (uid b).

End Series.

Module Pane.

(** What a pane answers to [defaultPriceScale()] and [priceScaleById(id)]. *)
Record Scales : Type :=
  { defaultPriceScale : PriceScale.t;
    priceScaleById : string -> option PriceScale.t }.

(** Modelled from the spec: the class [Pane] lives in model/pane, which
    is not among the sources.  The data model gives a pane an ordered
    list of data sources, its price scales and a stretch factor.  A pane
    is an object; [uid] is its identity.  Its data sources are the
    series added to it; [appliedScaleOptions] records the option patches
    handed to its price scales, by scale id, oldest first. *)
Record t : Type :=
  { uid : nat;
    dataSources : list Series.t;
    stretchFactor : float;
    scales : Scales;
    appliedScaleOptions : list (string * PriceScale.Patch) }.

Definition same (a b : t) : bool := Nat.eqb (uid a) (uid b).

Definition new (uid : nat) (stretch : float) (sc : Scales) : t :=
  {| uid := uid; dataSources := []; stretchFactor := stretch;
     scales := sc; appliedScaleOptions := [] |}.

Definition series (p : t) : list Series.t := dataSources p.
Definition orderedSources (p : t) : list Series.t := dataSources p.

Definition includes (l : list Series.t) (s : Series.t) : bool :=
  existsb (fun s' => Series.same s' s) l.

Definition setStretchFactor (f : float) (p : t) : t :=
  {| uid := uid p; dataSources := dataSources p; stretchFactor := f;
     scales := scales p; appliedScaleOptions := appliedScaleOptions p |}.

Definition setDataSources (l : list Series.t) (p : t) : t :=
  {| uid := uid p; dataSources := l; stretchFactor := stretchFactor p;
     scales := scales p; appliedScaleOptions := appliedScaleOptions p |}.

Definition removeDataSource (s : Series.t) (p : t) : t :=
  setDataSources (filter (fun s' => negb (Series.same s' s)) (dataSources p)) p.

Definition addDataSource (s : Series.t) (p : t) : t :=
  setDataSources (dataSources p ++ [s]) p.

Definition applyOptionsToScale (scaleId : string) (patch : PriceScale.Patch) (p : t) : t :=
  {| uid := uid p; dataSources := dataSources p; stretchFactor := stretchFactor p;
     scales := scales p;
     appliedScaleOptions := appliedScaleOptions p ++ [(scaleId, patch)] |}.

End Pane.

Module Crosshair.

(** Modelled from the spec: the class [Crosshair] lives in
    model/crosshair, which is not among the sources.  The data model
    gives it a position, the pane it is on, its visibility and the
    center-dot flag; the fields are those that the chart widget writes
    directly. *)
Record t : Type :=
  { _visible : bool;
    _showCenterDot : bool;
    _x : float;
    _y : float;
    _price : float;
    _pane : option nat }.

Definition set_visible (b : bool) (c : t) : t :=
  {| _visible := b; _showCenterDot := _showCenterDot c; _x := _x c; _y := _y c;
     _price := _price c; _pane := _pane c |}.

Definition set_showCenterDot (b : bool) (c : t) : t :=
  {| _visible := _visible c; _showCenterDot := b; _x := _x c; _y := _y c;
     _price := _price c; _pane := _pane c |}.

Definition set_position (x y : float) (c : t) : t :=
  {| _visible := _visible c; _showCenterDot := _showCenterDot c; _x := x; _y := y;
     _price := _price c; _pane := _pane c |}.

Definition set_price_pane (price : float) (pane : nat) (c : t) : t :=
  {| _visible := _visible c; _showCenterDot := _showCenterDot c; _x := _x c; _y := _y c;
     _price := price; _pane := Some pane |}.

Definition isDrawingMode (c : t) : bool := _showCenterDot c.

End Crosshair.

(** An anchor being placed: [{ x, y, time, price }]. *)
Record DrawPoint : Type :=
  { dp_x : float; dp_y : float; dp_time : float; dp_price : float }.

(* ------------------------------------------------------------------ *)
(** ** The state of the chart model (model/chart-model) *)

Module ChartModelState.

(** The chart options that the embedded code reads or writes. *)
Record ChartOptions : Type :=
  { crosshair_mode : Z;
    leftPriceScale : PriceScale.PriceScaleOptions;
    rightPriceScale : PriceScale.PriceScaleOptions }.

(** [DeepPartial<ChartOptionsInternal>], on the same fields. *)
Record ChartOptionsPatch : Type :=
  { patch_crosshair_mode : option Z;
    patch_leftPriceScale : option PriceScale.Patch;
    patch_rightPriceScale : option PriceScale.Patch }.

Definition merge (o : ChartOptions) (p : ChartOptionsPatch) : ChartOptions :=
  {| crosshair_mode :=
       match patch_crosshair_mode p with Some m => m | None => crosshair_mode o end;
     leftPriceScale :=
       match patch_leftPriceScale p with
       | Some q => PriceScale.merge (leftPriceScale o) q
       | None => leftPriceScale o
       end;
     rightPriceScale :=
       match patch_rightPriceScale p with
       | Some q => PriceScale.merge (rightPriceScale o) q
       | None => rightPriceScale o
       end |}.

Record PaneData : Type := { pd_id : string; pd_title : string; pd_height : float }.

Record t : Type :=
  { _options : ChartOptions;
    _timeScale : TimeScale.t;
    _panes : list Pane.t;
    _crosshair : Crosshair.t;
    _serieses : list Series.t;
    _currentSymbol : string;
    _trendlinesBySymbol : JsMap.t (JsMap.t Trendline.t);
    _fibonacciRetrracementsBySymbol : JsMap.t (JsMap.t Fibonacci.FibonacciRetracement);
    _trendlines : JsMap.t Trendline.t;
    _fibonacciRetracements : JsMap.t Fibonacci.FibonacciRetracement;
    _isDrawingTrendline : bool;
    _trendlineStartPoint : option DrawPoint;
    _trendlinePreviewEnd : option DrawPoint;
    _paneDataMap : list (Z * PaneData);
    _nextPaneId : Z;
    (** allocator of identities for the panes created by the model *)
    nextPaneUid : nat }.

Definition set_options (v : ChartOptions) (m : t) : t :=
  {| _options := v; _timeScale := _timeScale m; _panes := _panes m;
     _crosshair := _crosshair m; _serieses := _serieses m;
     _currentSymbol := _currentSymbol m;
     _trendlinesBySymbol := _trendlinesBySymbol m;
     _fibonacciRetrracementsBySymbol := _fibonacciRetrracementsBySymbol m;
     _trendlines := _trendlines m;
     _fibonacciRetracements := _fibonacciRetracements m;
     _isDrawingTrendline := _isDrawingTrendline m;
     _trendlineStartPoint := _trendlineStartPoint m;
     _trendlinePreviewEnd := _trendlinePreviewEnd m;
     _paneDataMap := _paneDataMap m; _nextPaneId := _nextPaneId m;
     nextPaneUid := nextPaneUid m |}.

Definition set_panes (v : list Pane.t) (m : t) : t :=
  {| _options := _options m; _timeScale := _timeScale m; _panes := v;
     _crosshair := _crosshair m; _serieses := _serieses m;
     _currentSymbol := _currentSymbol m;
     _trendlinesBySymbol := _trendlinesBySymbol m;
     _fibonacciRetrracementsBySymbol := _fibonacciRetrracementsBySymbol m;
     _trendlines := _trendlines m;
     _fibonacciRetracements := _fibonacciRetracements m;
     _isDrawingTrendline := _isDrawingTrendline m;
     _trendlineStartPoint := _trendlineStartPoint m;
     _trendlinePreviewEnd := _trendlinePreviewEnd m;
     _paneDataMap := _paneDataMap m; _nextPaneId := _nextPaneId m;
     nextPaneUid := nextPaneUid m |}.

Definition set_crosshair (v : Crosshair.t) (m : t) : t :=
  {| _options := _options m; _timeScale := _timeScale m; _panes := _panes m;
     _crosshair := v; _serieses := _serieses m;
     _currentSymbol := _currentSymbol m;
     _trendlinesBySymbol := _trendlinesBySymbol m;
     _fibonacciRetrracementsBySymbol := _fibonacciRetrracementsBySymbol m;
     _trendlines := _trendlines m;
     _fibonacciRetracements := _fibonacciRetracements m;
     _isDrawingTrendline := _isDrawingTrendline m;
     _trendlineStartPoint := _trendlineStartPoint m;
     _trendlinePreviewEnd := _trendlinePreviewEnd m;
     _paneDataMap := _paneDataMap m; _nextPaneId := _nextPaneId m;
     nextPaneUid := nextPaneUid m |}.

Definition set_serieses (v : list Series.t) (m : t) : t :=
  {| _options := _options m; _timeScale := _timeScale m; _panes := _panes m;
     _crosshair := _crosshair m; _serieses := v;
     _currentSymbol := _currentSymbol m;
     _trendlinesBySymbol := _trendlinesBySymbol m;
     _fibonacciRetrracementsBySymbol := _fibonacciRetrracementsBySymbol m;
     _trendlines := _trendlines m;
     _fibonacciRetracements := _fibonacciRetracements m;
     _isDrawingTrendline := _isDrawingTrendline m;
     _trendlineStartPoint := _trendlineStartPoint m;
     _trendlinePreviewEnd := _trendlinePreviewEnd m;
     _paneDataMap := _paneDataMap m; _nextPaneId := _nextPaneId m;
     nextPaneUid := nextPaneUid m |}.

Definition set_currentSymbol (v : string) (m : t) : t :=
  {| _options := _options m; _timeScale := _timeScale m; _panes := _panes m;
     _crosshair := _crosshair m; _serieses := _serieses m;
     _currentSymbol := v;
     _trendlinesBySymbol := _trendlinesBySymbol m;
     _fibonacciRetrracementsBySymbol := _fibonacciRetrracementsBySymbol m;
     _trendlines := _trendlines m;
     _fibonacciRetracements := _fibonacciRetracements m;
     _isDrawingTrendline := _isDrawingTrendline m;
     _trendlineStartPoint := _trendlineStartPoint m;
     _trendlinePreviewEnd := _trendlinePreviewEnd m;
     _paneDataMap := _paneDataMap m; _nextPaneId := _nextPaneId m;
     nextPaneUid := nextPaneUid m |}.

Definition set_trendlineStores
    (bySymbol : JsMap.t (JsMap.t Trendline.t)) (global : JsMap.t Trendline.t) (m : t) : t :=
  {| _options := _options m; _timeScale := _timeScale m; _panes := _panes m;
     _crosshair := _crosshair m; _serieses := _serieses m;
     _currentSymbol := _currentSymbol m;
     _trendlinesBySymbol := bySymbol;
     _fibonacciRetrracementsBySymbol := _fibonacciRetrracementsBySymbol m;
     _trendlines := global;
     _fibonacciRetracements := _fibonacciRetracements m;
     _isDrawingTrendline := _isDrawingTrendline m;
     _trendlineStartPoint := _trendlineStartPoint m;
     _trendlinePreviewEnd := _trendlinePreviewEnd m;
     _paneDataMap := _paneDataMap m; _nextPaneId := _nextPaneId m;
     nextPaneUid := nextPaneUid m |}.

Definition set_fibonacciStores
    (bySymbol : JsMap.t (JsMap.t Fibonacci.FibonacciRetracement))
    (global : JsMap.t Fibonacci.FibonacciRetracement) (m : t) : t :=
  {| _options := _options m; _timeScale := _timeScale m; _panes := _panes m;
     _crosshair := _crosshair m; _serieses := _serieses m;
     _currentSymbol := _currentSymbol m;
     _trendlinesBySymbol := _trendlinesBySymbol m;
     _fibonacciRetrracementsBySymbol := bySymbol;
     _trendlines := _trendlines m;
     _fibonacciRetracements := global;
     _isDrawingTrendline := _isDrawingTrendline m;
     _trendlineStartPoint := _trendlineStartPoint m;
     _trendlinePreviewEnd := _trendlinePreviewEnd m;
     _paneDataMap := _paneDataMap m; _nextPaneId := _nextPaneId m;
     nextPaneUid := nextPaneUid m |}.

Definition set_drawing
    (isDrawing : bool) (startPoint previewEnd : option DrawPoint) (m : t) : t :=
  {| _options := _options m; _timeScale := _timeScale m; _panes := _panes m;
     _crosshair := _crosshair m; _serieses := _serieses m;
     _currentSymbol := _currentSymbol m;
     _trendlinesBySymbol := _trendlinesBySymbol m;
     _fibonacciRetrracementsBySymbol := _fibonacciRetrracementsBySymbol m;
     _trendlines := _trendlines m;
     _fibonacciRetracements := _fibonacciRetracements m;
     _isDrawingTrendline := isDrawing;
     _trendlineStartPoint := startPoint;
     _trendlinePreviewEnd := previewEnd;
     _paneDataMap := _paneDataMap m; _nextPaneId := _nextPaneId m;
     nextPaneUid := nextPaneUid m |}.

Definition set_paneData (v : list (Z * PaneData)) (next : Z) (m : t) : t :=
  {| _options := _options m; _timeScale := _timeScale m; _panes := _panes m;
     _crosshair := _crosshair m; _serieses := _serieses m;
     _currentSymbol := _currentSymbol m;
     _trendlinesBySymbol := _trendlinesBySymbol m;
     _fibonacciRetrracementsBySymbol := _fibonacciRetrracementsBySymbol m;
     _trendlines := _trendlines m;
     _fibonacciRetracements := _fibonacciRetracements m;
     _isDrawingTrendline := _isDrawingTrendline m;
     _trendlineStartPoint := _trendlineStartPoint m;
     _trendlinePreviewEnd := _trendlinePreviewEnd m;
     _paneDataMap := v; _nextPaneId := next;
     nextPaneUid := nextPaneUid m |}.

Definition set_nextPaneUid (v : nat) (m : t) : t :=
  {| _options := _options m; _timeScale := _timeScale m; _panes := _panes m;
     _crosshair := _crosshair m; _serieses := _serieses m;
     _currentSymbol := _currentSymbol m;
     _trendlinesBySymbol := _trendlinesBySymbol m;
     _fibonacciRetrracementsBySymbol := _fibonacciRetrracementsBySymbol m;
     _trendlines := _trendlines m;
     _fibonacciRetracements := _fibonacciRetracements m;
     _isDrawingTrendline := _isDrawingTrendline m;
     _trendlineStartPoint := _trendlineStartPoint m;
     _trendlinePreviewEnd := _trendlinePreviewEnd m;
     _paneDataMap := _paneDataMap m; _nextPaneId := _nextPaneId m;
     nextPaneUid := v |}.

(** The fields at their initialisers, before the constructor body runs. *)
Definition initial (options : ChartOptions) (timeScale : TimeScale.t)
    (crosshair : Crosshair.t) : t :=
  {| _options := options; _timeScale := timeScale; _panes := [];
     _crosshair := crosshair; _serieses := [];
     _currentSymbol := EmptyString;
     _trendlinesBySymbol := JsMap.empty;
     _fibonacciRetrracementsBySymbol := JsMap.empty;
     _trendlines := JsMap.empty;
     _fibonacciRetracements := JsMap.empty;
     _isDrawingTrendline := false;
     _trendlineStartPoint := None;
     _trendlinePreviewEnd := None;
     _paneDataMap := []; _nextPaneId := 1%Z;
     nextPaneUid := 0 |}.

End ChartModelState.

(* ------------------------------------------------------------------ *)
(** ** The state of the chart widget (gui/chart-widget) and of its host *)

Module ChartWidgetState.

(** The part of [window] that the widget talks to: the handles of the
    animation-frame callbacks requested and not yet run, oldest first,
    and the handle that the next request returns. *)
Record Window : Type :=
  { animationFrameRequests : list Z;
    nextAnimationFrameHandle : Z }.

(** gui/toolbar-widget *)
Record ToolbarWidget : Type :=
  { _isTrendlineActive : bool; _isFibonacciActive : bool }.

Record t : Type :=
  { _model : ChartModelState.t;
    _drawRafId : Z;
    _invalidateMask : option InvalidateMask.t;
    _drawPlanned : bool;
    _cursorStyleOverride : option string;
    _toolbarWidget : option ToolbarWidget;
    _isDrawingTrendline : bool;
    _trendlineStartPoint : option DrawPoint;
    _trendlinePreviewEnd : option DrawPoint;
    _originalCrosshairMode : option Z;
    _isDrawingFibonacci : bool;
    _fibonacciStartPoint : option DrawPoint;
    _fibonacciPreviewEnd : option DrawPoint;
    window : Window }.

Definition set_model (v : ChartModelState.t) (w : t) : t :=
  {| _model := v; _drawRafId := _drawRafId w; _invalidateMask := _invalidateMask w;
     _drawPlanned := _drawPlanned w; _cursorStyleOverride := _cursorStyleOverride w;
     _toolbarWidget := _toolbarWidget w;
     _isDrawingTrendline := _isDrawingTrendline w;
     _trendlineStartPoint := _trendlineStartPoint w;
     _trendlinePreviewEnd := _trendlinePreviewEnd w;
     _originalCrosshairMode := _originalCrosshairMode w;
     _isDrawingFibonacci := _isDrawingFibonacci w;
     _fibonacciStartPoint := _fibonacciStartPoint w;
     _fibonacciPreviewEnd := _fibonacciPreviewEnd w;
     window := window w |}.

Definition set_drawRafId (v : Z) (w : t) : t :=
  {| _model := _model w; _drawRafId := v; _invalidateMask := _invalidateMask w;
     _drawPlanned := _drawPlanned w; _cursorStyleOverride := _cursorStyleOverride w;
     _toolbarWidget := _toolbarWidget w;
     _isDrawingTrendline := _isDrawingTrendline w;
     _trendlineStartPoint := _trendlineStartPoint w;
     _trendlinePreviewEnd := _trendlinePreviewEnd w;
     _originalCrosshairMode := _originalCrosshairMode w;
     _isDrawingFibonacci := _isDrawingFibonacci w;
     _fibonacciStartPoint := _fibonacciStartPoint w;
     _fibonacciPreviewEnd := _fibonacciPreviewEnd w;
     window := window w |}.

Definition set_invalidateMask (v : option InvalidateMask.t) (w : t) : t :=
  {| _model := _model w; _drawRafId := _drawRafId w; _invalidateMask := v;
     _drawPlanned := _drawPlanned w; _cursorStyleOverride := _cursorStyleOverride w;
     _toolbarWidget := _toolbarWidget w;
     _isDrawingTrendline := _isDrawingTrendline w;
     _trendlineStartPoint := _trendlineStartPoint w;
     _trendlinePreviewEnd := _trendlinePreviewEnd w;
     _originalCrosshairMode := _originalCrosshairMode w;
     _isDrawingFibonacci := _isDrawingFibonacci w;
     _fibonacciStartPoint := _fibonacciStartPoint w;
     _fibonacciPreviewEnd := _fibonacciPreviewEnd w;
     window := window w |}.

Definition set_drawPlanned (v : bool) (w : t) : t :=
  {| _model := _model w; _drawRafId := _drawRafId w; _invalidateMask := _invalidateMask w;
     _drawPlanned := v; _cursorStyleOverride := _cursorStyleOverride w;
     _toolbarWidget := _toolbarWidget w;
     _isDrawingTrendline := _isDrawingTrendline w;
     _trendlineStartPoint := _trendlineStartPoint w;
     _trendlinePreviewEnd := _trendlinePreviewEnd w;
     _originalCrosshairMode := _originalCrosshairMode w;
     _isDrawingFibonacci := _isDrawingFibonacci w;
     _fibonacciStartPoint := _fibonacciStartPoint w;
     _fibonacciPreviewEnd := _fibonacciPreviewEnd w;
     window := window w |}.

Definition set_cursorStyleOverride (v : option string) (w : t) : t :=
  {| _model := _model w; _drawRafId := _drawRafId w; _invalidateMask := _invalidateMask w;
     _drawPlanned := _drawPlanned w; _cursorStyleOverride := v;
     _toolbarWidget := _toolbarWidget w;
     _isDrawingTrendline := _isDrawingTrendline w;
     _trendlineStartPoint := _trendlineStartPoint w;
     _trendlinePreviewEnd := _trendlinePreviewEnd w;
     _originalCrosshairMode := _originalCrosshairMode w;
     _isDrawingFibonacci := _isDrawingFibonacci w;
     _fibonacciStartPoint := _fibonacciStartPoint w;
     _fibonacciPreviewEnd := _fibonacciPreviewEnd w;
     window := window w |}.

Definition set_toolbarWidget (v : option ToolbarWidget) (w : t) : t :=
  {| _model := _model w; _drawRafId := _drawRafId w; _invalidateMask := _invalidateMask w;
     _drawPlanned := _drawPlanned w; _cursorStyleOverride := _cursorStyleOverride w;
     _toolbarWidget := v;
     _isDrawingTrendline := _isDrawingTrendline w;
     _trendlineStartPoint := _trendlineStartPoint w;
     _trendlinePreviewEnd := _trendlinePreviewEnd w;
     _originalCrosshairMode := _originalCrosshairMode w;
     _isDrawingFibonacci := _isDrawingFibonacci w;
     _fibonacciStartPoint := _fibonacciStartPoint w;
     _fibonacciPreviewEnd := _fibonacciPreviewEnd w;
     window := window w |}.

Definition set_trendlineDrawing
    (isDrawing : bool) (startPoint previewEnd : option DrawPoint) (w : t) : t :=
  {| _model := _model w; _drawRafId := _drawRafId w; _invalidateMask := _invalidateMask w;
     _drawPlanned := _drawPlanned w; _cursorStyleOverride := _cursorStyleOverride w;
     _toolbarWidget := _toolbarWidget w;
     _isDrawingTrendline := isDrawing;
     _trendlineStartPoint := startPoint;
     _trendlinePreviewEnd := previewEnd;
     _originalCrosshairMode := _originalCrosshairMode w;
     _isDrawingFibonacci := _isDrawingFibonacci w;
     _fibonacciStartPoint := _fibonacciStartPoint w;
     _fibonacciPreviewEnd := _fibonacciPreviewEnd w;
     window := window w |}.

Definition set_originalCrosshairMode (v : option Z) (w : t) : t :=
  {| _model := _model w; _drawRafId := _drawRafId w; _invalidateMask := _invalidateMask w;
     _drawPlanned := _drawPlanned w; _cursorStyleOverride := _cursorStyleOverride w;
     _toolbarWidget := _toolbarWidget w;
     _isDrawingTrendline := _isDrawingTrendline w;
     _trendlineStartPoint := _trendlineStartPoint w;
     _trendlinePreviewEnd := _trendlinePreviewEnd w;
     _originalCrosshairMode := v;
     _isDrawingFibonacci := _isDrawingFibonacci w;
     _fibonacciStartPoint := _fibonacciStartPoint w;
     _fibonacciPreviewEnd := _fibonacciPreviewEnd w;
     window := window w |}.

Definition set_fibonacciDrawing
    (isDrawing : bool) (startPoint previewEnd : option DrawPoint) (w : t) : t :=
  {| _model := _model w; _drawRafId := _drawRafId w; _invalidateMask := _invalidateMask w;
     _drawPlanned := _drawPlanned w; _cursorStyleOverride := _cursorStyleOverride w;
     _toolbarWidget := _toolbarWidget w;
     _isDrawingTrendline := _isDrawingTrendline w;
     _trendlineStartPoint := _trendlineStartPoint w;
     _trendlinePreviewEnd := _trendlinePreviewEnd w;
     _originalCrosshairMode := _originalCrosshairMode w;
     _isDrawingFibonacci := isDrawing;
     _fibonacciStartPoint := startPoint;
     _fibonacciPreviewEnd := previewEnd;
     window := window w |}.

Definition set_window (v : Window) (w : t) : t :=
  {| _model := _model w; _drawRafId := _drawRafId w; _invalidateMask := _invalidateMask w;
     _drawPlanned := _drawPlanned w; _cursorStyleOverride := _cursorStyleOverride w;
     _toolbarWidget := _toolbarWidget w;
     _isDrawingTrendline := _isDrawingTrendline w;
     _trendlineStartPoint := _trendlineStartPoint w;
     _trendlinePreviewEnd := _trendlinePreviewEnd w;
     _originalCrosshairMode := _originalCrosshairMode w;
     _isDrawingFibonacci := _isDrawingFibonacci w;
     _fibonacciStartPoint := _fibonacciStartPoint w;
     _fibonacciPreviewEnd := _fibonacciPreviewEnd w;
     window := v |}.

Definition withModel (f : ChartModelState.t -> ChartModelState.t) (w : t) : t :=
  set_model (f (_model w)) w.

(** [window.requestAnimationFrame(callback)]: queues the callback and
    returns its handle. *)
Definition requestAnimationFrame (w : t) : Z * t :=
  let h := nextAnimationFrameHandle (window w) in
  (h, set_window {| animationFrameRequests := animationFrameRequests (window w) ++ [h];
                    nextAnimationFrameHandle := (h + 1)%Z |} w).

(** [ChartWidget._invalidateHandler], the handler that the widget binds
    and hands to its model.  The body of the frame callback is
    [ChartWidget.animationFrameCallback] below. *)
Definition _invalidateHandler (invalidateMask : InvalidateMask.t) (w : t) : t :=
  let w1 :=
    match _invalidateMask w with
    | Some pending => set_invalidateMask (Some (InvalidateMask.merge pending invalidateMask)) w
    | None => set_invalidateMask (Some invalidateMask) w
    end in
  if negb (_drawPlanned w1) then
    let w2 := set_drawPlanned true w1 in
    let '(handle, w3) := requestAnimationFrame w2 in
    set_drawRafId handle w3
  else w1.

(** Fields at their initialisers, around a model not yet constructed. *)
Definition initial (model : ChartModelState.t) (firstHandle : Z) : t :=
  {| _model := model; _drawRafId := 0%Z; _invalidateMask := None;
     _drawPlanned := false; _cursorStyleOverride := None;
     _toolbarWidget := None;
     _isDrawingTrendline := false;
     _trendlineStartPoint := None;
     _trendlinePreviewEnd := None;
     _originalCrosshairMode := None;
     _isDrawingFibonacci := false;
     _fibonacciStartPoint := None;
     _fibonacciPreviewEnd := None;
     window := {| animationFrameRequests := [];
                  nextAnimationFrameHandle := firstHandle |} |}.

End ChartWidgetState.

(* ------------------------------------------------------------------ *)
(** ** The methods of the chart model

    The model calls back into the widget through its invalidate handler,
    so a method that invalidates runs on the state of the widget that owns
    the model. *)

Module ChartModel.

Import ChartModelState ChartWidgetState.
Import Completion.
Local Open Scope Z_scope.
Local Open Scope js_scope.

Definition W : Type := ChartWidgetState.t.

(** *** Invalidation *)

(** The handler is always set; the grid views refreshed afterwards are
    caches of the renderers. *)
Definition _invalidate (mask : InvalidateMask.t) (w : W) : W :=
  _invalidateHandler mask w.

Definition fullUpdate (w : W) : W := _invalidate InvalidateMask.full w.
Definition lightUpdate (w : W) : W := _invalidate InvalidateMask.light w.
Definition cursorUpdate (w : W) : W :=
  _invalidate (InvalidateMask.ofLevel InvalidateMask.Cursor) w.

Definition setTimeScaleAnimation (a : InvalidateMask.Animation) (w : W) : W :=
  _invalidate (InvalidateMask.setTimeScaleAnimation a InvalidateMask.light) w.

(** *** Queries *)

Definition panes (w : W) : list Pane.t := _panes (_model w).
Definition options (w : W) : ChartOptions := _options (_model w).
Definition timeScale (w : W) : TimeScale.t := _timeScale (_model w).
Definition crosshairSource (w : W) : Crosshair.t := _crosshair (_model w).
Definition serieses (w : W) : list Series.t := _serieses (_model w).

Definition panesLength (w : W) : Z := Z.of_nat (List.length (panes w)).

Definition getPaneIndex (pane : Pane.t) (w : W) : Z :=
  Js.indexOf Pane.same pane (panes w).

Definition getPaneById (paneIndex : Z) (w : W) : option Pane.t :=
  if (0 <=? paneIndex) && (paneIndex <? panesLength w)
  then Js.index (panes w) paneIndex else None.

Definition paneForSource (source : Series.t) (w : W) : option Pane.t :=
  find (fun p => Pane.includes (Pane.orderedSources p) source) (panes w).

Definition _seriesPaneIndex (series : Series.t) (w : W) : Z :=
  Js.findIndex (fun p => Pane.includes (Pane.series p) series) (panes w).

Record PriceScaleOnPane : Type :=
  { pane : Pane.t; priceScale : PriceScale.t }.

Definition findPriceScale (priceScaleId : string) (paneIndex : Z) (w : W)
  : option PriceScaleOnPane :=
  match Js.index (panes w) paneIndex with
  | None => None
  | Some pane =>
      match Pane.priceScaleById (Pane.scales pane) priceScaleId with
      | Some priceScale => Some {| pane := pane; priceScale := priceScale |}
      | None => None
      end
  end.

(** A pane is an object held by reference: a method called on it
    changes every place of [_panes] that holds it. *)
Definition storePane (p : Pane.t) (w : W) : W :=
  withModel (fun m =>
    set_panes (map (fun q => if Pane.same q p then p else q) (_panes m)) m) w.

(** *** Trendline drawing state *)

Definition setTrendlineDrawingState (isDrawing : bool) (w : W) : W :=
  withModel (fun m =>
    if negb isDrawing then set_drawing isDrawing None None m
    else set_drawing isDrawing (ChartModelState._trendlineStartPoint m)
                     (ChartModelState._trendlinePreviewEnd m) m) w.

Definition isDrawingTrendline (w : W) : bool :=
  ChartModelState._isDrawingTrendline (_model w).

Definition setTrendlineStartPoint (point : option DrawPoint) (w : W) : W :=
  withModel (fun m =>
    set_drawing (ChartModelState._isDrawingTrendline m) point
                (ChartModelState._trendlinePreviewEnd m) m) w.

Definition getTrendlineStartPoint (w : W) : option DrawPoint :=
  ChartModelState._trendlineStartPoint (_model w).

Definition setTrendlinePreviewEnd (point : option DrawPoint) (w : W) : W :=
  withModel (fun m =>
    set_drawing (ChartModelState._isDrawingTrendline m)
                (ChartModelState._trendlineStartPoint m) point m) w.

Definition getTrendlinePreviewEnd (w : W) : option DrawPoint :=
  ChartModelState._trendlinePreviewEnd (_model w).

(** *** Annotations, per current symbol

    Saving to IndexedDB or localStorage is fire-and-forget towards an
    external store and leaves the model as it is. *)

Definition orEmpty {V} (o : option (JsMap.t V)) : JsMap.t V :=
  match o with Some m => m | None => JsMap.empty end.

(** [_getCurrentSymbolTrendlines()]: the map it returns. *)
Definition trendlines (w : W) : JsMap.t Trendline.t :=
  let m := _model w in
  if String.eqb (_currentSymbol m) EmptyString then ChartModelState._trendlines m
  else orEmpty (JsMap.get (_trendlinesBySymbol m) (_currentSymbol m)).

(** A change made through the map that [_getCurrentSymbolTrendlines()]
    returns; the call creates the map of the symbol when missing. *)
Definition onCurrentSymbolTrendlines
    (f : JsMap.t Trendline.t -> JsMap.t Trendline.t) (w : W) : W :=
  withModel (fun m =>
    if String.eqb (_currentSymbol m) EmptyString
    then set_trendlineStores (_trendlinesBySymbol m) (f (ChartModelState._trendlines m)) m
    else set_trendlineStores
           (JsMap.set (_trendlinesBySymbol m) (_currentSymbol m)
                      (f (orEmpty (JsMap.get (_trendlinesBySymbol m) (_currentSymbol m)))))
           (ChartModelState._trendlines m) m) w.

Definition addTrendline (data : Trendline.TrendlineData)
    (options : option Trendline.PartialOptions) (w : W) : string * W :=
  let trendline := Trendline.new data options in
  let w1 := onCurrentSymbolTrendlines
              (fun map => JsMap.set map (Trendline.id data) trendline) w in
  (Trendline.id data, fullUpdate w1).

Definition removeTrendline (id : string) (w : W) : W :=
  if JsMap.has (trendlines w) id
  then fullUpdate (onCurrentSymbolTrendlines (fun map => JsMap.delete map id) w)
  else onCurrentSymbolTrendlines (fun map => map) w.

Definition fibonacciRetracements (w : W) : JsMap.t Fibonacci.FibonacciRetracement :=
  let m := _model w in
  if String.eqb (_currentSymbol m) EmptyString then _fibonacciRetracements m
  else orEmpty (JsMap.get (_fibonacciRetrracementsBySymbol m) (_currentSymbol m)).

Definition onCurrentSymbolFibonacci
    (f : JsMap.t Fibonacci.FibonacciRetracement -> JsMap.t Fibonacci.FibonacciRetracement)
    (w : W) : W :=
  withModel (fun m =>
    if String.eqb (_currentSymbol m) EmptyString
    then set_fibonacciStores (_fibonacciRetrracementsBySymbol m)
                             (f (_fibonacciRetracements m)) m
    else set_fibonacciStores
           (JsMap.set (_fibonacciRetrracementsBySymbol m) (_currentSymbol m)
              (f (orEmpty (JsMap.get (_fibonacciRetrracementsBySymbol m)
                                     (_currentSymbol m)))))
           (_fibonacciRetracements m) m) w.

Definition addFibonacci (data : Fibonacci.FibonacciData)
    (options : option Fibonacci.PartialFibonacciOptions) (w : W) : string * W :=
  let fibonacciRetracement := Fibonacci.new data options in
  let w1 := onCurrentSymbolFibonacci
              (fun map => JsMap.set map (Fibonacci.id data) fibonacciRetracement) w in
  (Fibonacci.id data, fullUpdate w1).

Definition removeFibonacci (id : string) (w : W) : W :=
  fullUpdate (onCurrentSymbolFibonacci (fun map => JsMap.delete map id) w).

Definition setCurrentSymbol (symbol : string) (w : W) : W :=
  let w1 := withModel (set_currentSymbol symbol) w in
  let w2 := withModel (fun m =>
              if JsMap.has (_trendlinesBySymbol m) symbol then m
              else set_trendlineStores (JsMap.set (_trendlinesBySymbol m) symbol JsMap.empty)
                                       (ChartModelState._trendlines m) m) w1 in
  let w3 := withModel (fun m =>
              if JsMap.has (_fibonacciRetrracementsBySymbol m) symbol then m
              else set_fibonacciStores
                     (JsMap.set (_fibonacciRetrracementsBySymbol m) symbol JsMap.empty)
                     (_fibonacciRetracements m) m) w2 in
  fullUpdate w3.

(** [trendline(id)]: what the call returns. *)
Definition trendline (id : string) (w : W) : option Trendline.t :=
  JsMap.get (trendlines w) id.

(** The trendline is an object held by the map: updating it changes the
    entry stored under [id]. *)
Definition updateTrendline (id : string) (data : option Trendline.PartialData)
    (options : option Trendline.PartialOptions) (w : W) : W :=
  match JsMap.get (trendlines w) id with
  | Some trendline =>
      let updated :=
        let t1 := match data with
                  | Some data => Trendline.updateData data trendline
                  | None => trendline
                  end in
        match options with
        | Some options => Trendline.updateOptions options t1
        | None => t1
        end in
      fullUpdate (onCurrentSymbolTrendlines (fun map => JsMap.set map id updated) w)
  | None => onCurrentSymbolTrendlines (fun map => map) w
  end.

(** *** Options *)

(** [pane.applyScaleOptions(options)]: hands the left and right parts of
    the patch to the scales of those sides. *)
Definition Pane_applyScaleOptions (patch : ChartOptionsPatch) (p : Pane.t) : Pane.t :=
  let p1 := match patch_leftPriceScale patch with
            | Some q => Pane.applyOptionsToScale PriceScale.DefaultPriceScaleId_Left q p
            | None => p
            end in
  match patch_rightPriceScale patch with
  | Some q => Pane.applyOptionsToScale PriceScale.DefaultPriceScaleId_Right q p1
  | None => p1
  end.

Definition isSome {A} (o : option A) : bool :=
  match o with Some _ => true | None => false end.

(** [_priceScalesOptionsChanged.fire()]: its one subscriber is the
    [fullUpdate] that the chart widget subscribes. *)
Definition priceScalesOptionsChanged_fire (w : W) : W := fullUpdate w.

(** [applyOptions]; the time-scale and localization parts of the patch
    go to the time scale and are outside the record kept here. *)
Definition applyOptions (patch : ChartOptionsPatch) (w : W) : W :=
  let w1 := withModel (fun m => set_options (merge (ChartModelState._options m) patch) m) w in
  let w2 := withModel (fun m => set_panes (map (Pane_applyScaleOptions patch) (_panes m)) m) w1 in
  let w3 := if isSome (patch_leftPriceScale patch) || isSome (patch_rightPriceScale patch)
            then priceScalesOptionsChanged_fire w2 else w2 in
  fullUpdate w3.

Definition leftPatch (options : PriceScale.Patch) : ChartOptionsPatch :=
  {| patch_crosshair_mode := None; patch_leftPriceScale := Some options;
     patch_rightPriceScale := None |}.

Definition rightPatch (options : PriceScale.Patch) : ChartOptionsPatch :=
  {| patch_crosshair_mode := None; patch_leftPriceScale := None;
     patch_rightPriceScale := Some options |}.

Definition crosshairModePatch (mode : Z) : ChartOptionsPatch :=
  {| patch_crosshair_mode := Some mode; patch_leftPriceScale := None;
     patch_rightPriceScale := None |}.

(** [`${n}`] for an integer. *)
Definition Z_toString (n : Z) : string :=
  DecimalString.NilZero.string_of_int (Z.to_int n).

Section Methods.

(** [process.env.NODE_ENV], fixed by the build. *)
Variable NODE_ENV : string.

(** [helpers/assertions.assert(condition, message)]: the helper is not
    among the sources, so what a failed assertion does (throw, or
    nothing when assertions are compiled away) is left open. *)
Variable assertionFailure : string -> Completion.t unit.

Definition assert (condition : bool) (message : string) : Completion.t unit :=
  if condition then Normal tt else assertionFailure message.

(** [DEFAULT_STRETCH_FACTOR] of model/pane and the price scales that
    [new Pane(...)] builds; neither is among the sources. *)
Variable DEFAULT_STRETCH_FACTOR : float.
Variable newPaneScales : Pane.Scales.

Definition isDevelopment : bool := String.eqb NODE_ENV "development"%string.

Definition applyPriceScaleOptions
    (priceScaleId : string) (options : PriceScale.Patch) (paneIndex : Z)
  : M W unit :=
  fun w =>
  match Js.index (panes w) paneIndex with
  | None =>
      if isDevelopment
      then (Throw (MkError ("Trying to apply price scale options with incorrect pane index: "
                              ++ Z_toString paneIndex)%string), w)
      else (Normal tt, w)
  | Some pane_ =>
      if String.eqb priceScaleId PriceScale.DefaultPriceScaleId_Left then
        let w1 := withModel (fun m =>
                    set_options (merge (ChartModelState._options m) (leftPatch options)) m) w in
        let w2 := storePane (Pane_applyScaleOptions (leftPatch options) pane_) w1 in
        (Normal tt, fullUpdate (priceScalesOptionsChanged_fire w2))
      else if String.eqb priceScaleId PriceScale.DefaultPriceScaleId_Right then
        let w1 := withModel (fun m =>
                    set_options (merge (ChartModelState._options m) (rightPatch options)) m) w in
        let w2 := storePane (Pane_applyScaleOptions (rightPatch options) pane_) w1 in
        (Normal tt, fullUpdate (priceScalesOptionsChanged_fire w2))
      else
        match findPriceScale priceScaleId paneIndex w with
        | None =>
            if isDevelopment
            then (Throw (MkError ("Trying to apply price scale options with incorrect ID: "
                                    ++ priceScaleId)%string), w)
            else (Normal tt, w)
        | Some res =>
            let w1 := storePane (Pane.applyOptionsToScale
                                   (PriceScale.id (priceScale res)) options
                                   (pane res)) w in
            (Normal tt, priceScalesOptionsChanged_fire w1)
        end
  end.

Definition assertM (condition : bool) (message : string) : M W unit :=
  lift (assert condition message).

(** *** Panes *)

Definition _getOrCreatePane (index : Z) : M W Pane.t :=
  assertM (0 <=? index) "Index should be greater or equal to 0"%string ;;
  fun w =>
    let index := Z.min (panesLength w) index in
    if index <? panesLength w then
      (ensureNotNull (Js.index (panes w) index), w)
    else
      let pane := Pane.new (nextPaneUid (_model w)) DEFAULT_STRETCH_FACTOR newPaneScales in
      let w1 := withModel (fun m =>
                  set_nextPaneUid (S (nextPaneUid m))
                    (set_panes (_panes m ++ [pane]) m)) w in
      let mask := InvalidateMask.invalidatePane index
                    {| InvalidateMask.level := InvalidateMask.LevelNone;
                       InvalidateMask.autoScale := true |}
                    InvalidateMask.full in
      (Normal pane, _invalidate mask w1).

(** The constructor body, run on the fields at their initialisers.
    Loading the stored annotations belongs to the persistence
    back end; the trendlines arrive in a later task. *)
Definition constructor : M W unit :=
  _ <- _getOrCreatePane 0 ;;
  fun w =>
    match Js.index (panes w) 0 with
    | Some pane0 =>
        (Normal tt,
         storePane (Pane.setStretchFactor (DEFAULT_STRETCH_FACTOR * 2)%float pane0) w)
    | None => (Throw (MkError "TypeError"%string), w)
    end.

Definition paneData_delete (k : Z) (l : list (Z * PaneData)) : list (Z * PaneData) :=
  filter (fun e => negb (fst e =? k)) l.

Definition paneData_set (k : Z) (v : PaneData) (l : list (Z * PaneData))
  : list (Z * PaneData) :=
  if existsb (fun e => fst e =? k) l
  then map (fun e => if fst e =? k then (k, v) else e) l
  else l ++ [(k, v)].

Definition addPane (height : float) : M W Z :=
  paneIndex <- gets panesLength ;;
  pane <- _getOrCreatePane paneIndex ;;
  exec (fun w =>
          if Js.gt height 0%float
          then storePane (Pane.setStretchFactor
                            (height * DEFAULT_STRETCH_FACTOR / 100)%float pane) w
          else w) ;;
  exec (withModel (fun m =>
          let paneData := {| pd_id := ("pane_" ++ Z_toString (_nextPaneId m))%string;
                             pd_title := ("Pane " ++ Z_toString paneIndex)%string;
                             pd_height := height |} in
          set_paneData (paneData_set paneIndex paneData (_paneDataMap m))
                       (_nextPaneId m + 1) m)) ;;
  exec fullUpdate ;;
  ret paneIndex.

Definition removePane (index : Z) : M W unit :=
  fun w =>
    if panesLength w =? 1 then (Normal tt, w)
    else
      (assertM ((0 <=? index) && (index <? panesLength w)) "Invalid pane index"%string ;;
       exec (withModel (fun m => set_panes (Js.splice1 (_panes m) index) m)) ;;
       exec fullUpdate) w.

(** [pane] is the pane object in its current state. *)
Definition _cleanupIfPaneIsEmpty (pane : Pane.t) (w : W) : W :=
  if (Z.of_nat (List.length (Pane.dataSources pane)) =? 0) && (1 <? panesLength w)
  then fullUpdate
         (withModel (fun m => set_panes (Js.splice1 (_panes m) (getPaneIndex pane w)) m) w)
  else w.

(** [series.destroy()] and the recalculation of the time-scale indices
    act on the series and on the time scale. *)
Definition removeSeries (series : Series.t) : M W unit :=
  pane <- gets (paneForSource series) ;;
  seriesIndex <- gets (fun w => Js.indexOf Series.same series (serieses w)) ;;
  assertM (negb (seriesIndex =? -1)) "Series not found"%string ;;
  paneImpl <- lift (ensureNotNull pane) ;;
  exec (withModel (fun m => set_serieses (Js.splice1 (_serieses m) seriesIndex) m)) ;;
  exec (storePane (Pane.removeDataSource series paneImpl)) ;;
  exec (_cleanupIfPaneIsEmpty (Pane.removeDataSource series paneImpl)).

Definition deletePaneById (paneIndex : Z) : M W unit :=
  fun w =>
    if paneIndex =? 0 then (Normal tt, w)    (* console.warn *)
    else if (panesLength w <=? paneIndex) || (paneIndex <? 0)
    then (Normal tt, w)                      (* console.warn *)
    else
      (pane <- lift (match Js.index (panes w) paneIndex with
                     | Some p => Normal p
                     | None => Throw (MkError "TypeError"%string)
                     end) ;;
       forEach (Pane.series pane) removeSeries ;;
       exec (withModel (fun m =>
               set_paneData (paneData_delete paneIndex (_paneDataMap m)) (_nextPaneId m) m)) ;;
       removePane paneIndex ;;
       exec (withModel (fun m =>
               set_paneData
                 (fold_left (fun acc e =>
                               if paneIndex <? fst e
                               then paneData_set (fst e - 1) (snd e) acc
                               else paneData_set (fst e) (snd e) acc)
                            (_paneDataMap m) [])
                 (_nextPaneId m) m)) ;;
       exec fullUpdate) w.

(** *** Series *)

Definition defaultVisiblePriceScaleId (w : W) : string :=
  if PriceScale.visible (rightPriceScale (options w))
  then PriceScale.DefaultPriceScaleId_Right
  else PriceScale.DefaultPriceScaleId_Left.

(** [pane.addDataSource(series, targetScaleId)] *)
Definition _addSeriesToPane (series : Series.t) (pane : Pane.t) (w : W) : W :=
  storePane (Pane.addDataSource series pane) w.

Definition addSeriesToPane (series : Series.t) (paneIndex : Z) : M W unit :=
  pane <- _getOrCreatePane paneIndex ;;
  exec (_addSeriesToPane series pane) ;;
  exec (withModel (fun m => set_serieses (_serieses m ++ [series]) m)) ;;
  fun w =>
    if Z.of_nat (List.length (serieses w)) =? 1
    then (Normal tt, fullUpdate w)
    else (Normal tt, lightUpdate w).

Definition moveSeriesToPane (series : Series.t) (newPaneIndex : Z) : M W unit :=
  assertM (0 <=? newPaneIndex) "Index should be greater or equal to 0"%string ;;
  fromPaneIndex <- gets (_seriesPaneIndex series) ;;
  if newPaneIndex =? fromPaneIndex then ret tt
  else
    found <- gets (paneForSource series) ;;
    previousPane <- lift (ensureNotNull found) ;;
    exec (storePane (Pane.removeDataSource series previousPane)) ;;
    newPane <- _getOrCreatePane newPaneIndex ;;
    exec (_addSeriesToPane series newPane) ;;
    fun w =>
      (* [previousPane.dataSources()], read from the object as it is now *)
      match find (Pane.same previousPane) (panes w) with
      | Some current =>
          if Z.of_nat (List.length (Pane.dataSources current)) =? 0
          then (Normal tt, _cleanupIfPaneIsEmpty current w)
          else (Normal tt, w)
      | None => (Normal tt, w)
      end.

(** [destroy()] empties the pane list: the model is being torn down. *)
Definition destroy (w : W) : W :=
  withModel (set_panes []) w.

End Methods.

End ChartModel.

(* ------------------------------------------------------------------ *)
(** ** The methods of the chart widget (gui/chart-widget, gui/toolbar-widget) *)

Record Point : Type := { pt_x : float; pt_y : float }.

Module ChartWidget.

Import ChartModelState ChartWidgetState.
Local Open Scope float_scope.

Definition W : Type := ChartWidgetState.t.

Definition model (w : W) : ChartModelState.t := _model w.

(** The style also goes to the element; the override is the state. *)
Definition setCursorStyle (style : option string) (w : W) : W :=
  set_cursorStyleOverride style w.

Definition isDrawingTrendline (w : W) : bool := ChartWidgetState._isDrawingTrendline w.
Definition isDrawingFibonacci (w : W) : bool := _isDrawingFibonacci w.
Definition getTrendlineStartPoint (w : W) : option DrawPoint :=
  ChartWidgetState._trendlineStartPoint w.
Definition getTrendlinePreviewEnd (w : W) : option DrawPoint :=
  ChartWidgetState._trendlinePreviewEnd w.
Definition getFibonacciStartPoint (w : W) : option DrawPoint := _fibonacciStartPoint w.
Definition getFibonacciPreviewEnd (w : W) : option DrawPoint := _fibonacciPreviewEnd w.

Definition _getLastMousePosition (w : W) : option Point := None.

Definition onCrosshair (f : Crosshair.t -> Crosshair.t) (w : W) : W :=
  withModel (fun m => set_crosshair (f (_crosshair m)) m) w.

(** [this._toolbarWidget.deactivateTrendlineTool()] and its sibling. *)
Definition deactivateTrendlineTool (w : W) : W :=
  match _toolbarWidget w with
  | Some tb => set_toolbarWidget
                 (Some {| _isTrendlineActive := false;
                          _isFibonacciActive := _isFibonacciActive tb |}) w
  | None => w
  end.

Definition deactivateFibonacciTool (w : W) : W :=
  match _toolbarWidget w with
  | Some tb => set_toolbarWidget
                 (Some {| _isTrendlineActive := _isTrendlineActive tb;
                          _isFibonacciActive := false |}) w
  | None => w
  end.

(** Restores the crosshair mode saved when a tool was switched on. *)
Definition restoreCrosshairMode (w : W) : W :=
  match _originalCrosshairMode w with
  | Some mode =>
      set_originalCrosshairMode None
        (ChartModel.applyOptions (ChartModel.crosshairModePatch mode) w)
  | None => w
  end.

(** [crosshair.updateAllViews()] marks the views of the crosshair for
    recomputation and leaves the fields kept here as they are. *)
Definition _onTrendlineToolToggle (active : bool) (w : W) : W :=
  let w1 := set_trendlineDrawing active None None w in
  let w2 := ChartModel.setTrendlineDrawingState active w1 in
  if active then
    let w3 := setCursorStyle (Some "default"%string) w2 in
    let w4 := onCrosshair (Crosshair.set_visible true) w3 in
    let w5 := onCrosshair (Crosshair.set_showCenterDot true) w4 in
    let w6 := set_originalCrosshairMode
                (Some (crosshair_mode (ChartModel.options w5))) w5 in
    let w7 := ChartModel.applyOptions (ChartModel.crosshairModePatch 0%Z) w6 in
    let w8 :=
      match _getLastMousePosition w7 with
      | Some mousePos =>
          let w' := onCrosshair
                      (fun c => Crosshair.set_visible true
                                  (Crosshair.set_position (pt_x mousePos) (pt_y mousePos) c))
                      w7 in
          match ChartModel.panes w' with
          | pane :: _ =>
              let priceScale := Pane.defaultPriceScale (Pane.scales pane) in
              match PriceScale.firstValue priceScale with
              | Some firstValue =>
                  match PriceScale.coordinateToPrice priceScale (pt_y mousePos) firstValue with
                  | Some price =>
                      onCrosshair (Crosshair.set_price_pane price (Pane.uid pane)) w'
                  | None => w'
                  end
              | None => w'
              end
          | [] => w'
          end
      | None => w7
      end in
    ChartModel.fullUpdate w8
  else
    let w3 := setCursorStyle None w2 in
    let w4 := onCrosshair (Crosshair.set_showCenterDot false) w3 in
    let w5 := restoreCrosshairMode w4 in
    ChartModel.fullUpdate w5.

Definition _onFibonacciToolToggle (active : bool) (w : W) : W :=
  let w1 := set_fibonacciDrawing active None None w in
  if active then
    let w2 := setCursorStyle (Some "crosshair"%string) w1 in
    let w3 := set_originalCrosshairMode
                (Some (crosshair_mode (ChartModel.options w2))) w2 in
    ChartModel.applyOptions (ChartModel.crosshairModePatch 0%Z) w3
  else
    let w2 := setCursorStyle None w1 in
    restoreCrosshairMode w2.

(** The click listeners of the two toolbar buttons. *)
Definition trendlineButton_click (w : W) : W :=
  match _toolbarWidget w with
  | None => w
  | Some tb =>
      let '(tb1, w1) :=
        if _isFibonacciActive tb
        then ({| _isTrendlineActive := _isTrendlineActive tb; _isFibonacciActive := false |},
              _onFibonacciToolToggle false
                (set_toolbarWidget
                   (Some {| _isTrendlineActive := _isTrendlineActive tb;
                            _isFibonacciActive := false |}) w))
        else (tb, w) in
      let tb2 := {| _isTrendlineActive := negb (_isTrendlineActive tb1);
                    _isFibonacciActive := _isFibonacciActive tb1 |} in
      _onTrendlineToolToggle (_isTrendlineActive tb2) (set_toolbarWidget (Some tb2) w1)
  end.

Definition fibonacciButton_click (w : W) : W :=
  match _toolbarWidget w with
  | None => w
  | Some tb =>
      let '(tb1, w1) :=
        if _isTrendlineActive tb
        then ({| _isTrendlineActive := false; _isFibonacciActive := _isFibonacciActive tb |},
              _onTrendlineToolToggle false
                (set_toolbarWidget
                   (Some {| _isTrendlineActive := false;
                            _isFibonacciActive := _isFibonacciActive tb |}) w))
        else (tb, w) in
      let tb2 := {| _isTrendlineActive := _isTrendlineActive tb1;
                    _isFibonacciActive := negb (_isFibonacciActive tb1) |} in
      _onFibonacciToolToggle (_isFibonacciActive tb2) (set_toolbarWidget (Some tb2) w1)
  end.

Section Host.

(** [Date.now()], in milliseconds, and the text that
    [Date.now() + '_' + Math.random().toString(36).substr(2, 9)]
    yields when an annotation is named. *)
Variable Date_now : float.
Variable uniqueSuffix : string.

Definition _extrapolateTimeFromCoordinate (x : float) (w : W) : float :=
  let timeScale := ChartModel.timeScale w in
  let baseIndex := TimeScale.baseIndex timeScale in
  let baseTime := TimeScale.originalTimeAt timeScale baseIndex in
  let baseCoord := TimeScale.indexToCoordinate timeScale baseIndex in
  let prevIndex := (baseIndex - 1)%Z in
  let prevTime := TimeScale.originalTimeAt timeScale prevIndex in
  let prevCoord := TimeScale.indexToCoordinate timeScale prevIndex in
  let fallbackTime := Date_now / 1000 + (x * 86400 / 100) in
  match baseTime, baseCoord, prevTime, prevCoord with
  | Some baseTime, Some baseCoord, Some prevTime, Some prevCoord =>
      let timeInterval := baseTime - prevTime in
      let coordInterval := baseCoord - prevCoord in
      if Js.strictNe coordInterval 0 then
        let timePerPixel := timeInterval / coordInterval in
        let pixelsBeyondBase := x - baseCoord in
        baseTime + (pixelsBeyondBase * timePerPixel)
      else fallbackTime
  | _, _, _, _ => fallbackTime
  end.

(** The value of [timeValue] in [_handleTrendlineClick] and in
    [_handleFibonacciClick], which compute it by the same statements. *)
Definition clickTimeValue (time : option Z) (point : Point) (w : W) : float :=
  let timeScale := ChartModel.timeScale w in
  let baseIndex := TimeScale.baseIndex timeScale in
  let baseCoord := TimeScale.indexToCoordinate timeScale baseIndex in
  let beyond := match baseCoord with
                | Some baseCoord => Js.gt (pt_x point) baseCoord
                | None => false
                end in
  if beyond then _extrapolateTimeFromCoordinate (pt_x point) w
  else
    match time with
    | Some time =>
        match TimeScale.originalTimeAt timeScale time with
        | Some timePoint => timePoint
        | None => _extrapolateTimeFromCoordinate (pt_x point) w
        end
    | None => _extrapolateTimeFromCoordinate (pt_x point) w
    end.

Definition _handleTrendlineClick
    (pane : Pane.t) (time : option Z) (point : option Point) (w : W) : W :=
  match point with
  | None => w
  | Some point =>
      let priceScale := Pane.defaultPriceScale (Pane.scales pane) in
      match PriceScale.firstValue priceScale with
      | None => w
      | Some firstValue =>
          let price := PriceScale.coordinateToPrice priceScale (pt_y point) firstValue in
          let timeValue := clickTimeValue time point w in
          match price with
          | None => w
          | Some price =>
              match ChartWidgetState._trendlineStartPoint w with
              | None =>
                  let startPoint := {| dp_x := pt_x point; dp_y := pt_y point;
                                       dp_time := timeValue; dp_price := price |} in
                  let w1 := set_trendlineDrawing (ChartWidgetState._isDrawingTrendline w)
                              (Some startPoint) (ChartWidgetState._trendlinePreviewEnd w) w in
                  ChartModel.setTrendlineStartPoint (Some startPoint) w1
              | Some startPoint =>
                  let endPoint := {| dp_x := pt_x point; dp_y := pt_y point;
                                     dp_time := timeValue; dp_price := price |} in
                  let '(_, w1) :=
                    ChartModel.addTrendline
                      {| Trendline.id := ("trendline_" ++ uniqueSuffix)%string;
                         Trendline.point1 :=
                           {| Trendline.time := dp_time startPoint;
                              Trendline.value := dp_price startPoint |};
                         Trendline.point2 :=
                           {| Trendline.time := dp_time endPoint;
                              Trendline.value := dp_price endPoint |} |}
                      None w in
                  let w2 := set_trendlineDrawing false None None w1 in
                  let w3 := ChartModel.setTrendlineDrawingState false w2 in
                  let w4 := ChartModel.setTrendlineStartPoint None w3 in
                  let w5 := ChartModel.setTrendlinePreviewEnd None w4 in
                  let w6 := setCursorStyle None w5 in
                  let w7 := onCrosshair (Crosshair.set_showCenterDot false) w6 in
                  let w8 := restoreCrosshairMode w7 in
                  let w9 := deactivateTrendlineTool w8 in
                  ChartModel.fullUpdate w9
              end
          end
      end
  end.

Definition _handleFibonacciClick
    (pane : Pane.t) (time : option Z) (point : option Point) (w : W) : W :=
  match point with
  | None => w
  | Some point =>
      let priceScale := Pane.defaultPriceScale (Pane.scales pane) in
      match PriceScale.firstValue priceScale with
      | None => w
      | Some firstValue =>
          let price := PriceScale.coordinateToPrice priceScale (pt_y point) firstValue in
          let timeValue := clickTimeValue time point w in
          match price with
          | None => w
          | Some price =>
              match _fibonacciStartPoint w with
              | None =>
                  let startPoint := {| dp_x := pt_x point; dp_y := pt_y point;
                                       dp_time := timeValue; dp_price := price |} in
                  set_fibonacciDrawing (_isDrawingFibonacci w)
                    (Some startPoint) (_fibonacciPreviewEnd w) w
              | Some startPoint =>
                  let endPoint := {| dp_x := pt_x point; dp_y := pt_y point;
                                     dp_time := timeValue; dp_price := price |} in
                  let '(_, w1) :=
                    ChartModel.addFibonacci
                      {| Fibonacci.id := ("fibonacci_" ++ uniqueSuffix)%string;
                         Fibonacci.point1 :=
                           {| Fibonacci.time := dp_time startPoint;
                              Fibonacci.value := dp_price startPoint |};
                         Fibonacci.point2 :=
                           {| Fibonacci.time := dp_time endPoint;
                              Fibonacci.value := dp_price endPoint |} |}
                      None w in
                  let w2 := set_fibonacciDrawing false None None w1 in
                  let w3 := setCursorStyle None w2 in
                  deactivateFibonacciTool w3
              end
          end
      end
  end.

(** [_onPaneWidgetClicked]; outside the drawing modes the click goes
    to the subscribers of [clicked()]. *)
Definition _onPaneWidgetClicked
    (pane : Pane.t) (time : option Z) (point : option Point) (w : W) : W :=
  if ChartWidgetState._isDrawingTrendline w then
    match point with
    | Some _ => _handleTrendlineClick pane time point w
    | None => w
    end
  else if _isDrawingFibonacci w then
    match point with
    | Some _ => _handleFibonacciClick pane time point w
    | None => w
    end
  else w.

(** The callback that [_invalidateHandler] hands to
    [requestAnimationFrame], run by the host with the frame time.
    [_drawImpl] repaints the widgets. *)
Variable _drawImpl : InvalidateMask.t -> float -> W -> W.

Definition firstUnfinishedAnimation (time : float)
    (l : list InvalidateMask.TimeScaleInvalidation) : option InvalidateMask.Animation :=
  match find (fun i => match i with
                       | InvalidateMask.AnimationTick a =>
                           negb (InvalidateMask.finished a time)
                       | _ => false
                       end) l with
  | Some (InvalidateMask.AnimationTick a) => Some a
  | _ => None
  end.

Definition animationFrameCallback (time : float) (w : W) : W :=
  let w1 := set_drawRafId 0%Z (set_drawPlanned false w) in
  match _invalidateMask w1 with
  | Some mask =>
      let w2 := set_invalidateMask None w1 in
      let w3 := _drawImpl mask time w2 in
      match firstUnfinishedAnimation time (InvalidateMask.timeScaleInvalidations mask) with
      | Some a => ChartModel.setTimeScaleAnimation a w3
      | None => w3
      end
  | None => w1
  end.

(** The host runs the oldest requested callback. *)
Definition runAnimationFrame (time : float) (w : W) : W :=
  match animationFrameRequests (window w) with
  | [] => w
  | _ :: rest =>
      animationFrameCallback time
        (set_window {| animationFrameRequests := rest;
                       nextAnimationFrameHandle := nextAnimationFrameHandle (window w) |} w)
  end.

End Host.

End ChartWidget.

(* ------------------------------------------------------------------ *)
(** ** The pane widget (gui/pane-widget): hit-testing and dragging *)

Module PaneWidget.

Import ChartModelState ChartWidgetState.
Local Open Scope float_scope.

Definition SELECTION_DOT_RADIUS : float := 6.
Definition SELECTION_HIT_TOLERANCE : float := 8.
Definition LINE_HIT_TOLERANCE : float := 5.

Inductive HitType : Type := line | point1 | point2.

Record TrendlineHitResult : Type :=
  { trendlineId : string; hitType : HitType; distance : float }.

(** The fields of the pane widget that hit-testing reads; [_model()] is
    the model of the chart widget that owns the pane widget. *)
Record t : Type :=
  { _state : option Pane.t;
    _trendlines : JsMap.t Trendline.t }.

Definition updateTrendlines (trendlines : JsMap.t Trendline.t) (pw : t) : t :=
  {| _state := _state pw; _trendlines := trendlines |}.

Definition _forceExtrapolateCoordinate
    (targetTime targetPrice : float) (timeScale : TimeScale.t)
    (priceScale : PriceScale.t) (firstValue : float) : option Point :=
  let baseIndex := TimeScale.baseIndex timeScale in
  let prevIndex := (baseIndex - 1)%Z in
  let baseTime := TimeScale.originalTimeAt timeScale baseIndex in
  let baseCoord := TimeScale.indexToCoordinate timeScale baseIndex in
  let prevTime := TimeScale.originalTimeAt timeScale prevIndex in
  let prevCoord := TimeScale.indexToCoordinate timeScale prevIndex in
  match baseTime, baseCoord, prevTime, prevCoord with
  | Some baseTime, Some baseCoord, Some prevTime, Some prevCoord =>
      let timeInterval := baseTime - prevTime in
      let coordInterval := baseCoord - prevCoord in
      if Js.strictNe coordInterval 0 then
        let timePerPixel := timeInterval / coordInterval in
        let timeBeyondBase := targetTime - baseTime in
        let pixelsBeyondBase := timeBeyondBase / timePerPixel in
        let x := baseCoord + pixelsBeyondBase in
        match PriceScale.priceToCoordinate priceScale targetPrice firstValue with
        | Some y => Some {| pt_x := x; pt_y := y |}
        | None => None
        end
      else None
  | _, _, _, _ => None
  end.

Definition _convertTimeAndPriceToCoordinates
    (targetTime targetPrice : float) (timeScale : TimeScale.t)
    (priceScale : PriceScale.t) (firstValue : float) : option Point :=
  let baseIndex := TimeScale.baseIndex timeScale in
  let baseTime := TimeScale.originalTimeAt timeScale baseIndex in
  let beyond := match baseTime with
                | Some baseTime => Js.gt targetTime baseTime
                | None => false
                end in
  if beyond then
    _forceExtrapolateCoordinate targetTime targetPrice timeScale priceScale firstValue
  else
    let fallback :=
      _forceExtrapolateCoordinate targetTime targetPrice timeScale priceScale firstValue in
    match TimeScale.timeToIndex timeScale targetTime true with
    | Some index =>
        match TimeScale.indexToCoordinate timeScale index,
              PriceScale.priceToCoordinate priceScale targetPrice firstValue with
        | Some x, Some y => Some {| pt_x := x; pt_y := y |}
        | _, _ => fallback
        end
    | None => fallback
    end.

(** Distance from a point to a line segment. *)
Definition _distanceToLine (px py x1 y1 x2 y2 : float) : float :=
  let dx := x2 - x1 in
  let dy := y2 - y1 in
  if Js.strictEq dx 0 && Js.strictEq dy 0 then
    Js.Math_sqrt (Js.Math_pow2 (px - x1) + Js.Math_pow2 (py - y1))
  else
    let t := Js.Math_max 0
               (Js.Math_min 1 (((px - x1) * dx + (py - y1) * dy) / (dx * dx + dy * dy))) in
    let projection := {| pt_x := x1 + t * dx; pt_y := y1 + t * dy |} in
    Js.Math_sqrt (Js.Math_pow2 (px - pt_x projection) + Js.Math_pow2 (py - pt_y projection)).

(** The two variables that the callback of [forEach] closes over. *)
Record Closest : Type :=
  { closestHit : option TrendlineHitResult; closestDistance : float }.

Definition isLineHit (h : option TrendlineHitResult) : bool :=
  match h with
  | None => true
  | Some r => match hitType r with line => true | _ => false end
  end.

(** One call of the callback of [this._trendlines.forEach]. *)
Definition hitTestTrendline
    (timeScale : TimeScale.t) (priceScale : PriceScale.t) (firstValue : float)
    (x y : float) (acc : Closest) (entry : string * Trendline.t) : Closest :=
  let '(id, trendline) := entry in
  let data := Trendline._data trendline in
  let coords1 := _convertTimeAndPriceToCoordinates
                   (Trendline.time (Trendline.point1 data))
                   (Trendline.value (Trendline.point1 data))
                   timeScale priceScale firstValue in
  let coords2 := _convertTimeAndPriceToCoordinates
                   (Trendline.time (Trendline.point2 data))
                   (Trendline.value (Trendline.point2 data))
                   timeScale priceScale firstValue in
  match coords1, coords2 with
  | Some coords1, Some coords2 =>
      let dist1 := Js.Math_sqrt (Js.Math_pow2 (x - pt_x coords1)
                                 + Js.Math_pow2 (y - pt_y coords1)) in
      let acc1 :=
        if Js.le dist1 SELECTION_HIT_TOLERANCE && Js.lt dist1 (closestDistance acc)
        then {| closestHit := Some {| trendlineId := id; hitType := point1;
                                      distance := dist1 |};
                closestDistance := dist1 |}
        else acc in
      let dist2 := Js.Math_sqrt (Js.Math_pow2 (x - pt_x coords2)
                                 + Js.Math_pow2 (y - pt_y coords2)) in
      let acc2 :=
        if Js.le dist2 SELECTION_HIT_TOLERANCE && Js.lt dist2 (closestDistance acc1)
        then {| closestHit := Some {| trendlineId := id; hitType := point2;
                                      distance := dist2 |};
                closestDistance := dist2 |}
        else acc1 in
      if isLineHit (closestHit acc2) then
        let lineDist := _distanceToLine x y (pt_x coords1) (pt_y coords1)
                                        (pt_x coords2) (pt_y coords2) in
        if Js.le lineDist LINE_HIT_TOLERANCE && Js.lt lineDist (closestDistance acc2)
        then {| closestHit := Some {| trendlineId := id; hitType := line;
                                      distance := lineDist |};
                closestDistance := lineDist |}
        else acc2
      else acc2
  | _, _ => acc
  end.

Definition _hitTestTrendlines (x y : float) (w : ChartWidgetState.t) (pw : t)
  : option TrendlineHitResult :=
  match _state pw with
  | None => None
  | Some state =>
      if Nat.eqb (JsMap.size (_trendlines pw)) 0 then None
      else
        let timeScale := ChartModel.timeScale w in
        let priceScale := Pane.defaultPriceScale (Pane.scales state) in
        match PriceScale.firstValue priceScale with
        | None => None
        | Some firstValue =>
            closestHit
              (fold_left (hitTestTrendline timeScale priceScale firstValue x y)
                         (_trendlines pw)
                         {| closestHit := None; closestDistance := Js.Infinity |})
        end
  end.

(** *** Drawing *)

(** The conversion that the drawing code uses, written out a second
    time in the source under another name. *)
Definition _timeAndPriceToCoordinates
    (targetTime targetPrice : float) (timeScale : TimeScale.t)
    (priceScale : PriceScale.t) (firstValue : float) : option Point :=
  let baseIndex := TimeScale.baseIndex timeScale in
  let baseTime := TimeScale.originalTimeAt timeScale baseIndex in
  let beyond := match baseTime with
                | Some baseTime => Js.gt targetTime baseTime
                | None => false
                end in
  if beyond then
    _forceExtrapolateCoordinate targetTime targetPrice timeScale priceScale firstValue
  else
    let fallback :=
      _forceExtrapolateCoordinate targetTime targetPrice timeScale priceScale firstValue in
    match TimeScale.timeToIndex timeScale targetTime true with
    | Some index =>
        match TimeScale.indexToCoordinate timeScale index,
              PriceScale.priceToCoordinate priceScale targetPrice firstValue with
        | Some x, Some y => Some {| pt_x := x; pt_y := y |}
        | _, _ => fallback
        end
    | None => fallback
    end.

(** The coordinate space that a drawing callback is given by the
    rendering target: [useBitmapCoordinateSpace] or
    [useMediaCoordinateSpace]. *)
Inductive CoordinateSpace : Type := BitmapCoordinateSpace | MediaCoordinateSpace.

(** One stroked segment on the canvas: the coordinate space of the
    callback that draws it, the state set before [beginPath()], and the
    numbers given to [moveTo] and [lineTo], which the canvas reads in
    that space. *)
Record Stroke : Type :=
  { space : CoordinateSpace;
    strokeStyle : string;
    lineWidth : float;
    moveTo : Point;
    lineTo : Point }.

(** [_drawTrendlines], as the strokes it puts on the canvas, in order;
    [selectedTrendlineId] is [_trendlineSelection.selectedTrendlineId].
    Each trendline is drawn inside [target.useBitmapCoordinateSpace],
    and the coordinates go to the context as the conversion gives them,
    without the pixel ratios of the scope. *)
Definition _drawTrendlines (selectedTrendlineId : option string)
    (w : ChartWidgetState.t) (pw : t) : list Stroke :=
  match _state pw with
  | None => []
  | Some state =>
      if Nat.eqb (JsMap.size (_trendlines pw)) 0 then []
      else
        let timeScale := ChartModel.timeScale w in
        let priceScale := Pane.defaultPriceScale (Pane.scales state) in
        match PriceScale.firstValue priceScale with
        | None => []
        | Some firstValue =>
            flat_map
              (fun entry : string * Trendline.t =>
                 let '(id, trendline) := entry in
                 let options := Trendline._options trendline in
                 let data := Trendline._data trendline in
                 let coords1 := _timeAndPriceToCoordinates
                                  (Trendline.time (Trendline.point1 data))
                                  (Trendline.value (Trendline.point1 data))
                                  timeScale priceScale firstValue in
                 let coords2 := _timeAndPriceToCoordinates
                                  (Trendline.time (Trendline.point2 data))
                                  (Trendline.value (Trendline.point2 data))
                                  timeScale priceScale firstValue in
                 match coords1, coords2 with
                 | Some coords1, Some coords2 =>
                     let selected := match selectedTrendlineId with
                                     | Some selectedId => String.eqb id selectedId
                                     | None => false
                                     end in
                     [ {| space := BitmapCoordinateSpace;
                          strokeStyle := if selected then "#2196F3"%string
                                         else Trendline.color options;
                          lineWidth := if selected then Trendline.lineWidth options + 1
                                       else Trendline.lineWidth options;
                          moveTo := coords1;
                          lineTo := coords2 |} ]
                 | _, _ => []
                 end)
              (_trendlines pw)
        end
  end.

Section Host.

Variable Date_now : float.

(** The [catch] of the source guards calls that, on the interface
    above, return without throwing. *)
Definition _extrapolateTimeFromCoordinate (x : float) (timeScale : TimeScale.t) : float :=
  let baseIndex := TimeScale.baseIndex timeScale in
  let baseCoord := TimeScale.indexToCoordinate timeScale baseIndex in
  let baseTime := TimeScale.originalTimeAt timeScale baseIndex in
  let prevIndex := (baseIndex - 1)%Z in
  let prevCoord := TimeScale.indexToCoordinate timeScale prevIndex in
  let prevTime := TimeScale.originalTimeAt timeScale prevIndex in
  match baseTime, prevTime, baseCoord, prevCoord with
  | Some baseTime, Some prevTime, Some baseCoord, Some prevCoord =>
      let timeInterval := baseTime - prevTime in
      let coordInterval := baseCoord - prevCoord in
      if Js.strictNe coordInterval 0 then
        let timePerPixel := timeInterval / coordInterval in
        let pixelDiff := x - baseCoord in
        baseTime + (pixelDiff * timePerPixel)
      else Date_now / 1000
  | _, _, _, _ => Date_now / 1000
  end.

End Host.

End PaneWidget.

(* ------------------------------------------------------------------ *)
(** ** The price-scale API (api/price-scale-api) *)

Module PriceScaleApi.

Import Completion.

Record t : Type :=
  { _priceScaleId : string;
    _paneIndex : Z }.

(** [new PriceScaleApi(chartWidget, priceScaleId, paneIndex?)] *)
Definition new (priceScaleId : string) (paneIndex : option Z) : t :=
  {| _priceScaleId := priceScaleId;
     _paneIndex := match paneIndex with Some i => i | None => 0%Z end |}.

Definition _priceScale (api : t) (w : ChartWidgetState.t) : Completion.t PriceScale.t :=
  match ensureNotNull (ChartModel.findPriceScale (_priceScaleId api) (_paneIndex api) w) with
  | Normal res => Normal (ChartModel.priceScale res)
  | Throw e => Throw e
  end.

Definition coordinateToPrice (api : t) (coordinate : float) (w : ChartWidgetState.t)
  : Completion.t (option float) :=
  match _priceScale api w with
  | Throw e => Throw e
  | Normal priceScale =>
      match PriceScale.firstValue priceScale with
      | None => Normal (Some Js.NaN)
      | Some firstValue =>
          Normal (PriceScale.coordinateToPrice priceScale coordinate firstValue)
      end
  end.

Definition priceToCoordinate (api : t) (price : float) (w : ChartWidgetState.t)
  : Completion.t (option float) :=
  match _priceScale api w with
  | Throw e => Throw e
  | Normal priceScale =>
      match PriceScale.firstValue priceScale with
      | None => Normal (Some Js.NaN)
      | Some firstValue =>
          Normal (PriceScale.priceToCoordinate priceScale price firstValue)
      end
  end.

Section Methods.

Variable NODE_ENV : string.

Definition applyOptions (api : t) (options : PriceScale.Patch)
  : Completion.M ChartWidgetState.t unit :=
  ChartModel.applyPriceScaleOptions NODE_ENV (_priceScaleId api) options (_paneIndex api).

Definition setAutoScale (api : t) (on : bool) : Completion.M ChartWidgetState.t unit :=
  applyOptions api {| PriceScale.p_autoScale := Some on; PriceScale.p_visible := None |}.

End Methods.

End PriceScaleApi.

(* ------------------------------------------------------------------ *)
(** ** The mutators of the model, as one type

    Every way in which the embedded code changes the chart model, so that
    a property of "every model mutation" can be stated once. *)

Module ModelMutation.

Import Completion.
Local Open Scope js_scope.

Inductive t : Type :=
| FullUpdate
| LightUpdate
| CursorUpdate
| SetTimeScaleAnimation (a : InvalidateMask.Animation)
| ApplyOptions (patch : ChartModelState.ChartOptionsPatch)
| ApplyPriceScaleOptions (priceScaleId : string) (options : PriceScale.Patch) (paneIndex : Z)
| SetCurrentSymbol (symbol : string)
| AddTrendline (data : Trendline.TrendlineData) (options : option Trendline.PartialOptions)
| RemoveTrendline (id : string)
| AddFibonacci (data : Fibonacci.FibonacciData)
               (options : option Fibonacci.PartialFibonacciOptions)
| RemoveFibonacci (id : string)
| SetTrendlineDrawingState (isDrawing : bool)
| SetTrendlineStartPoint (point : option DrawPoint)
| SetTrendlinePreviewEnd (point : option DrawPoint)
| AddPane (height : float)
| RemovePane (index : Z)
| DeletePaneById (paneIndex : Z)
| AddSeriesToPane (series : Series.t) (paneIndex : Z)
| RemoveSeries (series : Series.t)
| MoveSeriesToPane (series : Series.t) (newPaneIndex : Z).

Section Run.

Variable NODE_ENV : string.
Variable assertionFailure : string -> Completion.t unit.
Variable DEFAULT_STRETCH_FACTOR : float.
Variable newPaneScales : Pane.Scales.

Definition run (mutation : t) : M ChartWidgetState.t unit :=
  match mutation with
  | FullUpdate => exec ChartModel.fullUpdate
  | LightUpdate => exec ChartModel.lightUpdate
  | CursorUpdate => exec ChartModel.cursorUpdate
  | SetTimeScaleAnimation a => exec (ChartModel.setTimeScaleAnimation a)
  | ApplyOptions patch => exec (ChartModel.applyOptions patch)
  | ApplyPriceScaleOptions priceScaleId options paneIndex =>
      ChartModel.applyPriceScaleOptions NODE_ENV priceScaleId options paneIndex
  | SetCurrentSymbol symbol => exec (ChartModel.setCurrentSymbol symbol)
  | AddTrendline data options => exec (fun w => snd (ChartModel.addTrendline data options w))
  | RemoveTrendline id => exec (ChartModel.removeTrendline id)
  | AddFibonacci data options => exec (fun w => snd (ChartModel.addFibonacci data options w))
  | RemoveFibonacci id => exec (ChartModel.removeFibonacci id)
  | SetTrendlineDrawingState isDrawing => exec (ChartModel.setTrendlineDrawingState isDrawing)
  | SetTrendlineStartPoint point => exec (ChartModel.setTrendlineStartPoint point)
  | SetTrendlinePreviewEnd point => exec (ChartModel.setTrendlinePreviewEnd point)
  | AddPane height =>
      _ <- ChartModel.addPane assertionFailure DEFAULT_STRETCH_FACTOR newPaneScales height ;;
      ret tt
  | RemovePane index => ChartModel.removePane assertionFailure index
  | DeletePaneById paneIndex => ChartModel.deletePaneById assertionFailure paneIndex
  | AddSeriesToPane series paneIndex =>
      ChartModel.addSeriesToPane assertionFailure DEFAULT_STRETCH_FACTOR newPaneScales
        series paneIndex
  | RemoveSeries series => ChartModel.removeSeries assertionFailure series
  | MoveSeriesToPane series newPaneIndex =>
      ChartModel.moveSeriesToPane assertionFailure DEFAULT_STRETCH_FACTOR newPaneScales
        series newPaneIndex
  end.

End Run.

End ModelMutation.

(* ------------------------------------------------------------------ *)
(** ** The RSI indicator (indicators/rsi) *)

Module RSI.

Import Completion.
Local Open Scope float_scope.

Record RSIData : Type := { time : float; value : float }.

(** [period] is a [number] that nothing checks: it can be a fraction,
    negative, [NaN] or infinite. *)
Record RSIOptions : Type :=
  { period : float;
    overboughtLevel : float;
    oversoldLevel : float;
    color : string;
    lineWidth : float;
    visible : bool }.

(** [Partial<RSIOptions>] *)
Record PartialRSIOptions : Type :=
  { p_period : option float;
    p_overboughtLevel : option float;
    p_oversoldLevel : option float;
    p_color : option string;
    p_lineWidth : option float;
    p_visible : option bool }.

Definition noOptions : PartialRSIOptions :=
  {| p_period := None; p_overboughtLevel := None; p_oversoldLevel := None;
     p_color := None; p_lineWidth := None; p_visible := None |}.

Definition defaultRSIOptions : RSIOptions :=
  {| period := 14;
     overboughtLevel := 70;
     oversoldLevel := 30;
     color := "#FF6B35";
     lineWidth := 1;
     visible := true |}.

Definition orElse {A} (o : option A) (d : A) : A :=
  match o with Some a => a | None => d end.

(** [{ ...target, ...source }] *)
Definition spread (target : RSIOptions) (source : PartialRSIOptions) : RSIOptions :=
  {| period := orElse (p_period source) (period target);
     overboughtLevel := orElse (p_overboughtLevel source) (overboughtLevel target);
     oversoldLevel := orElse (p_oversoldLevel source) (oversoldLevel target);
     color := orElse (p_color source) (color target);
     lineWidth := orElse (p_lineWidth source) (lineWidth target);
     visible := orElse (p_visible source) (visible target) |}.

Record PriceData : Type := { pd_time : float; close : float }.

Record RSIIndicator : Type :=
  { _options : RSIOptions; _data : list RSIData }.

Definition new (options : option PartialRSIOptions) : RSIIndicator :=
  {| _options := spread defaultRSIOptions (orElse options noOptions); _data := [] |}.

Definition options (this : RSIIndicator) : RSIOptions := _options this.

Definition updateOptions (options : PartialRSIOptions) (this : RSIIndicator) : RSIIndicator :=
  {| _options := spread (_options this) options; _data := _data this |}.

Definition data (this : RSIIndicator) : list RSIData := _data this.

Definition set_data (v : list RSIData) (this : RSIIndicator) : RSIIndicator :=
  {| _options := _options this; _data := v |}.

(** A whole number as the [number] it is: the nearest binary64. *)
Definition numberOf (n : Z) : float :=
  SF2Prim (binary_normalize prec emax n 0 false).

(** The first loop: [priceData[i].close - priceData[i - 1].close] for
    [i] from 1 up to the last index. *)
Fixpoint priceChanges (priceData : list PriceData) : list float :=
  match priceData with
  | previous :: (current :: _) as rest => (close current - close previous) :: priceChanges rest
  | _ => []
  end.

(** One round of the loop that sums the gains and the losses. *)
Definition sum (averages : float * float) (change : float) : float * float :=
  let '(avgGain, avgLoss) := averages in
  if Js.gt change 0 then (avgGain + change, avgLoss)
  else (avgGain, avgLoss + Js.Math_abs change).

(** That loop, [for (let i = 0; i < period; i++)], from round [i] on,
    [priceChanges] holding the changes from index [i] on.  A round past
    the last change reads [undefined]: [undefined > 0] is false and
    [Math.abs(undefined)] is [NaN], so that round leaves [avgGain] and
    makes [avgLoss] [NaN], which the rounds after it keep. *)
Fixpoint sumFirst (period : float) (priceChanges : list float) (i : Z)
    (averages : float * float) : float * float :=
  if Js.lt (numberOf i) period
  then match priceChanges with
       | change :: rest => sumFirst period rest (i + 1)%Z (sum averages change)
       | [] => (fst averages, Js.NaN)
       end
  else averages.

Definition rsiOf (avgGain avgLoss : float) : float :=
  let rs := if Js.strictEq avgLoss 0 then 100 else avgGain / avgLoss in
  100 - (100 / (1 + rs)).

(** The last loop, over the changes from index [period] on, each with
    the price point that follows it: [priceData[i + 1]]. *)
Fixpoint smoothed (period avgGain avgLoss : float) (rest : list (float * PriceData))
  : list RSIData :=
  match rest with
  | [] => []
  | (change, point) :: rest' =>
      let '(avgGain', avgLoss') :=
        if Js.gt change 0
        then (((avgGain * (period - 1)) + change) / period,
              (avgLoss * (period - 1)) / period)
        else ((avgGain * (period - 1)) / period,
              ((avgLoss * (period - 1)) + Js.Math_abs change) / period) in
      {| time := pd_time point; value := rsiOf avgGain' avgLoss' |}
        :: smoothed period avgGain' avgLoss' rest'
  end.

(** [calculate(priceData)].  When the length test
    [priceData.length < period + 1] fails, [priceData[period]] is read:
    it is [undefined] unless [period] is the index of a price point, and
    reading the [time] of [undefined] throws a [TypeError] before
    [_data] is assigned.  When [period] is such an index [n], the last
    loop starts at [i = n] and takes the changes from index [n] on. *)
Definition calculate (priceData : list PriceData) : M RSIIndicator (list RSIData) :=
  fun this =>
    let period := period (_options this) in
    if Js.lt (numberOf (Z.of_nat (List.length priceData))) (period + 1)
    then (Normal [], set_data [] this)
    else
      let priceChanges := priceChanges priceData in
      let '(gains, losses) := sumFirst period priceChanges 0%Z (0, 0) in
      let avgGain := gains / period in
      let avgLoss := losses / period in
      match Js.wholeNumber period, Js.indexNumber priceData period with
      | Some n, Some first =>
          let rsiValues :=
            {| time := pd_time first; value := rsiOf avgGain avgLoss |}
              :: smoothed period avgGain avgLoss
                   (skipn (Z.to_nat n) (combine priceChanges (tl priceData))) in
          (Normal rsiValues, set_data rsiValues this)
      | _, _ => (Throw (MkError "TypeError"), this)
      end.

Definition getLastValue (this : RSIIndicator) : option float :=
  match rev (_data this) with
  | [] => None
  | last :: _ => Some (value last)
  end.

Definition addDataPoint (priceData : list PriceData) : M RSIIndicator unit :=
  fun this =>
    match calculate priceData this with
    | (Normal _, this') => (Normal tt, this')
    | (Throw e, this') => (Throw e, this')
    end.

Definition clear (this : RSIIndicator) : RSIIndicator := set_data [] this.

Definition getLevels (this : RSIIndicator) : float * float :=
  (overboughtLevel (_options this), oversoldLevel (_options this)).

(** [value.toFixed(2)], with the host's [toFixed]. *)
Definition formatValue (toFixed : float -> Z -> string) (value : float) : string :=
  toFixed value 2%Z.

End RSI.

(* ------------------------------------------------------------------ *)
(** ** The indicator manager (indicators/indicator-manager)

    The manager stores what it creates and tells the chart through
    callbacks.  The pane and the series are objects of the chart: the
    manager only hands them on, so their types are left open, and the
    calls made on them act on a state of the chart, [H].  Every such
    call may throw.  The [console.log] diagnostics, and the reads of the
    series' bars made only to print them, are left out. *)

Module IndicatorManager.

Import Completion.
Local Open Scope js_scope.
Local Open Scope string_scope.

Inductive IndicatorType : Type := RSI | MACD | STOCH.

Definition IndicatorType_eqb (a b : IndicatorType) : bool :=
  match a, b with
  | RSI, RSI | MACD, MACD | STOCH, STOCH => true
  | _, _ => false
  end.

(** The only series type asked from [createSeriesCallback]. *)
Inductive SeriesKind : Type := Line.

(** The rows handed to [series.setData]: [addRSI] names the properties
    with the [_internal_] prefix and gives four values, [updateIndicator]
    uses the plain names and gives one. *)
Inductive Row : Type :=
| InternalRow (_internal_index : Z) (_internal_time : float)
              (_internal_value : list float) (_internal_originalTime : float)
| PlainRow (index : Z) (time : float) (value : list float) (originalTime : float).

Record SetDataInfo : Type :=
  { lastBarUpdatedOrNewBarsAddedToTheRight : bool; historicalUpdate : bool }.

Record PriceFormat : Type :=
  { pf_type : string; formatter : float -> string; minMove : float }.

(** The options that [addRSI] applies to the series. *)
Record SeriesOptions : Type :=
  { so_color : string;
    priceFormat : PriceFormat;
    title : string;
    so_visible : bool;
    priceScaleId : string }.

(** [array.map((point, index) => f(point, index))] *)
Fixpoint mapi_from {A B} (f : A -> Z -> B) (l : list A) (i : Z) : list B :=
  match l with
  | [] => []
  | x :: l' => f x i :: mapi_from f l' (i + 1)%Z
  end.

Definition mapi {A B} (f : A -> Z -> B) (l : list A) : list B := mapi_from f l 0%Z.

Section Host.

Variables PaneT SeriesT H : Type.

Record IndicatorPane : Type :=
  { id : string;
    type : IndicatorType;
    pane : PaneT;
    indicator : RSI.RSIIndicator;
    series : SeriesT;
    height : float }.

Definition set_indicator (v : RSI.RSIIndicator) (p : IndicatorPane) : IndicatorPane :=
  {| id := id p; type := type p; pane := pane p; indicator := v;
     series := series p; height := height p |}.

Record IndicatorManagerCallbacks : Type :=
  { onIndicatorAdded : IndicatorPane -> M H unit;
    onIndicatorRemoved : string -> M H unit;
    onIndicatorUpdated : string -> M H unit }.

(** The manager, next to the chart that its calls act on. *)
Record t : Type :=
  { _indicators : JsMap.t IndicatorPane;
    _nextId : Z;
    chart : H }.

Definition set_indicators (v : JsMap.t IndicatorPane) (this : t) : t :=
  {| _indicators := v; _nextId := _nextId this; chart := chart this |}.
Definition set_nextId (v : Z) (this : t) : t :=
  {| _indicators := _indicators this; _nextId := v; chart := chart this |}.
Definition set_chart (v : H) (this : t) : t :=
  {| _indicators := _indicators this; _nextId := _nextId this; chart := v |}.

Definition new (chart : H) : t :=
  {| _indicators := JsMap.empty; _nextId := 1; chart := chart |}.

(** A call into the chart. *)
Definition onChart {A} (m : M H A) : M t A :=
  fun this =>
    let '(c, chart') := m (chart this) in (c, set_chart chart' this).

Variable _callbacks : IndicatorManagerCallbacks.

(** [series.applyOptions] and [series.setData], methods of the chart's
    series. *)
Variable series_applyOptions : SeriesT -> SeriesOptions -> M H unit.
Variable series_setData : SeriesT -> list Row -> SetDataInfo -> M H unit.

(** [Number.prototype.toFixed], a built-in of the host. *)
Variable toFixed : float -> Z -> string.

Definition setDataInfo : SetDataInfo :=
  {| lastBarUpdatedOrNewBarsAddedToTheRight := true; historicalUpdate := false |}.

(** [addRSI(mainSeriesData, createPaneCallback, createSeriesCallback)] *)
Definition addRSI (mainSeriesData : list RSI.PriceData)
    (createPaneCallback : M H PaneT)
    (createSeriesCallback : PaneT -> SeriesKind -> M H SeriesT) : M t string :=
  nextId <- gets _nextId ;;
  exec (set_nextId (nextId + 1)) ;;
  let id := "RSI_" ++ ChartModel.Z_toString nextId in
  let '(rsiData, rsi) := RSI.calculate mainSeriesData (RSI.new None) in
  rsiData <- lift rsiData ;;
  pane <- onChart createPaneCallback ;;
  series <- onChart (createSeriesCallback pane Line) ;;
  onChart (series_applyOptions series
             {| so_color := RSI.color (RSI.options rsi);
                priceFormat :=
                  {| pf_type := "custom";
                     formatter := fun price => RSI.formatValue toFixed price;
                     minMove := 0.01 |};
                title := "RSI(14)";
                so_visible := RSI.visible (RSI.options rsi);
                priceScaleId := "rsi" |}) ;;
  let seriesData :=
    mapi (fun point index =>
            InternalRow index (RSI.time point)
              [RSI.value point; RSI.value point; RSI.value point; RSI.value point]
              (RSI.time point))
         rsiData in
  (if (0 <? Z.of_nat (List.length seriesData))%Z
   then onChart (series_setData series seriesData setDataInfo)
   else ret tt) ;;
  let indicatorPane :=
    {| id := id; type := RSI; pane := pane; indicator := rsi;
       series := series; height := 100 |} in
  exec (fun this => set_indicators (JsMap.set (_indicators this) id indicatorPane) this) ;;
  onChart (onIndicatorAdded _callbacks indicatorPane) ;;
  ret id.

(** [removeIndicator(id)] *)
Definition removeIndicator (id : string) : M t bool :=
  indicatorPane <- gets (fun this => JsMap.get (_indicators this) id) ;;
  match indicatorPane with
  | None => ret false
  | Some _ =>
      exec (fun this => set_indicators (JsMap.delete (_indicators this) id) this) ;;
      onChart (onIndicatorRemoved _callbacks id) ;;
      ret true
  end.

(** [updateIndicator(id, newData)].  [calculate] changes the indicator
    object that the stored entry refers to: the entry is stored back
    with the indicator as [calculate] left it. *)
Definition updateIndicator (id : string) (newData : list RSI.PriceData) : M t unit :=
  indicatorPane <- gets (fun this => JsMap.get (_indicators this) id) ;;
  match indicatorPane with
  | None => ret tt
  | Some indicatorPane =>
      match type indicatorPane with
      | RSI =>
          let '(rsiData, rsi) := RSI.calculate newData (indicator indicatorPane) in
          exec (fun this =>
                  set_indicators
                    (JsMap.set (_indicators this) id (set_indicator rsi indicatorPane)) this) ;;
          rsiData <- lift rsiData ;;
          let seriesData :=
            mapi (fun point index =>
                    PlainRow index (RSI.time point) [RSI.value point] (RSI.time point))
                 rsiData in
          (if (0 <? Z.of_nat (List.length seriesData))%Z
           then onChart (series_setData (series indicatorPane) seriesData setDataInfo)
           else ret tt) ;;
          onChart (onIndicatorUpdated _callbacks id)
      | _ => ret tt
      end
  end.

Definition getIndicator (id : string) (this : t) : option IndicatorPane :=
  JsMap.get (_indicators this) id.

Definition getAllIndicators (this : t) : list IndicatorPane :=
  map snd (_indicators this).

Definition getIndicatorsByType (type' : IndicatorType) (this : t) : list IndicatorPane :=
  filter (fun indicator => IndicatorType_eqb (type indicator) type')
         (map snd (_indicators this)).

Definition hasIndicators (this : t) : bool :=
  (0 <? Z.of_nat (JsMap.size (_indicators this)))%Z.

Definition clear (this : t) : t := set_indicators JsMap.empty this.

End Host.

End IndicatorManager.

(* ------------------------------------------------------------------ *)
(** ** The crosshair renderer (renderers/crosshair-renderer)

    What the renderer does to the canvas is the list of the calls it
    makes on the context, in order.  [setLineStyle], [drawVerticalLine]
    and [drawHorizontalLine] come from renderers/draw-line and appear as
    calls of their own. *)

Module CrosshairRenderer.

Local Open Scope float_scope.

Record CrosshairLineStyle : Type :=
  { lineStyle : Z;
    lineWidth : float;
    color : string;
    visible : bool }.

Record CrosshairRendererData : Type :=
  { vertLine : CrosshairLineStyle;
    horzLine : CrosshairLineStyle;
    x : float;
    y : float;
    showCenterDot : option bool;
    centerDotColor : option string;
    centerDotRadius : option float }.

Record BitmapCoordinatesRenderingScope : Type :=
  { bitmapSize_width : float;
    bitmapSize_height : float;
    horizontalPixelRatio : float;
    verticalPixelRatio : float }.

Inductive CanvasCall : Type :=
| set_fillStyle (value : string)
| set_strokeStyle (value : string)
| set_lineWidth (value : float)
| set_lineCap (value : string)
| beginPath
| arc (x y radius startAngle endAngle : float)
| fill
| setLineStyle (style : Z)
| drawVerticalLine (x top bottom : float)
| drawHorizontalLine (y left right : float).

Definition Math_PI : float := 3.141592653589793.

(** [value || fallback] for a number that may be missing: [0] and [NaN]
    count as missing. *)
Definition numberOr (value : option float) (fallback : float) : float :=
  match value with
  | Some v => if is_zero v || is_nan v then fallback else v
  | None => fallback
  end.

(** [value || fallback] for a string that may be missing: the empty
    string counts as missing. *)
Definition stringOr (value : option string) (fallback : string) : string :=
  match value with
  | Some EmptyString | None => fallback
  | Some v => v
  end.

Definition truthy (value : option bool) : bool :=
  match value with Some b => b | None => false end.

Section Host.

(** [Math.round] and [Math.floor], built-ins of the host. *)
Variables Math_round Math_floor : float -> float.

(** [_drawImpl(scope)] of a renderer made with [data].  In the dot
    branch the test [typeof x !== 'number'] is never met by a value of
    type [number]. *)
Definition _drawImpl (scope : BitmapCoordinatesRenderingScope)
    (_data : option CrosshairRendererData) : list CanvasCall :=
  match _data with
  | None => []
  | Some _data =>
      let vertLinesVisible := visible (vertLine _data) in
      let horzLinesVisible := visible (horzLine _data) in
      let showCenterDot := showCenterDot _data in
      let hasValidCoordinates :=
        negb (is_nan (x _data)) && negb (is_nan (y _data))
        && is_finite (x _data) && is_finite (y _data) in
      if truthy showCenterDot then
        let x := Math_round (x _data * horizontalPixelRatio scope) in
        let y := Math_round (y _data * verticalPixelRatio scope) in
        let dotRadius :=
          numberOr (centerDotRadius _data) 3
          * Js.Math_min (horizontalPixelRatio scope) (verticalPixelRatio scope) in
        let dotColor := stringOr (centerDotColor _data) "#2196F3" in
        [set_fillStyle dotColor; beginPath; arc x y dotRadius 0 (2 * Math_PI); fill]
      else if negb vertLinesVisible && negb horzLinesVisible then []
      else if negb hasValidCoordinates then []
      else
        let x := Math_round (x _data * horizontalPixelRatio scope) in
        let y := Math_round (y _data * verticalPixelRatio scope) in
        [set_lineCap "butt"]
        ++ (if vertLinesVisible && Js.ge x 0
            then [set_lineWidth (Math_floor (lineWidth (vertLine _data)
                                             * horizontalPixelRatio scope));
                  set_strokeStyle (color (vertLine _data));
                  set_fillStyle (color (vertLine _data));
                  setLineStyle (lineStyle (vertLine _data));
                  drawVerticalLine x 0 (bitmapSize_height scope)]
            else [])
        ++ (if horzLinesVisible && Js.ge y 0
            then [set_lineWidth (Math_floor (lineWidth (horzLine _data)
                                             * verticalPixelRatio scope));
                  set_strokeStyle (color (horzLine _data));
                  set_fillStyle (color (horzLine _data));
                  setLineStyle (lineStyle (horzLine _data));
                  drawHorizontalLine y 0 (bitmapSize_width scope)]
            else [])
  end.

End Host.

End CrosshairRenderer.

(* ------------------------------------------------------------------ *)
(** ** The pane view of the crosshair (views/pane/crosshair-pane-view)

    The view fills the data object that its renderer was made with.  It
    reads the mode from the options of the chart and [_showCenterDot]
    from the crosshair of the model; the methods of [Crosshair] that it
    calls, and the line options of the crosshair, are outside the
    sources at hand and appear with their answers. *)

Module CrosshairPaneView.

Import CrosshairRenderer.
Local Open Scope float_scope.

Record CenterDotOptions : Type := { dot_color : string; dot_radius : float }.

(** The answers of [visible()], [horzLineVisible(pane)],
    [vertLineVisible()], [appliedX()], [appliedY()] and
    [centerDotOptions()]. *)
Record CrosshairAnswers : Type :=
  { source_visible : bool;
    horzLineVisible : bool;
    vertLineVisible : bool;
    appliedX : float;
    appliedY : float;
    centerDotOptions : CenterDotOptions }.

(** [crosshairOptions.horzLine] and [crosshairOptions.vertLine] *)
Record CrosshairLineOptions : Type :=
  { width : float; style : Z; line_color : string }.

Record t : Type :=
  { _invalidated : bool;
    _rendererData : CrosshairRendererData }.

(** The view as its constructor leaves it. *)
Definition new : t :=
  {| _invalidated := true;
     _rendererData :=
       {| vertLine := {| lineWidth := 1; lineStyle := 0; color := ""; visible := false |};
          horzLine := {| lineWidth := 1; lineStyle := 0; color := ""; visible := false |};
          x := 0;
          y := 0;
          showCenterDot := Some false;
          centerDotColor := Some "#2196F3"%string;
          centerDotRadius := Some 3 |} |}.

Definition update (this : t) : t :=
  {| _invalidated := true; _rendererData := _rendererData this |}.

Definition hideLine (l : CrosshairLineStyle) : CrosshairLineStyle :=
  {| lineStyle := lineStyle l; lineWidth := lineWidth l; color := color l;
     visible := false |}.

Section Host.

(** [CrosshairMode.Hidden], declared in model/crosshair. *)
Variable CrosshairMode_Hidden : Z.

Variable _source : CrosshairAnswers.
Variables optionsHorzLine optionsVertLine : CrosshairLineOptions.

Definition _updateImpl (w : ChartWidgetState.t) (this : t) : t :=
  let data := _rendererData this in
  if (ChartModelState.crosshair_mode (ChartModel.options w) =? CrosshairMode_Hidden)%Z then
    {| _invalidated := _invalidated this;
       _rendererData :=
         {| vertLine := hideLine (vertLine data);
            horzLine := hideLine (horzLine data);
            x := x data;
            y := y data;
            showCenterDot := Some false;
            centerDotColor := centerDotColor data;
            centerDotRadius := centerDotRadius data |} |}
  else if Crosshair._showCenterDot (ChartModel.crosshairSource w) then
    let dotOptions := centerDotOptions _source in
    {| _invalidated := _invalidated this;
       _rendererData :=
         {| vertLine := hideLine (vertLine data);
            horzLine := hideLine (horzLine data);
            x := appliedX _source;
            y := appliedY _source;
            showCenterDot := Some true;
            centerDotColor := Some (dot_color dotOptions);
            centerDotRadius := Some (dot_radius dotOptions) |} |}
  else
    {| _invalidated := _invalidated this;
       _rendererData :=
         {| vertLine :=
              {| lineStyle := style optionsVertLine;
                 lineWidth := width optionsVertLine;
                 color := line_color optionsVertLine;
                 visible := source_visible _source && vertLineVisible _source |};
            horzLine :=
              {| lineStyle := style optionsHorzLine;
                 lineWidth := width optionsHorzLine;
                 color := line_color optionsHorzLine;
                 visible := source_visible _source && horzLineVisible _source |};
            x := appliedX _source;
            y := appliedY _source;
            showCenterDot := Some false;
            centerDotColor := centerDotColor data;
            centerDotRadius := centerDotRadius data |} |}.

(** [renderer(pane)]: the view after the call, and the data that the
    renderer it returns draws from. *)
Definition renderer (w : ChartWidgetState.t) (this : t) : t * CrosshairRendererData :=
  let this' :=
    if _invalidated this
    then {| _invalidated := false;
            _rendererData := _rendererData (_updateImpl w this) |}
    else this in
  (this', _rendererData this').

End Host.

End CrosshairPaneView.

(* ------------------------------------------------------------------ *)
(** ** Concrete charts used in the examples *)

Module Samples.

Import ChartModelState ChartWidgetState.
Local Open Scope float_scope.

(** Two points, at times 100 and 200, drawn at 10px and 20px. *)
Definition twoPoints : TimeScale.t :=
  {| TimeScale.baseIndex := 1;
     TimeScale.indexToCoordinate := fun i =>
       if Z.eqb i 0 then Some 10 else if Z.eqb i 1 then Some 20 else None;
     TimeScale.indexToTimeScalePoint := fun i =>
       if Z.eqb i 0 then Some {| TimeScale.originalTime := Some 100 |}
       else if Z.eqb i 1 then Some {| TimeScale.originalTime := Some 200 |}
       else None;
     TimeScale.coordinateToIndex := fun x =>
       if x <? 15 then Some 0%Z else Some 1%Z;
     TimeScale.timeToIndex := fun t _ =>
       if t =? 100 then Some 0%Z else if t =? 200 then Some 1%Z else None |}.

(** A time scale without data. *)
Definition noPoints : TimeScale.t :=
  {| TimeScale.baseIndex := 0;
     TimeScale.indexToCoordinate := fun _ => Some 0;
     TimeScale.indexToTimeScalePoint := fun _ => None;
     TimeScale.coordinateToIndex := fun _ => None;
     TimeScale.timeToIndex := fun _ _ => None |}.

(** A price scale of 100 pixels showing the prices 0 to 100. *)
Definition priceScale : PriceScale.t :=
  {| PriceScale.id := "right";
     PriceScale.firstValue := Some 50;
     PriceScale.coordinateToPrice := fun y _ => Some (100 - y);
     PriceScale.priceToCoordinate := fun p _ => Some (100 - p) |}.

(** The same scale before any data has arrived. *)
Definition notReady : PriceScale.t :=
  {| PriceScale.id := "right";
     PriceScale.firstValue := None;
     PriceScale.coordinateToPrice := fun y _ => Some (100 - y);
     PriceScale.priceToCoordinate := fun p _ => Some (100 - p) |}.

Definition scalesOf (ps : PriceScale.t) : Pane.Scales :=
  {| Pane.defaultPriceScale := ps;
     Pane.priceScaleById := fun id =>
       if String.eqb id "right" then Some ps else None |}.

Definition options : ChartOptions :=
  {| crosshair_mode := 1;
     leftPriceScale := {| PriceScale.autoScale := true; PriceScale.visible := false |};
     rightPriceScale := {| PriceScale.autoScale := true; PriceScale.visible := true |} |}.

Definition crosshair : Crosshair.t :=
  {| Crosshair._visible := false; Crosshair._showCenterDot := false;
     Crosshair._x := 0; Crosshair._y := 0; Crosshair._price := 0;
     Crosshair._pane := None |}.

Definition throwingAssert (message : string) : Completion.t unit :=
  Completion.Throw (Completion.MkError ("Assertion failed: " ++ message)).

(** The widget around a model whose constructor has not run yet. *)
Definition unbuilt (ts : TimeScale.t) : ChartWidgetState.t :=
  ChartWidgetState.initial (ChartModelState.initial options ts crosshair) 1.

(** The chart once the model constructor has run. *)
Definition chartOn (ts : TimeScale.t) (ps : PriceScale.t) : ChartWidgetState.t :=
  snd (ChartModel.constructor throwingAssert 1 (scalesOf ps) (unbuilt ts)).

Definition chart : ChartWidgetState.t := chartOn twoPoints priceScale.

(** The same chart after the pending frame has been painted. *)
Definition idleChart : ChartWidgetState.t :=
  ChartWidget.runAnimationFrame (fun _ _ w => w) 0 chart.

Definition mainPane : Pane.t := Pane.new 0 2 (scalesOf priceScale).

(** The chart with the trendline tool switched on and a first anchor
    placed by a click at (30, 40). *)
Definition drawingChart : ChartWidgetState.t :=
  ChartWidget._handleTrendlineClick 1700000000000 "k3" mainPane (Some 1%Z)
    (Some {| pt_x := 30; pt_y := 40 |})
    (ChartWidget._onTrendlineToolToggle true chart).

Definition rsi : Series.t := {| Series.uid := 7; Series.priceScaleId := None |}.

(** The chart with a second pane holding one series. *)
Definition twoPaneChart : ChartWidgetState.t :=
  snd (ChartModel.addSeriesToPane throwingAssert 1 (scalesOf priceScale) rsi 1 chart).

(** A trendline given by the pixels of its anchors on [chart]. *)
Definition trendlineAt (id : string) (x1 y1 x2 y2 : float) : string * Trendline.t :=
  (id, Trendline.new
         {| Trendline.id := id;
            Trendline.point1 := {| Trendline.time := 10 * x1; Trendline.value := 100 - y1 |};
            Trendline.point2 := {| Trendline.time := 10 * x2; Trendline.value := 100 - y2 |} |}
         None).

(** [nearAnchor] has an anchor 7 pixels from (50, 50); [nearLine] passes
    1 pixel from it, its anchors 50 pixels away. *)
Definition nearAnchor : string * Trendline.t := trendlineAt "A" 57 50 150 50.
Definition nearLine : string * Trendline.t := trendlineAt "B" 0 51 100 51.

Definition paneWidget (l : JsMap.t Trendline.t) : PaneWidget.t :=
  {| PaneWidget._state := Some mainPane; PaneWidget._trendlines := l |}.

Definition toFixed (x : float) (digits : Z) : string := EmptyString.

Definition downtrend : Fibonacci.FibonacciRetracement := Fibonacci.retracement 200 100.
Definition uptrend : Fibonacci.FibonacciRetracement := Fibonacci.retracement 100 200.

(** A trendline from (time 100, price 40) to (time 200, price 60), and
    [chart] once it has been added. *)
Definition support : Trendline.TrendlineData :=
  {| Trendline.id := "support";
     Trendline.point1 := {| Trendline.time := 100; Trendline.value := 40 |};
     Trendline.point2 := {| Trendline.time := 200; Trendline.value := 60 |} |}.

Definition annotatedChart : ChartWidgetState.t :=
  snd (ChartModel.addTrendline support None chart).

(** [chart] with its toolbar in place, no tool pressed. *)
Definition chartWithToolbar : ChartWidgetState.t :=
  set_toolbarWidget (Some {| _isTrendlineActive := false; _isFibonacciActive := false |})
    chart.

(** [chart] with a second pane that holds nothing. *)
Definition sparePaneChart : ChartWidgetState.t :=
  snd (ChartModel.addPane throwingAssert 1 (scalesOf priceScale) 100 chart).


(** Fifteen closing prices, one a day. *)
Definition fifteenCloses : list RSI.PriceData :=
  map (fun tc => {| RSI.pd_time := fst tc; RSI.close := snd tc |})
      [(1, 44); (2, 44.25); (3, 44.5); (4, 43.75); (5, 44.5); (6, 44.25);
       (7, 44); (8, 44.5); (9, 45); (10, 45.5); (11, 45.25); (12, 46);
       (13, 46.5); (14, 46.25); (15, 46.75)].

(** An indicator set up with a period of its own: -1, and 2.5. *)
Definition withPeriod (period : float) : RSI.RSIIndicator :=
  RSI.new (Some {| RSI.p_period := Some period; RSI.p_overboughtLevel := None;
                   RSI.p_oversoldLevel := None; RSI.p_color := None;
                   RSI.p_lineWidth := None; RSI.p_visible := None |}).

Definition backwardsRSI : RSI.RSIIndicator := withPeriod (-1).

Definition fractionalRSI : RSI.RSIIndicator := withPeriod 2.5.

Definition fourCloses : list RSI.PriceData := firstn 4 fifteenCloses.

(** A chart that only keeps a journal of the calls made on it; its
    panes and series carry nothing. *)
Definition Journal : Type := list string.

Definition note (entry : string) : Completion.M Journal unit :=
  Completion.exec (fun journal => journal ++ [entry]).

Definition journalCallbacks : IndicatorManager.IndicatorManagerCallbacks unit unit Journal :=
  {| IndicatorManager.onIndicatorAdded :=
       fun indicatorPane => note ("added " ++ IndicatorManager.id indicatorPane)%string;
     IndicatorManager.onIndicatorRemoved := fun id => note ("removed " ++ id)%string;
     IndicatorManager.onIndicatorUpdated := fun id => note ("updated " ++ id)%string |}.

Definition journalApplyOptions (series : unit) (options : IndicatorManager.SeriesOptions)
  : Completion.M Journal unit := note "applyOptions".

Definition journalSetData (series : unit) (rows : list IndicatorManager.Row)
    (info : IndicatorManager.SetDataInfo) : Completion.M Journal unit := note "setData".

Definition createPane : Completion.M Journal unit := note "createPane".

Definition createSeries (pane : unit) (kind : IndicatorManager.SeriesKind)
  : Completion.M Journal unit := note "createSeries".

(** A new manager after one [addRSI] on the fifteen prices. *)
Definition oneRSI : IndicatorManager.t unit unit Journal :=
  snd (IndicatorManager.addRSI journalCallbacks journalApplyOptions journalSetData toFixed
         fifteenCloses createPane createSeries (IndicatorManager.new unit unit [])).

(** The entry that this leaves under ["RSI_1"]. *)
Definition rsiEntry : IndicatorManager.IndicatorPane unit unit :=
  {| IndicatorManager.id := "RSI_1";
     IndicatorManager.type := IndicatorManager.RSI;
     IndicatorManager.pane := tt;
     IndicatorManager.indicator := snd (RSI.calculate fifteenCloses (RSI.new None));
     IndicatorManager.series := tt;
     IndicatorManager.height := 100 |}.

(** The manager after that indicator is removed, and after a second
    [addRSI]. *)
Definition afterRemoval : IndicatorManager.t unit unit Journal :=
  snd (IndicatorManager.removeIndicator journalCallbacks "RSI_1" oneRSI).

Definition secondRSI : IndicatorManager.t unit unit Journal :=
  snd (IndicatorManager.addRSI journalCallbacks journalApplyOptions journalSetData toFixed
         fifteenCloses createPane createSeries afterRemoval).

Definition threeCloses : list RSI.PriceData := firstn 3 fifteenCloses.

(** The host's [Math.round], as far as the examples go: they only round
    whole numbers. *)
Definition Math_round (x : float) : float := x.

Definition plainScope : CrosshairRenderer.BitmapCoordinatesRenderingScope :=
  {| CrosshairRenderer.bitmapSize_width := 800;
     CrosshairRenderer.bitmapSize_height := 400;
     CrosshairRenderer.horizontalPixelRatio := 1;
     CrosshairRenderer.verticalPixelRatio := 1 |}.

(** A visible crosshair at (15, 50), with an orange dot. *)
Definition crosshairAnswers : CrosshairPaneView.CrosshairAnswers :=
  {| CrosshairPaneView.source_visible := true;
     CrosshairPaneView.horzLineVisible := true;
     CrosshairPaneView.vertLineVisible := true;
     CrosshairPaneView.appliedX := 15;
     CrosshairPaneView.appliedY := 50;
     CrosshairPaneView.centerDotOptions :=
       {| CrosshairPaneView.dot_color := "#FF6B35"; CrosshairPaneView.dot_radius := 4 |} |}.

Definition crosshairLine : CrosshairPaneView.CrosshairLineOptions :=
  {| CrosshairPaneView.width := 1; CrosshairPaneView.style := 3;
     CrosshairPaneView.line_color := "#9598A1" |}.

(** The chart with the trendline tool on and the crosshair mode then
    set to 2. *)
Definition hiddenCrosshairChart : ChartWidgetState.t :=
  ChartModel.applyOptions (ChartModel.crosshairModePatch 2)
    (ChartWidget._onTrendlineToolToggle true chart).

(** The second pane of [twoPaneChart], made for the series. *)
Definition rsiPane : Pane.t :=
  Pane.addDataSource rsi (Pane.new 1 1 (scalesOf priceScale)).

End Samples.

(* ------------------------------------------------------------------ *)
(** ** Predicates on the state of the chart *)

Module Invariants.

Import ChartModelState ChartWidgetState.

(** A frame callback is scheduled: the flag is set, and the requests
    made to the host and the handle kept by the widget are [win] and
    [rid]. *)
Definition framePlanned (win : Window) (rid : Z) (w : ChartWidgetState.t) : Prop :=
  _drawPlanned w = true /\ window w = win /\ _drawRafId w = rid.

(** The pane list of the model is not empty. *)
Definition hasPanes (w : ChartWidgetState.t) : Prop := ChartModel.panes w <> [].

(** The annotation stores and the current symbol of two states agree. *)
Definition sameAnnotations (w w' : ChartWidgetState.t) : Prop :=
  _currentSymbol (_model w') = _currentSymbol (_model w)
  /\ ChartModelState._trendlines (_model w') = ChartModelState._trendlines (_model w)
  /\ _trendlinesBySymbol (_model w') = _trendlinesBySymbol (_model w)
  /\ _fibonacciRetracements (_model w') = _fibonacciRetracements (_model w)
  /\ _fibonacciRetrracementsBySymbol (_model w') = _fibonacciRetrracementsBySymbol (_model w).

End Invariants.

(* ------------------------------------------------------------------ *)
(** ** The annotations kept for one symbol *)

Module Stores.

Import ChartModelState ChartWidgetState.

(** What [trendlines()] answers while [symbol] is the current symbol:
    the store without symbol for the empty name, the map kept for the
    symbol otherwise (empty when none has been created yet). *)
Definition trendlinesOf (symbol : string) (w : ChartWidgetState.t) : JsMap.t Trendline.t :=
  if String.eqb symbol EmptyString then ChartModelState._trendlines (_model w)
  else ChartModel.orEmpty (JsMap.get (_trendlinesBySymbol (_model w)) symbol).

Definition fibonacciOf (symbol : string) (w : ChartWidgetState.t)
  : JsMap.t Fibonacci.FibonacciRetracement :=
  if String.eqb symbol EmptyString then _fibonacciRetracements (_model w)
  else ChartModel.orEmpty (JsMap.get (_fibonacciRetrracementsBySymbol (_model w)) symbol).

End Stores.

(* ------------------------------------------------------------------ *)
(** ** Fair answers of the hit test *)

Module Hits.

Import PaneWidget.
Local Open Scope float_scope.

(** What a hit must be like to be a fair answer for the trendlines [l]
    and the pointer at [(x, y)]: its id is one of theirs, both anchors of
    that trendline have pixels, and the distance it reports is the
    distance from the pointer to the part it names, within the tolerance
    of that part. *)
Definition fair (timeScale : TimeScale.t) (priceScale : PriceScale.t)
    (firstValue x y : float) (l : JsMap.t Trendline.t) (hit : TrendlineHitResult) : Prop :=
  exists trendline coords1 coords2,
    In (trendlineId hit, trendline) l
    /\ _convertTimeAndPriceToCoordinates
         (Trendline.time (Trendline.point1 (Trendline._data trendline)))
         (Trendline.value (Trendline.point1 (Trendline._data trendline)))
         timeScale priceScale firstValue = Some coords1
    /\ _convertTimeAndPriceToCoordinates
         (Trendline.time (Trendline.point2 (Trendline._data trendline)))
         (Trendline.value (Trendline.point2 (Trendline._data trendline)))
         timeScale priceScale firstValue = Some coords2
    /\ match hitType hit with
       | point1 =>
           distance hit = Js.Math_sqrt (Js.Math_pow2 (x - pt_x coords1)
                                        + Js.Math_pow2 (y - pt_y coords1))
           /\ Js.le (distance hit) SELECTION_HIT_TOLERANCE = true
       | point2 =>
           distance hit = Js.Math_sqrt (Js.Math_pow2 (x - pt_x coords2)
                                        + Js.Math_pow2 (y - pt_y coords2))
           /\ Js.le (distance hit) SELECTION_HIT_TOLERANCE = true
       | line =>
           distance hit = _distanceToLine x y (pt_x coords1) (pt_y coords1)
                            (pt_x coords2) (pt_y coords2)
           /\ Js.le (distance hit) LINE_HIT_TOLERANCE = true
       end.

End Hits.

(* ------------------------------------------------------------------ *)
(** ** The drawing tools, as the user drives them *)

Module Tools.

Import ChartModelState ChartWidgetState.

(** The buttons of the toolbar, the drawing flags of the widget and the
    drawing flag of the model tell the same story, and at most one tool
    is active. *)
Definition inSync (w : ChartWidgetState.t) : bool :=
  match _toolbarWidget w with
  | Some tb =>
      Bool.eqb (_isTrendlineActive tb) (ChartWidgetState._isDrawingTrendline w)
      && Bool.eqb (_isFibonacciActive tb) (_isDrawingFibonacci w)
      && Bool.eqb (ChartModel.isDrawingTrendline w) (ChartWidgetState._isDrawingTrendline w)
      && negb (ChartWidgetState._isDrawingTrendline w && _isDrawingFibonacci w)
  | None => false
  end.

(** What the user can do to the tools: press one of the two buttons, or
    click on a pane; a click also brings the time of the host and the
    random suffix of the id that it may give out. *)
Inductive UserEvent : Type :=
| TrendlineButton
| FibonacciButton
| PaneClick (Date_now : float) (uniqueSuffix : string)
            (pane : Pane.t) (time : option Z) (point : option Point).

Definition handle (w : ChartWidgetState.t) (event : UserEvent) : ChartWidgetState.t :=
  match event with
  | TrendlineButton => ChartWidget.trendlineButton_click w
  | FibonacciButton => ChartWidget.fibonacciButton_click w
  | PaneClick Date_now uniqueSuffix pane time point =>
      ChartWidget._onPaneWidgetClicked Date_now uniqueSuffix pane time point w
  end.

Definition handleAll (events : list UserEvent) (w : ChartWidgetState.t)
  : ChartWidgetState.t :=
  fold_left handle events w.

End Tools.

(* ------------------------------------------------------------------ *)
(** ** The indicator manager, as its owner drives it *)

Module Indicators.

Import IndicatorManager.

Section Host.

Variables PaneT SeriesT H : Type.
Variable _callbacks : IndicatorManagerCallbacks PaneT SeriesT H.
Variable series_applyOptions : SeriesT -> SeriesOptions -> Completion.M H unit.
Variable series_setData : SeriesT -> list Row -> SetDataInfo -> Completion.M H unit.
Variable toFixed : float -> Z -> string.

(** The calls that change a manager. *)
Inductive Call : Type :=
| AddRSI (mainSeriesData : list RSI.PriceData)
         (createPaneCallback : Completion.M H PaneT)
         (createSeriesCallback : PaneT -> SeriesKind -> Completion.M H SeriesT)
| RemoveIndicator (id : string)
| UpdateIndicator (id : string) (newData : list RSI.PriceData)
| Clear.

(** The manager after a call, whether the call returned or threw. *)
Definition perform (this : t PaneT SeriesT H) (call : Call) : t PaneT SeriesT H :=
  match call with
  | AddRSI mainSeriesData createPaneCallback createSeriesCallback =>
      snd (addRSI _callbacks series_applyOptions series_setData toFixed
                  mainSeriesData createPaneCallback createSeriesCallback this)
  | RemoveIndicator id => snd (removeIndicator _callbacks id this)
  | UpdateIndicator id newData =>
      snd (updateIndicator _callbacks series_setData id newData this)
  | Clear => clear this
  end.

Definition performAll (calls : list Call) (this : t PaneT SeriesT H) : t PaneT SeriesT H :=
  fold_left perform calls this.

(** The id that [addRSI] makes of the counter. *)
Definition idOf (nextId : Z) : string := ("RSI_" ++ ChartModel.Z_toString nextId)%string.

(** Every stored key was made of a counter value that is used up. *)
Definition numbered (this : t PaneT SeriesT H) : Prop :=
  forall key, JsMap.has (_indicators this) key = true ->
    exists n, key = idOf n /\ (1 <= n < _nextId this)%Z.

End Host.

End Indicators.

(* ================================================================== *)
(** * Properties *)

Import ChartModelState ChartWidgetState.

(* ------------------------------------------------------------------ *)
(** ** Fibonacci levels *)

Section FibonacciLevels.

Import Fibonacci.
Local Open Scope float_scope.

(** Scenario C of the specification: from 100 up to 200, the level 0.5
    is at 150 and the level 1.0 at 100. *)
Example uptrend_levels :
  levelPrices (calculateLevels Samples.toFixed Samples.uptrend) =
  [(0, 200); (0.236, 176.40000000000001); (0.382, 161.80000000000001); (0.5, 150);
   (0.618, 138.19999999999999); (0.786, 121.39999999999999); (1, 100)].
Proof. vm_compute. reflexivity. Qed.

(** C1 fails in the code on a downtrend.  On the retracement from 200
    down to 100 the specification puts the base at the lower anchor,
    100, and the levels between the two anchors, the level 0.5 at 150;
    [calculateLevels] takes [point1.value], 200, as the base and adds
    to it, so its levels run from 200 up to 300, the level 0.5 at
    250. *)
Theorem calculateLevels_downtrend_base_is_point1 :
  levelPrices (calculateLevels Samples.toFixed Samples.downtrend) =
    [(0, 200); (0.236, 223.59999999999999); (0.382, 238.19999999999999); (0.5, 250);
     (0.618, 261.80000000000001); (0.786, 278.60000000000002); (1, 300)]
  /\ spec_levelPrices Samples.downtrend =
       [(0, 100); (0.236, 123.59999999999999); (0.382, 138.19999999999999); (0.5, 150);
        (0.618, 161.80000000000001); (0.786, 178.60000000000002); (1, 200)]
  /\ levelPrices (calculateLevels Samples.toFixed Samples.downtrend)
     <> spec_levelPrices Samples.downtrend.
Proof.
  split; [vm_compute; reflexivity|]. split; [vm_compute; reflexivity|].
  vm_compute. discriminate.
Qed.

End FibonacciLevels.

(* ------------------------------------------------------------------ *)
(** ** Extrapolation beyond the last bar *)

Section Extrapolation.

Local Open Scope float_scope.

(** With two reference points at distinct pixels the chart widget and
    the pane widget extrapolate by the same expression. *)
Lemma extrapolation_with_two_points :
  forall (Date_now x : float) (w : ChartWidgetState.t) (baseTime baseCoord prevTime prevCoord : float),
    let ts := ChartModel.timeScale w in
    TimeScale.originalTimeAt ts (TimeScale.baseIndex ts) = Some baseTime ->
    TimeScale.indexToCoordinate ts (TimeScale.baseIndex ts) = Some baseCoord ->
    TimeScale.originalTimeAt ts (TimeScale.baseIndex ts - 1) = Some prevTime ->
    TimeScale.indexToCoordinate ts (TimeScale.baseIndex ts - 1) = Some prevCoord ->
    Js.strictNe (baseCoord - prevCoord) 0 = true ->
    ChartWidget._extrapolateTimeFromCoordinate Date_now x w
      = baseTime + (x - baseCoord) * ((baseTime - prevTime) / (baseCoord - prevCoord))
    /\ PaneWidget._extrapolateTimeFromCoordinate Date_now x ts
      = baseTime + (x - baseCoord) * ((baseTime - prevTime) / (baseCoord - prevCoord)).
Proof.
  intros Date_now x w bt bc pt pc ts Hbt Hbc Hpt Hpc Hne.
  unfold ChartWidget._extrapolateTimeFromCoordinate,
         PaneWidget._extrapolateTimeFromCoordinate.
  fold ts. rewrite Hbt, Hbc, Hpt, Hpc, Hne. split; reflexivity.
Qed.

(** C3 fails on the fallback: on a time scale without data, at
    [Date.now() = 1700000000000] and x = 100, the chart widget answers
    one synthetic day (86400 s) past now and the pane widget answers
    now. *)
Theorem extrapolation_fallbacks_differ :
  ChartWidget._extrapolateTimeFromCoordinate 1700000000000 100
    (Samples.unbuilt Samples.noPoints) = 1700086400
  /\ PaneWidget._extrapolateTimeFromCoordinate 1700000000000 100 Samples.noPoints
     = 1700000000.
Proof. split; vm_compute; reflexivity. Qed.

(** C6: when the last two points of the time scale have the times 100
    and 200 and are drawn at 10px and 20px, the extrapolation of a click
    at x = 30 is the time 300. *)
Theorem extrapolate_scenario_A :
  forall (Date_now : float) (w : ChartWidgetState.t),
    let ts := ChartModel.timeScale w in
    TimeScale.originalTimeAt ts (TimeScale.baseIndex ts - 1) = Some 100 ->
    TimeScale.originalTimeAt ts (TimeScale.baseIndex ts) = Some 200 ->
    TimeScale.indexToCoordinate ts (TimeScale.baseIndex ts - 1) = Some 10 ->
    TimeScale.indexToCoordinate ts (TimeScale.baseIndex ts) = Some 20 ->
    ChartWidget._extrapolateTimeFromCoordinate Date_now 30 w = 300.
Proof.
  intros Date_now w ts Hpt Hbt Hpc Hbc.
  unfold ChartWidget._extrapolateTimeFromCoordinate. fold ts.
  rewrite Hpt, Hbt, Hpc, Hbc. reflexivity.
Qed.

(** The chart of the examples is such a time scale. *)
Lemma extrapolate_scenario_A_witness :
  ChartWidget._extrapolateTimeFromCoordinate 1700000000000 30 Samples.chart = 300.
Proof.
  apply (extrapolate_scenario_A 1700000000000 Samples.chart); reflexivity.
Defined.

End Extrapolation.

(* ------------------------------------------------------------------ *)
(** ** Hit-testing of trendlines *)

Section HitTesting.

Local Open Scope float_scope.
Import PaneWidget.

(** Scenario B of the specification: a click on the pixel of the first
    anchor hits [point1] at distance 0. *)
Example hit_on_anchor :
  _hitTestTrendlines 57 50 Samples.chart (Samples.paneWidget [Samples.nearAnchor])
  = Some {| trendlineId := "A"; hitType := point1; distance := 0 |}.
Proof. vm_compute. reflexivity. Qed.

(** Within one trendline an anchor in reach wins over the segment, even
    when the click lies on the segment. *)
Example anchor_has_priority_over_line :
  _hitTestTrendlines 50 50 Samples.chart
      (Samples.paneWidget [Samples.trendlineAt "T" 57 50 20 50])
  = Some {| trendlineId := "T"; hitType := point1; distance := 7 |}.
Proof. vm_compute. reflexivity. Qed.

(** C5 fails on the order of the candidates: for a click at (50, 50),
    with one trendline whose anchor is 7 pixels away and another whose
    segment passes 1 pixel away, the closer hit wins only when the
    second trendline is visited first. *)
Theorem hit_test_depends_on_order :
  _hitTestTrendlines 50 50 Samples.chart
      (Samples.paneWidget [Samples.nearAnchor; Samples.nearLine])
    = Some {| trendlineId := "A"; hitType := point1; distance := 7 |}
  /\ _hitTestTrendlines 50 50 Samples.chart
      (Samples.paneWidget [Samples.nearLine; Samples.nearAnchor])
    = Some {| trendlineId := "B"; hitType := line; distance := 1 |}.
Proof. split; vm_compute; reflexivity. Qed.

End HitTesting.

(* ------------------------------------------------------------------ *)
(** ** The price-scale API before data has arrived *)

Section NotReady.

Import Completion.

(** C8: when the price scale that the API addresses exists and its
    [firstValue()] is [null], [coordinateToPrice] and
    [priceToCoordinate] return [NaN], whatever the argument, and do not
    throw. *)
Theorem priceScaleApi_not_ready :
  forall (api : PriceScaleApi.t) (w : ChartWidgetState.t) (res : ChartModel.PriceScaleOnPane),
    ChartModel.findPriceScale (PriceScaleApi._priceScaleId api)
                              (PriceScaleApi._paneIndex api) w = Some res ->
    PriceScale.firstValue (ChartModel.priceScale res) = None ->
    forall y p : float,
      PriceScaleApi.coordinateToPrice api y w = Normal (Some Js.NaN)
      /\ PriceScaleApi.priceToCoordinate api p w = Normal (Some Js.NaN).
Proof.
  intros api w res Hfind Hfirst y p.
  unfold PriceScaleApi.coordinateToPrice, PriceScaleApi.priceToCoordinate,
         PriceScaleApi._priceScale.
  rewrite Hfind. cbn. rewrite Hfirst. split; reflexivity.
Qed.

(** A chart whose right price scale has no first value yet. *)
Lemma priceScaleApi_not_ready_witness :
  PriceScaleApi.coordinateToPrice (PriceScaleApi.new "right" None) 40%float
      (Samples.chartOn Samples.twoPoints Samples.notReady) = Normal (Some Js.NaN)
  /\ PriceScaleApi.priceToCoordinate (PriceScaleApi.new "right" None) 60%float
      (Samples.chartOn Samples.twoPoints Samples.notReady) = Normal (Some Js.NaN).
Proof.
  apply (@priceScaleApi_not_ready (PriceScaleApi.new "right" None)
           (Samples.chartOn Samples.twoPoints Samples.notReady)
           {| ChartModel.pane := Pane.setStretchFactor 2%float
                                   (Pane.new 0 1%float (Samples.scalesOf Samples.notReady));
              ChartModel.priceScale := Samples.notReady |});
    reflexivity.
Defined.

End NotReady.

(* ------------------------------------------------------------------ *)
(** ** Invariants of the methods that may throw *)

Section Preservation.

Import Completion.

Variable S : Type.
Variable I : S -> Prop.

(** The state in which [bind m k] leaves [s] satisfies [I], whether the
    call returns or throws, when [m] leaves such a state and [k] keeps
    [I]. *)
Lemma keeps_bind {A B} (m : M S A) (k : A -> M S B) (s : S) :
  I (snd (m s)) ->
  (forall a s', I s' -> I (snd (k a s'))) ->
  I (snd (bind m k s)).
Proof.
  intros Hm Hk. unfold bind.
  destruct (m s) as [[a | e] s']; cbn in *.
  - apply Hk, Hm.
  - exact Hm.
Qed.

Lemma keeps_forEach {A} (l : list A) (body : A -> M S unit) (s : S) :
  (forall x s', I s' -> I (snd (body x s'))) ->
  I s ->
  I (snd (forEach l body s)).
Proof.
  intros Hbody. revert s. induction l as [| x l IH]; intros s Hs; cbn.
  - exact Hs.
  - apply keeps_bind; [apply Hbody, Hs | intros _ s' Hs'; apply IH, Hs'].
Qed.

End Preservation.

(** Walks through the binds and the branches of a method, leaving for
    [finish] the goals about its primitive steps. *)
Ltac keep_with finish :=
  repeat first
    [ assumption
    | progress cbv beta zeta
    | progress cbn [fst snd Completion.ret Completion.lift Completion.gets
                    Completion.exec Completion.throw]
    | apply keeps_bind; [| intros ? ? ?]
    | apply keeps_forEach; [intros ? ? ? |]
    | match goal with
      | |- context [if ?c then _ else _] => destruct c
      | |- context [match ?x with _ => _ end] => destruct x
      end
    | solve [finish] ].

Create HintDb planned.

(* ------------------------------------------------------------------ *)
(** ** One frame callback in flight *)

Section FramePlanned.

Import Completion.

Variable win : Window.
Variable rid : Z.

Local Abbreviation Planned := (Invariants.framePlanned win rid) (only parsing).

Lemma planned_withModel f w : Planned w -> Planned (withModel f w).
Proof. intros H. exact H. Qed.

Lemma planned_invalidateHandler mask w :
  Planned w -> Planned (_invalidateHandler mask w).
Proof.
  intros (Hp & Hw & Hr). unfold _invalidateHandler.
  destruct (_invalidateMask w); cbn; rewrite Hp; cbn; repeat split; assumption.
Qed.

Lemma planned_invalidate mask w : Planned w -> Planned (ChartModel._invalidate mask w).
Proof. apply planned_invalidateHandler. Qed.

Lemma planned_fullUpdate w : Planned w -> Planned (ChartModel.fullUpdate w).
Proof. apply planned_invalidateHandler. Qed.

Lemma planned_lightUpdate w : Planned w -> Planned (ChartModel.lightUpdate w).
Proof. apply planned_invalidateHandler. Qed.

Lemma planned_storePane p w : Planned w -> Planned (ChartModel.storePane p w).
Proof. apply planned_withModel. Qed.

Hint Resolve planned_withModel planned_invalidateHandler planned_invalidate
  planned_fullUpdate planned_lightUpdate planned_storePane : planned.

Ltac planned := keep_with ltac:(eauto 12 with planned).

Lemma planned_applyOptions patch w :
  Planned w -> Planned (ChartModel.applyOptions patch w).
Proof.
  intros H. unfold ChartModel.applyOptions, ChartModel.priceScalesOptionsChanged_fire.
  planned.
Qed.

Lemma planned_cleanup pane w :
  Planned w -> Planned (ChartModel._cleanupIfPaneIsEmpty pane w).
Proof. intros H. unfold ChartModel._cleanupIfPaneIsEmpty. planned. Qed.

Hint Resolve planned_applyOptions planned_cleanup : planned.

Variable NODE_ENV : string.
Variable assertionFailure : string -> Completion.t unit.
Variable DEFAULT_STRETCH_FACTOR : float.
Variable newPaneScales : Pane.Scales.

Lemma planned_applyPriceScaleOptions id options paneIndex w :
  Planned w ->
  Planned (snd (ChartModel.applyPriceScaleOptions NODE_ENV id options paneIndex w)).
Proof.
  intros H. unfold ChartModel.applyPriceScaleOptions,
    ChartModel.priceScalesOptionsChanged_fire.
  planned.
Qed.

Lemma planned_getOrCreatePane index w :
  Planned w ->
  Planned (snd (ChartModel._getOrCreatePane assertionFailure DEFAULT_STRETCH_FACTOR
                  newPaneScales index w)).
Proof.
  intros H. unfold ChartModel._getOrCreatePane, ChartModel.assertM. planned.
Qed.

Lemma planned_removePane index w :
  Planned w -> Planned (snd (ChartModel.removePane assertionFailure index w)).
Proof.
  intros H. unfold ChartModel.removePane, ChartModel.assertM. planned.
Qed.

Lemma planned_removeSeries series w :
  Planned w -> Planned (snd (ChartModel.removeSeries assertionFailure series w)).
Proof.
  intros H. unfold ChartModel.removeSeries, ChartModel.assertM. planned.
Qed.

Hint Resolve planned_getOrCreatePane planned_removePane planned_removeSeries : planned.

Lemma planned_deletePaneById paneIndex w :
  Planned w -> Planned (snd (ChartModel.deletePaneById assertionFailure paneIndex w)).
Proof.
  intros H. unfold ChartModel.deletePaneById. planned.
Qed.

Lemma planned_addPane height w :
  Planned w ->
  Planned (snd (ChartModel.addPane assertionFailure DEFAULT_STRETCH_FACTOR
                  newPaneScales height w)).
Proof.
  intros H. unfold ChartModel.addPane. planned.
Qed.

Lemma planned_addSeriesToPane series paneIndex w :
  Planned w ->
  Planned (snd (ChartModel.addSeriesToPane assertionFailure DEFAULT_STRETCH_FACTOR
                  newPaneScales series paneIndex w)).
Proof.
  intros H. unfold ChartModel.addSeriesToPane, ChartModel._addSeriesToPane. planned.
Qed.

Lemma planned_moveSeriesToPane series newPaneIndex w :
  Planned w ->
  Planned (snd (ChartModel.moveSeriesToPane assertionFailure DEFAULT_STRETCH_FACTOR
                  newPaneScales series newPaneIndex w)).
Proof.
  intros H. unfold ChartModel.moveSeriesToPane, ChartModel._addSeriesToPane,
    ChartModel.assertM. planned.
Qed.

(** Every mutation of the model keeps a planned frame as it is. *)
Lemma planned_mutation mutation w :
  Planned w ->
  Planned (snd (ModelMutation.run NODE_ENV assertionFailure DEFAULT_STRETCH_FACTOR
                  newPaneScales mutation w)).
Proof.
  intros H.
  destruct mutation; cbn [ModelMutation.run];
    first [ apply planned_applyPriceScaleOptions
          | apply planned_removePane
          | apply planned_deletePaneById
          | apply planned_addSeriesToPane
          | apply planned_removeSeries
          | apply planned_moveSeriesToPane
          | apply keeps_bind; [apply planned_addPane | intros ? ? ?]; assumption
          | idtac ]; try assumption;
    unfold ChartModel.cursorUpdate, ChartModel.setTimeScaleAnimation,
      ChartModel.setCurrentSymbol, ChartModel.addTrendline,
      ChartModel.removeTrendline, ChartModel.addFibonacci,
      ChartModel.removeFibonacci, ChartModel.onCurrentSymbolTrendlines,
      ChartModel.onCurrentSymbolFibonacci,
      ChartModel.setTrendlineDrawingState, ChartModel.setTrendlineStartPoint,
      ChartModel.setTrendlinePreviewEnd; planned.
Qed.

End FramePlanned.

(* ------------------------------------------------------------------ *)
(** ** Coalescing of frame callbacks *)

Section Coalescing.

Lemma invalidateHandler_planned mask w :
  _drawPlanned w = true ->
  _invalidateHandler mask w =
  set_invalidateMask
    (Some match _invalidateMask w with
          | Some pending => InvalidateMask.merge pending mask
          | None => mask
          end) w.
Proof.
  intros Hp. unfold _invalidateHandler.
  destruct (_invalidateMask w); cbn; rewrite Hp; reflexivity.
Qed.

Lemma invalidateHandler_idle mask w :
  _drawPlanned w = false ->
  _invalidateHandler mask w =
  set_drawRafId (nextAnimationFrameHandle (window w))
    (set_window
       {| animationFrameRequests :=
            animationFrameRequests (window w) ++ [nextAnimationFrameHandle (window w)];
          nextAnimationFrameHandle := nextAnimationFrameHandle (window w) + 1 |}
       (set_drawPlanned true
          (set_invalidateMask
             (Some match _invalidateMask w with
                   | Some pending => InvalidateMask.merge pending mask
                   | None => mask
                   end) w))).
Proof.
  intros Hp. unfold _invalidateHandler.
  destruct (_invalidateMask w); cbn; rewrite Hp; reflexivity.
Qed.

(** C2: while a frame callback is scheduled, a mutation of the model
    requests no further callback, and an invalidation only joins its
    mask to the pending one; two [fullUpdate()] calls in a row on a
    chart without a scheduled callback request exactly one. *)
Theorem one_frame_callback_in_flight :
  forall (NODE_ENV : string) (assertionFailure : string -> Completion.t unit)
         (DEFAULT_STRETCH_FACTOR : float) (newPaneScales : Pane.Scales)
         (w : ChartWidgetState.t),
    (_drawPlanned w = true ->
     (forall mutation,
         let w' := snd (ModelMutation.run NODE_ENV assertionFailure DEFAULT_STRETCH_FACTOR
                          newPaneScales mutation w) in
         window w' = window w /\ _drawPlanned w' = true /\ _drawRafId w' = _drawRafId w)
     /\ (forall mask,
         ChartModel._invalidate mask w =
         set_invalidateMask
           (Some match _invalidateMask w with
                 | Some pending => InvalidateMask.merge pending mask
                 | None => mask
                 end) w))
    /\ (_drawPlanned w = false ->
        let w' := ChartModel.fullUpdate (ChartModel.fullUpdate w) in
        animationFrameRequests (window w') =
          animationFrameRequests (window w) ++ [nextAnimationFrameHandle (window w)]
        /\ nextAnimationFrameHandle (window w') = (nextAnimationFrameHandle (window w) + 1)%Z
        /\ _drawPlanned w' = true
        /\ _drawRafId w' = nextAnimationFrameHandle (window w)
        /\ _invalidateMask w' =
           Some (InvalidateMask.merge
                   match _invalidateMask w with
                   | Some pending => InvalidateMask.merge pending InvalidateMask.full
                   | None => InvalidateMask.full
                   end InvalidateMask.full)).
Proof.
  intros NODE_ENV assertionFailure DSF scales w. split.
  - intros Hp. split.
    + intros mutation w'.
      assert (H : Invariants.framePlanned (window w) (_drawRafId w) w') by
        (apply planned_mutation; repeat split; assumption).
      destruct H as (H1 & H2 & H3). auto.
    + intros mask. apply invalidateHandler_planned, Hp.
  - intros Hp w'. subst w'. unfold ChartModel.fullUpdate, ChartModel._invalidate.
    rewrite (invalidateHandler_idle _ _ Hp).
    rewrite invalidateHandler_planned by reflexivity.
    cbn. repeat split; reflexivity.
Qed.

(** On the chart of the examples: a frame is planned once the model is
    built; after it has run, two full updates request the frame 2. *)
Lemma one_frame_callback_in_flight_witness :
  (window (snd (ModelMutation.run "development" Samples.throwingAssert 1%float
                  (Samples.scalesOf Samples.priceScale)
                  (ModelMutation.RemovePane 3) Samples.twoPaneChart))
     = window Samples.twoPaneChart)
  /\ animationFrameRequests
       (window (ChartModel.fullUpdate (ChartModel.fullUpdate Samples.idleChart))) = [2%Z].
Proof.
  split.
  - assert (Hp : _drawPlanned Samples.twoPaneChart = true) by reflexivity.
    destruct (proj1 (one_frame_callback_in_flight "development" Samples.throwingAssert
                       1%float (Samples.scalesOf Samples.priceScale)
                       Samples.twoPaneChart) Hp) as [Hm _].
    exact (proj1 (Hm (ModelMutation.RemovePane 3))).
  - assert (Hp : _drawPlanned Samples.idleChart = false) by reflexivity.
    exact (proj1 (proj2 (one_frame_callback_in_flight "development" Samples.throwingAssert
                           1%float (Samples.scalesOf Samples.priceScale)
                           Samples.idleChart) Hp)).
Defined.

End Coalescing.

(* ------------------------------------------------------------------ *)
(** ** Switching the trendline tool on and off *)

Section TrendlineTool.

(** C7: switching the trendline tool on and then off, with no click in
    between, leaves every annotation store as it was, leaves no start
    anchor and no preview in the widget nor in the model, clears the
    center-dot flag of the crosshair, and puts the crosshair mode back
    to what it was before the tool was switched on. *)
Theorem trendline_tool_on_then_off :
  forall w : ChartWidgetState.t,
    let w' := ChartWidget._onTrendlineToolToggle false
                (ChartWidget._onTrendlineToolToggle true w) in
    ChartModel.trendlines w' = ChartModel.trendlines w
    /\ ChartModel.fibonacciRetracements w' = ChartModel.fibonacciRetracements w
    /\ ChartModelState._trendlines (_model w') = ChartModelState._trendlines (_model w)
    /\ _trendlinesBySymbol (_model w') = _trendlinesBySymbol (_model w)
    /\ ChartWidgetState._isDrawingTrendline w' = false
    /\ ChartWidgetState._trendlineStartPoint w' = None
    /\ ChartWidgetState._trendlinePreviewEnd w' = None
    /\ ChartModel.isDrawingTrendline w' = false
    /\ ChartModel.getTrendlineStartPoint w' = None
    /\ ChartModel.getTrendlinePreviewEnd w' = None
    /\ Crosshair._showCenterDot (ChartModel.crosshairSource w') = false
    /\ crosshair_mode (ChartModel.options w') = crosshair_mode (ChartModel.options w)
    /\ _originalCrosshairMode w' = None
    /\ _cursorStyleOverride w' = None.
Proof.
  intros w w'. subst w'.
  destruct w as [m rafId mask planned cursor toolbar d1 s1 p1 orig d2 s2 p2 win].
  destruct m as [opts ts ps ch ss sym tbs fbs tls fibs md ms mp pdm npi npu].
  destruct planned, mask; repeat split; reflexivity.
Qed.

End TrendlineTool.

(* ------------------------------------------------------------------ *)
(** ** Clicks beyond the last bar *)

Section ClickBeyondLastBar.

Local Open Scope float_scope.

Lemma JsMap_get_set_same {V} (m : JsMap.t V) (k : string) (v : V) :
  JsMap.get (JsMap.set m k v) k = Some v.
Proof.
  induction m as [| [k' v'] m IH]; cbn.
  - rewrite String.eqb_refl. reflexivity.
  - destruct (String.eqb k' k) eqn:E; cbn; rewrite E; [reflexivity | exact IH].
Qed.

Lemma trendlines_onCurrentSymbolTrendlines f w :
  ChartModel.trendlines (ChartModel.onCurrentSymbolTrendlines f w)
  = f (ChartModel.trendlines w).
Proof.
  unfold ChartModel.trendlines, ChartModel.onCurrentSymbolTrendlines, withModel.
  cbn. destruct (String.eqb (_currentSymbol (_model w)) EmptyString) eqn:E; cbn; rewrite E.
  - reflexivity.
  - rewrite JsMap_get_set_same. reflexivity.
Qed.

Lemma fibonacciRetracements_onCurrentSymbolFibonacci f w :
  ChartModel.fibonacciRetracements (ChartModel.onCurrentSymbolFibonacci f w)
  = f (ChartModel.fibonacciRetracements w).
Proof.
  unfold ChartModel.fibonacciRetracements, ChartModel.onCurrentSymbolFibonacci, withModel.
  cbn. destruct (String.eqb (_currentSymbol (_model w)) EmptyString) eqn:E; cbn; rewrite E.
  - reflexivity.
  - rewrite JsMap_get_set_same. reflexivity.
Qed.

Lemma sameAnnotations_trendlines w w' :
  Invariants.sameAnnotations w w' -> ChartModel.trendlines w' = ChartModel.trendlines w.
Proof.
  intros (H1 & H2 & H3 & _). unfold ChartModel.trendlines. rewrite H1, H2, H3. reflexivity.
Qed.

Lemma sameAnnotations_fibonacci w w' :
  Invariants.sameAnnotations w w' ->
  ChartModel.fibonacciRetracements w' = ChartModel.fibonacciRetracements w.
Proof.
  intros (H1 & _ & _ & H4 & H5). unfold ChartModel.fibonacciRetracements.
  rewrite H1, H4, H5. reflexivity.
Qed.

(** What the second click of the trendline tool does after the
    trendline has been added leaves the annotations alone. *)
Lemma trendline_cleanup_sameAnnotations w :
  Invariants.sameAnnotations w
    (ChartModel.fullUpdate
       (ChartWidget.deactivateTrendlineTool
          (ChartWidget.restoreCrosshairMode
             (ChartWidget.onCrosshair (Crosshair.set_showCenterDot false)
                (ChartWidget.setCursorStyle None
                   (ChartModel.setTrendlinePreviewEnd None
                      (ChartModel.setTrendlineStartPoint None
                         (ChartModel.setTrendlineDrawingState false
                            (set_trendlineDrawing false None None w))))))))).
Proof.
  destruct w as [m rafId mask planned cursor toolbar d1 s1 p1 orig d2 s2 p2 win].
  destruct m as [opts ts ps ch ss sym tbs fbs tls fibs md ms mp pdm npi npu].
  destruct planned, mask, orig, toolbar; repeat split; reflexivity.
Qed.

Lemma fibonacci_cleanup_sameAnnotations w :
  Invariants.sameAnnotations w
    (ChartWidget.deactivateFibonacciTool
       (ChartWidget.setCursorStyle None (set_fibonacciDrawing false None None w))).
Proof.
  destruct w as [m rafId mask planned cursor toolbar d1 s1 p1 orig d2 s2 p2 win].
  destruct toolbar; repeat split; reflexivity.
Qed.

Lemma fullUpdate_sameAnnotations w : Invariants.sameAnnotations w (ChartModel.fullUpdate w).
Proof.
  destruct w as [m rafId mask planned cursor toolbar d1 s1 p1 orig d2 s2 p2 win].
  destruct planned, mask; repeat split; reflexivity.
Qed.

Variable Date_now : float.
Variable uniqueSuffix : string.

Lemma clickTimeValue_beyond time point w baseCoord :
  TimeScale.indexToCoordinate (ChartModel.timeScale w)
    (TimeScale.baseIndex (ChartModel.timeScale w)) = Some baseCoord ->
  Js.gt (pt_x point) baseCoord = true ->
  ChartWidget.clickTimeValue Date_now time point w
  = ChartWidget._extrapolateTimeFromCoordinate Date_now (pt_x point) w.
Proof.
  intros Hb Hgt. unfold ChartWidget.clickTimeValue. rewrite Hb, Hgt. reflexivity.
Qed.

(** C4: when the click is at a pixel strictly to the right of the pixel
    of [baseIndex], the anchor that either drawing tool stores (the
    start point at the first click, the second point of the new
    annotation at the second) has the time that
    [_extrapolateTimeFromCoordinate] gives for the pixel, whatever time
    index came with the click; with two reference points at distinct
    pixels that time is the base time plus the pixels beyond the base
    times the time per pixel. *)
Theorem click_beyond_last_bar_extrapolates :
  forall (pane : Pane.t) (time : option Z) (point : Point) (w : ChartWidgetState.t)
         (baseCoord firstValue price : float),
    let ts := ChartModel.timeScale w in
    let priceScale := Pane.defaultPriceScale (Pane.scales pane) in
    let anchor := {| dp_x := pt_x point; dp_y := pt_y point;
                     dp_time := ChartWidget._extrapolateTimeFromCoordinate
                                  Date_now (pt_x point) w;
                     dp_price := price |} in
    TimeScale.indexToCoordinate ts (TimeScale.baseIndex ts) = Some baseCoord ->
    Js.gt (pt_x point) baseCoord = true ->
    PriceScale.firstValue priceScale = Some firstValue ->
    PriceScale.coordinateToPrice priceScale (pt_y point) firstValue = Some price ->
    let afterTrendline :=
      ChartWidget._handleTrendlineClick Date_now uniqueSuffix pane time (Some point) w in
    let afterFibonacci :=
      ChartWidget._handleFibonacciClick Date_now uniqueSuffix pane time (Some point) w in
    (ChartWidgetState._trendlineStartPoint w = None ->
     ChartWidgetState._trendlineStartPoint afterTrendline = Some anchor
     /\ ChartModel.getTrendlineStartPoint afterTrendline = Some anchor)
    /\ (forall start, ChartWidgetState._trendlineStartPoint w = Some start ->
        ChartModel.trendlines afterTrendline =
        JsMap.set (ChartModel.trendlines w) ("trendline_" ++ uniqueSuffix)%string
          (Trendline.new
             {| Trendline.id := ("trendline_" ++ uniqueSuffix)%string;
                Trendline.point1 := {| Trendline.time := dp_time start;
                                       Trendline.value := dp_price start |};
                Trendline.point2 := {| Trendline.time := dp_time anchor;
                                       Trendline.value := price |} |} None))
    /\ (_fibonacciStartPoint w = None ->
        _fibonacciStartPoint afterFibonacci = Some anchor)
    /\ (forall start, _fibonacciStartPoint w = Some start ->
        ChartModel.fibonacciRetracements afterFibonacci =
        JsMap.set (ChartModel.fibonacciRetracements w) ("fibonacci_" ++ uniqueSuffix)%string
          (Fibonacci.new
             {| Fibonacci.id := ("fibonacci_" ++ uniqueSuffix)%string;
                Fibonacci.point1 := {| Fibonacci.time := dp_time start;
                                       Fibonacci.value := dp_price start |};
                Fibonacci.point2 := {| Fibonacci.time := dp_time anchor;
                                       Fibonacci.value := price |} |} None))
    /\ (ChartWidgetState._isDrawingTrendline w = true ->
        ChartWidget._onPaneWidgetClicked Date_now uniqueSuffix pane time (Some point) w
        = afterTrendline)
    /\ (ChartWidgetState._isDrawingTrendline w = false -> _isDrawingFibonacci w = true ->
        ChartWidget._onPaneWidgetClicked Date_now uniqueSuffix pane time (Some point) w
        = afterFibonacci)
    /\ (forall baseTime prevTime prevCoord,
        TimeScale.originalTimeAt ts (TimeScale.baseIndex ts) = Some baseTime ->
        TimeScale.originalTimeAt ts (TimeScale.baseIndex ts - 1) = Some prevTime ->
        TimeScale.indexToCoordinate ts (TimeScale.baseIndex ts - 1) = Some prevCoord ->
        Js.strictNe (baseCoord - prevCoord) 0 = true ->
        dp_time anchor
        = baseTime + (pt_x point - baseCoord) * ((baseTime - prevTime) / (baseCoord - prevCoord))).
Proof.
  intros pane time point w baseCoord firstValue price ts priceScale anchor
         Hb Hgt Hfv Hprice afterTrendline afterFibonacci.
  pose proof (clickTimeValue_beyond time point w Hb Hgt) as Htime.
  subst afterTrendline afterFibonacci anchor.
  split; [| split; [| split; [| split; [| split; [| split]]]]].
  - intros Hstart. unfold ChartWidget._handleTrendlineClick.
    fold priceScale. rewrite Hfv, Hprice, Htime, Hstart. split; reflexivity.
  - intros start Hstart. unfold ChartWidget._handleTrendlineClick.
    fold priceScale. rewrite Hfv, Hprice, Htime, Hstart.
    unfold ChartModel.addTrendline.
    rewrite (sameAnnotations_trendlines (trendline_cleanup_sameAnnotations _)).
    rewrite (sameAnnotations_trendlines (fullUpdate_sameAnnotations _)).
    rewrite trendlines_onCurrentSymbolTrendlines. reflexivity.
  - intros Hstart. unfold ChartWidget._handleFibonacciClick.
    fold priceScale. rewrite Hfv, Hprice, Htime, Hstart. reflexivity.
  - intros start Hstart. unfold ChartWidget._handleFibonacciClick.
    fold priceScale. rewrite Hfv, Hprice, Htime, Hstart.
    unfold ChartModel.addFibonacci.
    rewrite (sameAnnotations_fibonacci (fibonacci_cleanup_sameAnnotations _)).
    rewrite (sameAnnotations_fibonacci (fullUpdate_sameAnnotations _)).
    rewrite fibonacciRetracements_onCurrentSymbolFibonacci. reflexivity.
  - intros Hd. unfold ChartWidget._onPaneWidgetClicked. rewrite Hd. reflexivity.
  - intros Hd Hf. unfold ChartWidget._onPaneWidgetClicked. rewrite Hd, Hf. reflexivity.
  - intros baseTime prevTime prevCoord Hbt Hpt Hpc Hne. cbn [dp_time].
    apply (extrapolation_with_two_points Date_now (pt_x point) w Hbt Hb Hpt Hpc Hne).
Qed.

End ClickBeyondLastBar.

(** A first click at x = 30, ten pixels right of the last bar, with the
    time index of the last bar: the anchor gets the time 300, not 200.  A
    second click at x = 40 then commits a trendline ending at time 400. *)
Lemma click_beyond_last_bar_extrapolates_witness :
  ChartWidgetState._trendlineStartPoint
    (ChartWidget._handleTrendlineClick 1700000000000%float "k3" Samples.mainPane (Some 1%Z)
       (Some {| pt_x := 30%float; pt_y := 40%float |}) Samples.chart)
  = Some {| dp_x := 30%float; dp_y := 40%float; dp_time := 300%float; dp_price := 60%float |}
  /\ ChartModel.trendlines
       (ChartWidget._handleTrendlineClick 1700000000000%float "k3" Samples.mainPane (Some 1%Z)
          (Some {| pt_x := 40%float; pt_y := 30%float |}) Samples.drawingChart)
     = [("trendline_k3"%string,
         Trendline.new
           {| Trendline.id := "trendline_k3";
              Trendline.point1 := {| Trendline.time := 300%float; Trendline.value := 60%float |};
              Trendline.point2 := {| Trendline.time := 400%float; Trendline.value := 70%float |} |}
           None)].
Proof.
  split.
  - assert (Hb : TimeScale.indexToCoordinate (ChartModel.timeScale Samples.chart)
                   (TimeScale.baseIndex (ChartModel.timeScale Samples.chart)) = Some 20%float)
      by reflexivity.
    assert (Hgt : Js.gt 30%float 20%float = true) by reflexivity.
    assert (Hfv : PriceScale.firstValue
                    (Pane.defaultPriceScale (Pane.scales Samples.mainPane)) = Some 50%float)
      by reflexivity.
    assert (Hprice : PriceScale.coordinateToPrice
                       (Pane.defaultPriceScale (Pane.scales Samples.mainPane))
                       40%float 50%float = Some 60%float) by reflexivity.
    assert (Hstart : ChartWidgetState._trendlineStartPoint Samples.chart = None)
      by reflexivity.
    exact (proj1 (proj1 (click_beyond_last_bar_extrapolates 1700000000000%float "k3"
                           Samples.mainPane (Some 1%Z)
                           {| pt_x := 30%float; pt_y := 40%float |} Samples.chart
                           Hb Hgt Hfv Hprice) Hstart)).
  - assert (Hb : TimeScale.indexToCoordinate (ChartModel.timeScale Samples.drawingChart)
                   (TimeScale.baseIndex (ChartModel.timeScale Samples.drawingChart))
                 = Some 20%float) by reflexivity.
    assert (Hgt : Js.gt 40%float 20%float = true) by reflexivity.
    assert (Hfv : PriceScale.firstValue
                    (Pane.defaultPriceScale (Pane.scales Samples.mainPane)) = Some 50%float)
      by reflexivity.
    assert (Hprice : PriceScale.coordinateToPrice
                       (Pane.defaultPriceScale (Pane.scales Samples.mainPane))
                       30%float 50%float = Some 70%float) by reflexivity.
    assert (Hstart : ChartWidgetState._trendlineStartPoint Samples.drawingChart
                     = Some {| dp_x := 30%float; dp_y := 40%float;
                               dp_time := 300%float; dp_price := 60%float |})
      by reflexivity.
    exact (proj1 (proj2 (click_beyond_last_bar_extrapolates 1700000000000%float "k3"
                           Samples.mainPane (Some 1%Z)
                           {| pt_x := 40%float; pt_y := 30%float |} Samples.drawingChart
                           Hb Hgt Hfv Hprice)) _ Hstart).
Defined.

Create HintDb nonempty.

(* ------------------------------------------------------------------ *)
(** ** Pane indices out of range, and the pane list never empty *)

Section Panes.

Import Completion.
Local Open Scope Z_scope.

Lemma index_out_of_range {A} (l : list A) (i : Z) :
  i < 0 \/ Z.of_nat (List.length l) <= i -> Js.index l i = None.
Proof.
  intros H. unfold Js.index.
  destruct (Z.ltb_spec i 0) as [Hlt | Hge]; [reflexivity |].
  apply nth_error_None. lia.
Qed.

Lemma splice1_length {A} (l : list A) (start : Z) :
  (List.length l - 1 <= List.length (Js.splice1 l start))%nat.
Proof.
  unfold Js.splice1. rewrite length_app, length_firstn, length_skipn. lia.
Qed.

Lemma splice1_nonempty {A} (l : list A) (start : Z) :
  (1 < List.length l)%nat -> Js.splice1 l start <> [].
Proof.
  intros H E. pose proof (splice1_length l start) as Hl.
  rewrite E in Hl. cbn in Hl. lia.
Qed.

Import Invariants.

Lemma panes_invalidateHandler mask w :
  ChartModel.panes (_invalidateHandler mask w) = ChartModel.panes w.
Proof.
  unfold _invalidateHandler.
  destruct (_invalidateMask w); cbn; destruct (_drawPlanned w); reflexivity.
Qed.

Lemma hasPanes_invalidateHandler mask w :
  hasPanes w -> hasPanes (_invalidateHandler mask w).
Proof. unfold hasPanes. rewrite panes_invalidateHandler. auto. Qed.

Lemma hasPanes_invalidate mask w : hasPanes w -> hasPanes (ChartModel._invalidate mask w).
Proof. apply hasPanes_invalidateHandler. Qed.

Lemma hasPanes_fullUpdate w : hasPanes w -> hasPanes (ChartModel.fullUpdate w).
Proof. apply hasPanes_invalidateHandler. Qed.

Lemma hasPanes_lightUpdate w : hasPanes w -> hasPanes (ChartModel.lightUpdate w).
Proof. apply hasPanes_invalidateHandler. Qed.

(** A change of the model that leaves the pane list alone. *)
Lemma hasPanes_withModel f w :
  (forall m, _panes (f m) = _panes m) -> hasPanes w -> hasPanes (withModel f w).
Proof.
  intros Hf H. unfold hasPanes, ChartModel.panes, withModel in *. cbn.
  rewrite Hf. exact H.
Qed.

Lemma hasPanes_mapped g w :
  hasPanes w -> hasPanes (withModel (fun m => set_panes (map g (_panes m)) m) w).
Proof.
  unfold hasPanes, ChartModel.panes, withModel. cbn.
  destruct (_panes (_model w)); [auto | discriminate].
Qed.

Lemma hasPanes_storePane p w : hasPanes w -> hasPanes (ChartModel.storePane p w).
Proof. apply hasPanes_mapped. Qed.

Lemma hasPanes_pushed p w :
  hasPanes (withModel (fun m => set_nextPaneUid (Datatypes.S (nextPaneUid m))
                                  (set_panes (_panes m ++ [p]) m)) w).
Proof.
  unfold hasPanes, ChartModel.panes, withModel. cbn.
  destruct (_panes (_model w)); discriminate.
Qed.

Lemma hasPanes_spliced index w :
  (1 <? ChartModel.panesLength w) = true ->
  hasPanes (withModel (fun m => set_panes (Js.splice1 (_panes m) index) m) w).
Proof.
  intros H. unfold hasPanes, ChartModel.panes, withModel. cbn.
  apply splice1_nonempty. unfold ChartModel.panesLength, ChartModel.panes in H.
  apply Z.ltb_lt in H. lia.
Qed.

Hint Resolve hasPanes_invalidateHandler hasPanes_invalidate hasPanes_fullUpdate
  hasPanes_lightUpdate hasPanes_storePane hasPanes_mapped hasPanes_pushed : nonempty.
Hint Extern 2 (hasPanes (withModel _ _)) =>
  apply hasPanes_withModel;
  [ intros; cbv beta;
    repeat match goal with
           | |- context [if ?c then _ else _] => destruct c
           end; reflexivity
  | ] : nonempty.

Ltac nonempty := keep_with ltac:(eauto 12 with nonempty).

(** The empty-pane cleanup removes a pane only when more than one
    exists. *)
Lemma hasPanes_cleanup pane w :
  hasPanes w -> hasPanes (ChartModel._cleanupIfPaneIsEmpty pane w).
Proof.
  intros H. unfold ChartModel._cleanupIfPaneIsEmpty.
  destruct (_ =? 0); cbn [andb]; [| exact H].
  destruct (1 <? ChartModel.panesLength w) eqn:E; [| exact H].
  apply hasPanes_fullUpdate, hasPanes_spliced, E.
Qed.

Lemma hasPanes_applyOptions patch w :
  hasPanes w -> hasPanes (ChartModel.applyOptions patch w).
Proof.
  intros H. unfold ChartModel.applyOptions, ChartModel.priceScalesOptionsChanged_fire.
  nonempty.
Qed.

Hint Resolve hasPanes_cleanup hasPanes_applyOptions : nonempty.

Variable NODE_ENV : string.
Variable assertionFailure : string -> Completion.t unit.
Variable DEFAULT_STRETCH_FACTOR : float.
Variable newPaneScales : Pane.Scales.

Lemma hasPanes_getOrCreatePane index w :
  hasPanes w ->
  hasPanes (snd (ChartModel._getOrCreatePane assertionFailure DEFAULT_STRETCH_FACTOR
                   newPaneScales index w)).
Proof.
  intros H. unfold ChartModel._getOrCreatePane, ChartModel.assertM. nonempty.
Qed.

Lemma hasPanes_removePane index w :
  hasPanes w -> hasPanes (snd (ChartModel.removePane assertionFailure index w)).
Proof.
  intros H. unfold ChartModel.removePane.
  destruct (ChartModel.panesLength w =? 1) eqn:E; [exact H |].
  assert (Hlen : (1 <? ChartModel.panesLength w) = true).
  { apply Z.eqb_neq in E. apply Z.ltb_lt.
    unfold hasPanes, ChartModel.panesLength in *.
    destruct (ChartModel.panes w); [contradiction | cbn [List.length] in *; lia]. }
  unfold ChartModel.assertM, ChartModel.assert, bind, lift, exec.
  destruct (_ && _); [| destruct (assertionFailure _) as [[] | e]]; cbn [fst snd];
    try exact H; apply hasPanes_fullUpdate, hasPanes_spliced, Hlen.
Qed.

Lemma hasPanes_removeSeries series w :
  hasPanes w -> hasPanes (snd (ChartModel.removeSeries assertionFailure series w)).
Proof.
  intros H. unfold ChartModel.removeSeries, ChartModel.assertM. nonempty.
Qed.

Hint Resolve hasPanes_getOrCreatePane hasPanes_removePane hasPanes_removeSeries : nonempty.

Lemma hasPanes_deletePaneById paneIndex w :
  hasPanes w -> hasPanes (snd (ChartModel.deletePaneById assertionFailure paneIndex w)).
Proof.
  intros H. unfold ChartModel.deletePaneById. nonempty.
Qed.

Lemma hasPanes_addPane height w :
  hasPanes w ->
  hasPanes (snd (ChartModel.addPane assertionFailure DEFAULT_STRETCH_FACTOR
                   newPaneScales height w)).
Proof.
  intros H. unfold ChartModel.addPane. nonempty.
Qed.

Lemma hasPanes_addSeriesToPane series paneIndex w :
  hasPanes w ->
  hasPanes (snd (ChartModel.addSeriesToPane assertionFailure DEFAULT_STRETCH_FACTOR
                   newPaneScales series paneIndex w)).
Proof.
  intros H. unfold ChartModel.addSeriesToPane, ChartModel._addSeriesToPane. nonempty.
Qed.

Lemma hasPanes_moveSeriesToPane series newPaneIndex w :
  hasPanes w ->
  hasPanes (snd (ChartModel.moveSeriesToPane assertionFailure DEFAULT_STRETCH_FACTOR
                   newPaneScales series newPaneIndex w)).
Proof.
  intros H. unfold ChartModel.moveSeriesToPane, ChartModel._addSeriesToPane,
    ChartModel.assertM. nonempty.
Qed.

Lemma hasPanes_applyPriceScaleOptions id options paneIndex w :
  hasPanes w ->
  hasPanes (snd (ChartModel.applyPriceScaleOptions NODE_ENV id options paneIndex w)).
Proof.
  intros H. unfold ChartModel.applyPriceScaleOptions,
    ChartModel.priceScalesOptionsChanged_fire.
  nonempty.
Qed.

(** Every mutation of the model keeps the pane list non-empty. *)
Lemma hasPanes_mutation mutation w :
  hasPanes w ->
  hasPanes (snd (ModelMutation.run NODE_ENV assertionFailure DEFAULT_STRETCH_FACTOR
                   newPaneScales mutation w)).
Proof.
  intros H.
  destruct mutation; cbn [ModelMutation.run];
    first [ apply hasPanes_applyPriceScaleOptions
          | apply hasPanes_removePane
          | apply hasPanes_deletePaneById
          | apply hasPanes_addSeriesToPane
          | apply hasPanes_removeSeries
          | apply hasPanes_moveSeriesToPane
          | apply keeps_bind; [apply hasPanes_addPane | intros ? ? ?]; assumption
          | idtac ]; try assumption;
    unfold ChartModel.cursorUpdate, ChartModel.setTimeScaleAnimation,
      ChartModel.setCurrentSymbol, ChartModel.addTrendline,
      ChartModel.removeTrendline, ChartModel.addFibonacci,
      ChartModel.removeFibonacci, ChartModel.onCurrentSymbolTrendlines,
      ChartModel.onCurrentSymbolFibonacci,
      ChartModel.setTrendlineDrawingState, ChartModel.setTrendlineStartPoint,
      ChartModel.setTrendlinePreviewEnd; nonempty.
Qed.

End Panes.

Section PaneGuards.

Import Completion.
Local Open Scope Z_scope.

Variable NODE_ENV : string.
Variable assertionFailure : string -> Completion.t unit.
Variable DEFAULT_STRETCH_FACTOR : float.
Variable newPaneScales : Pane.Scales.

Lemma removePane_single index w :
  ChartModel.panesLength w = 1 ->
  ChartModel.removePane assertionFailure index w = (Normal tt, w).
Proof. intros H. unfold ChartModel.removePane. rewrite H. reflexivity. Qed.

Lemma removePane_out_of_range index w e :
  ChartModel.panesLength w <> 1 ->
  index < 0 \/ ChartModel.panesLength w <= index ->
  assertionFailure "Invalid pane index" = Throw e ->
  ChartModel.removePane assertionFailure index w = (Throw e, w).
Proof.
  intros Hlen Hout Hfail. unfold ChartModel.removePane.
  destruct (Z.eqb_spec (ChartModel.panesLength w) 1) as [E | _]; [contradiction |].
  unfold ChartModel.assertM, ChartModel.assert, bind, lift.
  replace ((0 <=? index) && (index <? ChartModel.panesLength w)) with false by
    (symmetry; apply andb_false_iff; destruct Hout; [left | right]; lia).
  rewrite Hfail. reflexivity.
Qed.

Lemma deletePaneById_refused paneIndex w :
  paneIndex = 0 \/ paneIndex < 0 \/ ChartModel.panesLength w <= paneIndex ->
  ChartModel.deletePaneById assertionFailure paneIndex w = (Normal tt, w).
Proof.
  intros H. unfold ChartModel.deletePaneById.
  destruct (Z.eqb_spec paneIndex 0) as [E | Hne]; [reflexivity |].
  replace ((ChartModel.panesLength w <=? paneIndex) || (paneIndex <? 0)) with true by
    (symmetry; apply orb_true_iff; destruct H as [H | [H | H]];
     [contradiction | right | left]; lia).
  reflexivity.
Qed.

Lemma cleanup_single pane w :
  ChartModel.panesLength w <= 1 -> ChartModel._cleanupIfPaneIsEmpty pane w = w.
Proof.
  intros H. unfold ChartModel._cleanupIfPaneIsEmpty.
  replace (1 <? ChartModel.panesLength w) with false by (symmetry; lia).
  rewrite andb_false_r. reflexivity.
Qed.

Lemma applyPriceScaleOptions_out_of_range id options paneIndex w :
  paneIndex < 0 \/ ChartModel.panesLength w <= paneIndex ->
  ChartModel.applyPriceScaleOptions NODE_ENV id options paneIndex w =
  ((if String.eqb NODE_ENV "development"
    then Throw (MkError ("Trying to apply price scale options with incorrect pane index: "
                           ++ ChartModel.Z_toString paneIndex))
    else Normal tt), w).
Proof.
  intros H. unfold ChartModel.applyPriceScaleOptions, ChartModel.isDevelopment.
  rewrite (index_out_of_range _ H). destruct (String.eqb _ _); reflexivity.
Qed.

(** C9, as the specification states it, fails: in a development build,
    [deletePaneById] with the pane index 5 on a chart of two panes
    returns normally, the chart unchanged, where the specification has
    it throw. *)
Lemma deletePaneById_out_of_range_in_development :
  ModelMutation.run "development" Samples.throwingAssert 1%float
    (Samples.scalesOf Samples.priceScale) (ModelMutation.DeletePaneById 5)
    Samples.twoPaneChart
  = (Normal tt, Samples.twoPaneChart).
Proof. reflexivity. Qed.

(** C9, amended: with a pane index out of range,
    [applyPriceScaleOptions] throws a descriptive error in a development
    build and returns without a change otherwise; [deletePaneById]
    returns without a change in every build; [removePane] returns
    without a change when there is one pane, and with more panes a
    failed assertion that throws leaves the model unchanged. *)
Theorem out_of_range_pane_index :
  forall (w : ChartWidgetState.t) (paneIndex : Z),
    paneIndex < 0 \/ ChartModel.panesLength w <= paneIndex ->
    (forall id options,
        ChartModel.applyPriceScaleOptions NODE_ENV id options paneIndex w =
        ((if String.eqb NODE_ENV "development"
          then Throw (MkError
                        ("Trying to apply price scale options with incorrect pane index: "
                           ++ ChartModel.Z_toString paneIndex))
          else Normal tt), w))
    /\ ChartModel.deletePaneById assertionFailure paneIndex w = (Normal tt, w)
    /\ (ChartModel.panesLength w = 1 ->
        ChartModel.removePane assertionFailure paneIndex w = (Normal tt, w))
    /\ (ChartModel.panesLength w <> 1 ->
        forall e, assertionFailure "Invalid pane index" = Throw e ->
                  ChartModel.removePane assertionFailure paneIndex w = (Throw e, w)).
Proof.
  intros w paneIndex Hout. split; [| split; [| split]].
  - intros id options. apply applyPriceScaleOptions_out_of_range, Hout.
  - apply deletePaneById_refused. tauto.
  - intros Hlen. apply removePane_single, Hlen.
  - intros Hlen e Hfail. apply removePane_out_of_range; assumption.
Qed.

(** C10: the pane list has one pane once the model is constructed and
    is never emptied by a mutation of the model; [removePane] leaves a
    single pane alone, [deletePaneById] refuses the index 0 and the
    indices out of range, and the empty-pane cleanup removes nothing
    when a single pane exists. *)
Theorem panes_never_empty :
  (forall options timeScale crosshair firstHandle,
      let built :=
        ChartModel.constructor assertionFailure DEFAULT_STRETCH_FACTOR newPaneScales
          (ChartWidgetState.initial
             (ChartModelState.initial options timeScale crosshair) firstHandle) in
      fst built = Normal tt /\ List.length (ChartModel.panes (snd built)) = 1%nat)
  /\ (forall w,
      ChartModel.panes w <> [] ->
      (forall mutation,
          ChartModel.panes
            (snd (ModelMutation.run NODE_ENV assertionFailure DEFAULT_STRETCH_FACTOR
                    newPaneScales mutation w)) <> [])
      /\ (forall pane, ChartModel.panes (ChartModel._cleanupIfPaneIsEmpty pane w) <> []))
  /\ (forall w,
      ChartModel.panesLength w = 1 ->
      (forall index, ChartModel.removePane assertionFailure index w = (Normal tt, w))
      /\ (forall pane, ChartModel._cleanupIfPaneIsEmpty pane w = w))
  /\ (forall w paneIndex,
      paneIndex = 0 \/ paneIndex < 0 \/ ChartModel.panesLength w <= paneIndex ->
      ChartModel.deletePaneById assertionFailure paneIndex w = (Normal tt, w)).
Proof.
  split; [| split; [| split]].
  - intros options timeScale crosshair firstHandle built. subst built.
    split; reflexivity.
  - intros w Hw. split.
    + intros mutation.
      apply (hasPanes_mutation NODE_ENV assertionFailure DEFAULT_STRETCH_FACTOR
               newPaneScales mutation Hw).
    + intros pane. apply (hasPanes_cleanup pane Hw).
  - intros w Hlen. split.
    + intros index. apply removePane_single, Hlen.
    + intros pane. apply cleanup_single. lia.
  - intros w paneIndex H. apply deletePaneById_refused, H.
Qed.

End PaneGuards.

(** The pane index -1 on a chart of two panes. *)
Lemma out_of_range_pane_index_witness :
  ChartModel.deletePaneById Samples.throwingAssert (-1) Samples.twoPaneChart
  = (Completion.Normal tt, Samples.twoPaneChart).
Proof.
  assert (Hout : (-1 < 0 \/ ChartModel.panesLength Samples.twoPaneChart <= -1)%Z)
    by (left; reflexivity).
  exact (proj1 (proj2 (out_of_range_pane_index "production" Samples.throwingAssert
                         Samples.twoPaneChart Hout))).
Defined.

(** Deleting the second pane of two leaves the main pane; removing the
    only pane of a chart does nothing. *)
Lemma panes_never_empty_witness :
  ChartModel.panes
    (snd (ModelMutation.run "production" Samples.throwingAssert 1%float
            (Samples.scalesOf Samples.priceScale) (ModelMutation.DeletePaneById 1)
            Samples.twoPaneChart)) <> []
  /\ ChartModel.removePane Samples.throwingAssert 0 Samples.chart
     = (Completion.Normal tt, Samples.chart).
Proof.
  split.
  - assert (Hw : ChartModel.panes Samples.twoPaneChart <> []) by (vm_compute; discriminate).
    exact (proj1 (proj1 (proj2 (panes_never_empty "production" Samples.throwingAssert
                                  1%float (Samples.scalesOf Samples.priceScale)))
                        Samples.twoPaneChart Hw)
                 (ModelMutation.DeletePaneById 1)).
  - assert (Hl : ChartModel.panesLength Samples.chart = 1%Z) by (vm_compute; reflexivity).
    exact (proj1 (proj1 (proj2 (proj2 (panes_never_empty "production"
                                         Samples.throwingAssert 1%float
                                         (Samples.scalesOf Samples.priceScale))))
                        Samples.chart Hl)
                 0%Z).
Defined.


(* ================================================================== *)
(** * Further properties of the embedded code *)

(* ------------------------------------------------------------------ *)
(** ** Facts about [Map] *)

Section MapFacts.

Variable V : Type.
Implicit Types (m : JsMap.t V) (k : string) (v : V).

Lemma JsMap_get_set_other m k k' v :
  k' <> k -> JsMap.get (JsMap.set m k v) k' = JsMap.get m k'.
Proof.
  intros Hne. induction m as [| [k0 v0] m IH]; cbn.
  - destruct (String.eqb k k') eqn:E; [apply String.eqb_eq in E; congruence | reflexivity].
  - destruct (String.eqb k0 k) eqn:E; cbn.
    + apply String.eqb_eq in E. subst k0.
      destruct (String.eqb k k') eqn:E'; [apply String.eqb_eq in E'; congruence | reflexivity].
    + destruct (String.eqb k0 k'); [reflexivity | exact IH].
Qed.

Lemma JsMap_get_delete_same m k :
  JsMap.uniqueKeys m = true -> JsMap.get (JsMap.delete m k) k = None.
Proof.
  induction m as [| [k0 v0] m IH]; cbn; intros Hu; [reflexivity |].
  apply andb_prop in Hu. destruct Hu as [Hfresh Hu].
  destruct (String.eqb k0 k) eqn:E.
  - apply String.eqb_eq in E. subst k0. unfold JsMap.has in Hfresh.
    destruct (JsMap.get m k); [discriminate | reflexivity].
  - cbn. rewrite E. apply IH. exact Hu.
Qed.

Lemma JsMap_get_delete_other m k k' :
  k' <> k -> JsMap.get (JsMap.delete m k) k' = JsMap.get m k'.
Proof.
  intros Hne. induction m as [| [k0 v0] m IH]; cbn; [reflexivity |].
  destruct (String.eqb k0 k) eqn:E; cbn.
  - apply String.eqb_eq in E. subst k0.
    destruct (String.eqb k k') eqn:E'; [apply String.eqb_eq in E'; congruence | reflexivity].
  - destruct (String.eqb k0 k'); [reflexivity | exact IH].
Qed.

Lemma JsMap_delete_absent m k :
  JsMap.get m k = None -> JsMap.delete m k = m.
Proof.
  induction m as [| [k0 v0] m IH]; cbn; [reflexivity |].
  destruct (String.eqb k0 k); [discriminate |].
  intros H. rewrite (IH H). reflexivity.
Qed.


Lemma JsMap_keys_set_present m k v v0 :
  JsMap.get m k = Some v0 -> map fst (JsMap.set m k v) = map fst m.
Proof.
  induction m as [| [k1 v1] m IH]; cbn; [discriminate |].
  destruct (String.eqb k1 k) eqn:E; cbn; [reflexivity |].
  intros H. rewrite (IH H). reflexivity.
Qed.

Lemma JsMap_has_get m k :
  JsMap.has m k = match JsMap.get m k with Some _ => true | None => false end.
Proof. reflexivity. Qed.

End MapFacts.

(* ------------------------------------------------------------------ *)
(** ** The annotation stores of the chart model *)

Section Annotations.

Lemma trendlines_fullUpdate w :
  ChartModel.trendlines (ChartModel.fullUpdate w) = ChartModel.trendlines w.
Proof. exact (sameAnnotations_trendlines (fullUpdate_sameAnnotations w)). Qed.

Lemma fibonacciRetracements_fullUpdate w :
  ChartModel.fibonacciRetracements (ChartModel.fullUpdate w)
  = ChartModel.fibonacciRetracements w.
Proof. exact (sameAnnotations_fibonacci (fullUpdate_sameAnnotations w)). Qed.

Lemma fibonacciRetracements_onCurrentSymbolTrendlines f w :
  ChartModel.fibonacciRetracements (ChartModel.onCurrentSymbolTrendlines f w)
  = ChartModel.fibonacciRetracements w.
Proof.
  unfold ChartModel.fibonacciRetracements, ChartModel.onCurrentSymbolTrendlines, withModel.
  cbn. destruct (String.eqb (_currentSymbol (_model w)) EmptyString) eqn:E; cbn; rewrite E;
    reflexivity.
Qed.

Lemma trendlines_onCurrentSymbolFibonacci f w :
  ChartModel.trendlines (ChartModel.onCurrentSymbolFibonacci f w) = ChartModel.trendlines w.
Proof.
  unfold ChartModel.trendlines, ChartModel.onCurrentSymbolFibonacci, withModel.
  cbn. destruct (String.eqb (_currentSymbol (_model w)) EmptyString) eqn:E; cbn; rewrite E;
    reflexivity.
Qed.

(** X1: [addTrendline] returns the id of the data; afterwards the
    trendline stored under that id is the one built from the data and the
    options, every other id answers as before, and the retracements are
    untouched. *)
Theorem addTrendline_then_lookup :
  forall (data : Trendline.TrendlineData) (options : option Trendline.PartialOptions)
         (w : ChartWidgetState.t),
    let w' := snd (ChartModel.addTrendline data options w) in
    fst (ChartModel.addTrendline data options w) = Trendline.id data
    /\ ChartModel.trendline (Trendline.id data) w' = Some (Trendline.new data options)
    /\ (forall id, id <> Trendline.id data ->
        ChartModel.trendline id w' = ChartModel.trendline id w)
    /\ ChartModel.fibonacciRetracements w' = ChartModel.fibonacciRetracements w.
Proof.
  intros data options w w'. subst w'. unfold ChartModel.addTrendline, ChartModel.trendline.
  cbn [fst snd]. rewrite trendlines_fullUpdate, trendlines_onCurrentSymbolTrendlines.
  repeat split.
  - apply JsMap_get_set_same.
  - intros id Hne. apply JsMap_get_set_other. exact Hne.
  - rewrite fibonacciRetracements_fullUpdate.
    apply fibonacciRetracements_onCurrentSymbolTrendlines.
Qed.

Lemma model_fullUpdate w : _model (ChartModel.fullUpdate w) = _model w.
Proof.
  destruct w as [m rafId mask planned cursor toolbar d1 s1 p1 orig d2 s2 p2 win].
  destruct planned, mask; reflexivity.
Qed.

Lemma trendlinesOf_fullUpdate k w :
  Stores.trendlinesOf k (ChartModel.fullUpdate w) = Stores.trendlinesOf k w.
Proof. unfold Stores.trendlinesOf. rewrite model_fullUpdate. reflexivity. Qed.

Lemma fibonacciOf_fullUpdate k w :
  Stores.fibonacciOf k (ChartModel.fullUpdate w) = Stores.fibonacciOf k w.
Proof. unfold Stores.fibonacciOf. rewrite model_fullUpdate. reflexivity. Qed.

Lemma orEmpty_get_set_empty {V} (m : JsMap.t (JsMap.t V)) (s k : string) :
  JsMap.has m s = false ->
  ChartModel.orEmpty (JsMap.get (JsMap.set m s JsMap.empty) k)
  = ChartModel.orEmpty (JsMap.get m k).
Proof.
  intros Hs. destruct (String.eqb k s) eqn:E.
  - apply String.eqb_eq in E. subst k. rewrite JsMap_get_set_same.
    unfold JsMap.has in Hs. destruct (JsMap.get m s); [discriminate | reflexivity].
  - apply String.eqb_neq in E. rewrite (JsMap_get_set_other _ _ E). reflexivity.
Qed.

Lemma currentSymbol_setCurrentSymbol s w :
  _currentSymbol (_model (ChartModel.setCurrentSymbol s w)) = s.
Proof.
  unfold ChartModel.setCurrentSymbol. rewrite model_fullUpdate.
  destruct w as [m rafId mask planned cursor toolbar d1 s1 p1 orig d2 s2 p2 win].
  destruct m as [opts ts ps ch ss sym tbs fbs tls fibs md ms mp pdm npi npu].
  unfold withModel, set_model, set_currentSymbol; cbn.
  destruct (JsMap.has tbs s); cbn; destruct (JsMap.has fbs s); reflexivity.
Qed.

Lemma trendlinesOf_setCurrentSymbol k s w :
  Stores.trendlinesOf k (ChartModel.setCurrentSymbol s w) = Stores.trendlinesOf k w.
Proof.
  unfold Stores.trendlinesOf, ChartModel.setCurrentSymbol. rewrite model_fullUpdate.
  destruct w as [m rafId mask planned cursor toolbar d1 s1 p1 orig d2 s2 p2 win].
  destruct m as [opts ts ps ch ss sym tbs fbs tls fibs md ms mp pdm npi npu].
  unfold withModel, set_model, set_currentSymbol; cbn.
  destruct (String.eqb k EmptyString);
    destruct (JsMap.has tbs s) eqn:Ht; cbn; destruct (JsMap.has fbs s); cbn;
    try reflexivity; apply orEmpty_get_set_empty; exact Ht.
Qed.

Lemma fibonacciOf_setCurrentSymbol k s w :
  Stores.fibonacciOf k (ChartModel.setCurrentSymbol s w) = Stores.fibonacciOf k w.
Proof.
  unfold Stores.fibonacciOf, ChartModel.setCurrentSymbol. rewrite model_fullUpdate.
  destruct w as [m rafId mask planned cursor toolbar d1 s1 p1 orig d2 s2 p2 win].
  destruct m as [opts ts ps ch ss sym tbs fbs tls fibs md ms mp pdm npi npu].
  unfold withModel, set_model, set_currentSymbol; cbn.
  destruct (String.eqb k EmptyString);
    destruct (JsMap.has tbs s); cbn; destruct (JsMap.has fbs s) eqn:Hf; cbn;
    try reflexivity; apply orEmpty_get_set_empty; exact Hf.
Qed.

Lemma trendlines_setCurrentSymbol s w :
  ChartModel.trendlines (ChartModel.setCurrentSymbol s w) = Stores.trendlinesOf s w.
Proof.
  change (ChartModel.trendlines (ChartModel.setCurrentSymbol s w))
    with (Stores.trendlinesOf (_currentSymbol (_model (ChartModel.setCurrentSymbol s w)))
            (ChartModel.setCurrentSymbol s w)).
  rewrite currentSymbol_setCurrentSymbol. apply trendlinesOf_setCurrentSymbol.
Qed.

Lemma fibonacciRetracements_setCurrentSymbol s w :
  ChartModel.fibonacciRetracements (ChartModel.setCurrentSymbol s w) = Stores.fibonacciOf s w.
Proof.
  change (ChartModel.fibonacciRetracements (ChartModel.setCurrentSymbol s w))
    with (Stores.fibonacciOf (_currentSymbol (_model (ChartModel.setCurrentSymbol s w)))
            (ChartModel.setCurrentSymbol s w)).
  rewrite currentSymbol_setCurrentSymbol. apply fibonacciOf_setCurrentSymbol.
Qed.

(** A change of the trendlines of the current symbol does not reach the
    trendlines of another symbol, nor any retracement. *)
Lemma trendlinesOf_onCurrentSymbolTrendlines f k w :
  k <> _currentSymbol (_model w) ->
  Stores.trendlinesOf k (ChartModel.onCurrentSymbolTrendlines f w) = Stores.trendlinesOf k w.
Proof.
  intros Hne. unfold Stores.trendlinesOf, ChartModel.onCurrentSymbolTrendlines.
  destruct w as [m rafId mask planned cursor toolbar d1 s1 p1 orig d2 s2 p2 win].
  destruct m as [opts ts ps ch ss sym tbs fbs tls fibs md ms mp pdm npi npu].
  cbn in Hne. unfold withModel, set_model; cbn.
  destruct (String.eqb sym EmptyString) eqn:Es; cbn.
  - apply String.eqb_eq in Es. subst sym.
    destruct (String.eqb k EmptyString) eqn:Ek; [| reflexivity].
    apply String.eqb_eq in Ek. contradiction.
  - destruct (String.eqb k EmptyString); [reflexivity |].
    rewrite (JsMap_get_set_other _ _ Hne). reflexivity.
Qed.

Lemma fibonacciOf_onCurrentSymbolTrendlines f k w :
  Stores.fibonacciOf k (ChartModel.onCurrentSymbolTrendlines f w) = Stores.fibonacciOf k w.
Proof.
  unfold Stores.fibonacciOf, ChartModel.onCurrentSymbolTrendlines.
  destruct w as [m rafId mask planned cursor toolbar d1 s1 p1 orig d2 s2 p2 win].
  destruct m as [opts ts ps ch ss sym tbs fbs tls fibs md ms mp pdm npi npu].
  unfold withModel, set_model; cbn.
  destruct (String.eqb sym EmptyString); reflexivity.
Qed.

Lemma fibonacciOf_onCurrentSymbolFibonacci f k w :
  k <> _currentSymbol (_model w) ->
  Stores.fibonacciOf k (ChartModel.onCurrentSymbolFibonacci f w) = Stores.fibonacciOf k w.
Proof.
  intros Hne. unfold Stores.fibonacciOf, ChartModel.onCurrentSymbolFibonacci.
  destruct w as [m rafId mask planned cursor toolbar d1 s1 p1 orig d2 s2 p2 win].
  destruct m as [opts ts ps ch ss sym tbs fbs tls fibs md ms mp pdm npi npu].
  cbn in Hne. unfold withModel, set_model; cbn.
  destruct (String.eqb sym EmptyString) eqn:Es; cbn.
  - apply String.eqb_eq in Es. subst sym.
    destruct (String.eqb k EmptyString) eqn:Ek; [| reflexivity].
    apply String.eqb_eq in Ek. contradiction.
  - destruct (String.eqb k EmptyString); [reflexivity |].
    rewrite (JsMap_get_set_other _ _ Hne). reflexivity.
Qed.

Lemma trendlinesOf_onCurrentSymbolFibonacci f k w :
  Stores.trendlinesOf k (ChartModel.onCurrentSymbolFibonacci f w) = Stores.trendlinesOf k w.
Proof.
  unfold Stores.trendlinesOf, ChartModel.onCurrentSymbolFibonacci.
  destruct w as [m rafId mask planned cursor toolbar d1 s1 p1 orig d2 s2 p2 win].
  destruct m as [opts ts ps ch ss sym tbs fbs tls fibs md ms mp pdm npi npu].
  unfold withModel, set_model; cbn.
  destruct (String.eqb sym EmptyString); reflexivity.
Qed.

(** The frame scheduling is out of reach of a change that goes through
    the model alone. *)
Lemma scheduling_withModel f w :
  _invalidateMask (withModel f w) = _invalidateMask w
  /\ _drawPlanned (withModel f w) = _drawPlanned w
  /\ _drawRafId (withModel f w) = _drawRafId w
  /\ window (withModel f w) = window w.
Proof. destruct w; repeat split; reflexivity. Qed.

Lemma drawPlanned_fullUpdate w : _drawPlanned (ChartModel.fullUpdate w) = true.
Proof.
  destruct w as [m rafId mask planned cursor toolbar d1 s1 p1 orig d2 s2 p2 win].
  destruct planned, mask; reflexivity.
Qed.


(** X2: [removeTrendline(id)] leaves no trendline under [id] and leaves
    every other id as it was; when no trendline is stored under [id] it
    changes no trendline and asks for no redraw: the pending mask, the
    planned flag and the frame requests stay as they are. *)
Theorem removeTrendline_removes :
  forall (id : string) (w : ChartWidgetState.t),
    JsMap.uniqueKeys (ChartModel.trendlines w) = true ->
    let w' := ChartModel.removeTrendline id w in
    ChartModel.trendline id w' = None
    /\ (forall id', id' <> id -> ChartModel.trendline id' w' = ChartModel.trendline id' w)
    /\ (ChartModel.trendline id w = None ->
        ChartModel.trendlines w' = ChartModel.trendlines w
        /\ _invalidateMask w' = _invalidateMask w
        /\ _drawPlanned w' = _drawPlanned w
        /\ window w' = window w).
Proof.
  intros id w Hu w'. subst w'. unfold ChartModel.removeTrendline, ChartModel.trendline.
  rewrite JsMap_has_get.
  destruct (JsMap.get (ChartModel.trendlines w) id) as [t |] eqn:Hget.
  - rewrite trendlines_fullUpdate, trendlines_onCurrentSymbolTrendlines.
    split; [apply JsMap_get_delete_same; exact Hu |].
    split; [intros id' Hne; apply JsMap_get_delete_other; exact Hne | discriminate].
  - rewrite trendlines_onCurrentSymbolTrendlines.
    split; [exact Hget |]. split; [reflexivity |]. intros _.
    split; [reflexivity |].
    unfold ChartModel.onCurrentSymbolTrendlines.
    destruct (scheduling_withModel
                (fun m =>
                   if String.eqb (_currentSymbol m) EmptyString
                   then set_trendlineStores (_trendlinesBySymbol m)
                          (ChartModelState._trendlines m) m
                   else set_trendlineStores
                          (JsMap.set (_trendlinesBySymbol m) (_currentSymbol m)
                             (ChartModel.orEmpty
                                (JsMap.get (_trendlinesBySymbol m) (_currentSymbol m))))
                          (ChartModelState._trendlines m) m) w) as (H1 & H2 & _ & H4).
    repeat split; assumption.
Qed.

Lemma removeTrendline_removes_witness :
  ChartModel.trendline "support"
    (ChartModel.removeTrendline "support" Samples.annotatedChart) = None.
Proof.
  assert (Hu : JsMap.uniqueKeys (ChartModel.trendlines Samples.annotatedChart) = true)
    by reflexivity.
  exact (proj1 (removeTrendline_removes "support" Samples.annotatedChart Hu)).
Defined.

(** X3: annotations are kept per symbol.  Switching to another symbol
    and back shows the trendlines and the retracements that were shown
    before; and adding, updating or removing a trendline, or adding or
    removing a retracement, while one symbol is current never changes
    what shows under a different symbol. *)
Theorem annotations_are_per_symbol :
  forall (s : string) (w : ChartWidgetState.t),
    let current := _currentSymbol (_model w) in
    let shownUnder (symbol : string) (w : ChartWidgetState.t) :=
      (ChartModel.trendlines (ChartModel.setCurrentSymbol symbol w),
       ChartModel.fibonacciRetracements (ChartModel.setCurrentSymbol symbol w)) in
    shownUnder current (ChartModel.setCurrentSymbol s w)
    = (ChartModel.trendlines w, ChartModel.fibonacciRetracements w)
    /\ (s <> current ->
        (forall data options,
            shownUnder s (snd (ChartModel.addTrendline data options w)) = shownUnder s w)
        /\ (forall id data options,
            shownUnder s (ChartModel.updateTrendline id data options w) = shownUnder s w)
        /\ (forall id, shownUnder s (ChartModel.removeTrendline id w) = shownUnder s w)
        /\ (forall data options,
            shownUnder s (snd (ChartModel.addFibonacci data options w)) = shownUnder s w)
        /\ (forall id, shownUnder s (ChartModel.removeFibonacci id w) = shownUnder s w)).
Proof.
  intros s w current shownUnder. subst shownUnder. cbv beta.
  repeat rewrite trendlines_setCurrentSymbol.
  repeat rewrite fibonacciRetracements_setCurrentSymbol.
  split.
  - rewrite trendlinesOf_setCurrentSymbol, fibonacciOf_setCurrentSymbol. reflexivity.
  - intros Hne. repeat split; intros.
    + rewrite trendlines_setCurrentSymbol, fibonacciRetracements_setCurrentSymbol.
      unfold ChartModel.addTrendline. cbn [snd].
      rewrite trendlinesOf_fullUpdate, fibonacciOf_fullUpdate,
        (trendlinesOf_onCurrentSymbolTrendlines _ _ Hne),
        fibonacciOf_onCurrentSymbolTrendlines. reflexivity.
    + rewrite trendlines_setCurrentSymbol, fibonacciRetracements_setCurrentSymbol.
      unfold ChartModel.updateTrendline.
      destruct (JsMap.get (ChartModel.trendlines w) id);
        repeat rewrite trendlinesOf_fullUpdate; repeat rewrite fibonacciOf_fullUpdate;
        rewrite (trendlinesOf_onCurrentSymbolTrendlines _ _ Hne),
          fibonacciOf_onCurrentSymbolTrendlines; reflexivity.
    + rewrite trendlines_setCurrentSymbol, fibonacciRetracements_setCurrentSymbol.
      unfold ChartModel.removeTrendline.
      destruct (JsMap.has (ChartModel.trendlines w) id);
        repeat rewrite trendlinesOf_fullUpdate; repeat rewrite fibonacciOf_fullUpdate;
        rewrite (trendlinesOf_onCurrentSymbolTrendlines _ _ Hne),
          fibonacciOf_onCurrentSymbolTrendlines; reflexivity.
    + rewrite trendlines_setCurrentSymbol, fibonacciRetracements_setCurrentSymbol.
      unfold ChartModel.addFibonacci. cbn [snd].
      rewrite trendlinesOf_fullUpdate, fibonacciOf_fullUpdate,
        (fibonacciOf_onCurrentSymbolFibonacci _ _ Hne),
        trendlinesOf_onCurrentSymbolFibonacci. reflexivity.
    + rewrite trendlines_setCurrentSymbol, fibonacciRetracements_setCurrentSymbol.
      unfold ChartModel.removeFibonacci.
      rewrite trendlinesOf_fullUpdate, fibonacciOf_fullUpdate,
        (fibonacciOf_onCurrentSymbolFibonacci _ _ Hne),
        trendlinesOf_onCurrentSymbolFibonacci. reflexivity.
Qed.

(** A trendline added while no symbol is set does not show under AAPL. *)
Lemma annotations_are_per_symbol_witness :
  (ChartModel.trendlines (ChartModel.setCurrentSymbol "AAPL" Samples.annotatedChart),
   ChartModel.fibonacciRetracements (ChartModel.setCurrentSymbol "AAPL" Samples.annotatedChart))
  = (ChartModel.trendlines (ChartModel.setCurrentSymbol "AAPL" Samples.chart),
     ChartModel.fibonacciRetracements (ChartModel.setCurrentSymbol "AAPL" Samples.chart)).
Proof.
  assert (Hne : "AAPL"%string <> _currentSymbol (_model Samples.chart)) by discriminate.
  exact (proj1 (proj2 (annotations_are_per_symbol "AAPL" Samples.chart) Hne)
           Samples.support None).
Defined.

(** X4: [updateTrendline(id, data, options)] changes the trendline stored
    under [id] in place: the patch of the data first, then the patch of
    the options; the ids stored, their order and every other trendline
    stay as they are, so that a data patch that carries another id changes
    what the trendline answers to [id()] but not the id it is stored
    under.  Without a trendline under [id] nothing changes and no redraw
    is asked for. *)
Theorem updateTrendline_in_place :
  forall (id : string) (data : option Trendline.PartialData)
         (options : option Trendline.PartialOptions) (w : ChartWidgetState.t),
    let w' := ChartModel.updateTrendline id data options w in
    (forall t, ChartModel.trendline id w = Some t ->
       let patched := match data with
                      | Some data => Trendline.updateData data t
                      | None => t
                      end in
       let restyled := match options with
                       | Some options => Trendline.updateOptions options patched
                       | None => patched
                       end in
       ChartModel.trendline id w' = Some restyled
       /\ map fst (ChartModel.trendlines w') = map fst (ChartModel.trendlines w)
       /\ (forall id', id' <> id -> ChartModel.trendline id' w' = ChartModel.trendline id' w)
       /\ (forall d newId, data = Some d -> Trendline.p_id d = Some newId ->
           Trendline.id (Trendline._data restyled) = newId))
    /\ (ChartModel.trendline id w = None ->
        ChartModel.trendlines w' = ChartModel.trendlines w
        /\ _invalidateMask w' = _invalidateMask w
        /\ _drawPlanned w' = _drawPlanned w
        /\ window w' = window w).
Proof.
  intros id data options w w'. subst w'. unfold ChartModel.updateTrendline, ChartModel.trendline.
  split.
  - intros t Ht. cbv zeta. rewrite Ht.
    rewrite trendlines_fullUpdate, trendlines_onCurrentSymbolTrendlines.
    split; [apply JsMap_get_set_same |].
    split; [eapply JsMap_keys_set_present; exact Ht |].
    split; [intros id' Hne; apply JsMap_get_set_other; exact Hne |].
    intros d newId Hd Hid. subst data.
    destruct options; cbn; rewrite Hid; reflexivity.
  - intros Hnone. rewrite Hnone. rewrite trendlines_onCurrentSymbolTrendlines.
    split; [reflexivity |].
    unfold ChartModel.onCurrentSymbolTrendlines.
    destruct (scheduling_withModel
                (fun m =>
                   if String.eqb (_currentSymbol m) EmptyString
                   then set_trendlineStores (_trendlinesBySymbol m)
                          (ChartModelState._trendlines m) m
                   else set_trendlineStores
                          (JsMap.set (_trendlinesBySymbol m) (_currentSymbol m)
                             (ChartModel.orEmpty
                                (JsMap.get (_trendlinesBySymbol m) (_currentSymbol m))))
                          (ChartModelState._trendlines m) m) w) as (H1 & H2 & _ & H4).
    repeat split; assumption.
Qed.

(** Moving the second anchor of the sample trendline. *)
Lemma updateTrendline_in_place_witness :
  ChartModel.trendline "support"
    (ChartModel.updateTrendline "support"
       (Some {| Trendline.p_id := None; Trendline.p_point1 := None;
                Trendline.p_point2 := Some {| Trendline.time := 300%float;
                                              Trendline.value := 80%float |} |})
       None Samples.annotatedChart)
  = Some (Trendline.new
            {| Trendline.id := "support";
               Trendline.point1 := {| Trendline.time := 100%float; Trendline.value := 40%float |};
               Trendline.point2 := {| Trendline.time := 300%float; Trendline.value := 80%float |} |}
            None).
Proof.
  assert (Ht : ChartModel.trendline "support" Samples.annotatedChart
               = Some (Trendline.new Samples.support None)) by reflexivity.
  exact (proj1 (proj1 (updateTrendline_in_place "support"
                         (Some {| Trendline.p_id := None; Trendline.p_point1 := None;
                                  Trendline.p_point2 :=
                                    Some {| Trendline.time := 300%float;
                                            Trendline.value := 80%float |} |})
                         None Samples.annotatedChart) _ Ht)).
Defined.





End Annotations.

(* ------------------------------------------------------------------ *)
(** ** Adding and deleting panes *)

Section PaneList.

Import Completion.
Local Open Scope Z_scope.

Lemma index_app_last {A} (l : list A) (x : A) :
  Js.index (l ++ [x]) (Z.of_nat (List.length l)) = Some x.
Proof.
  unfold Js.index. destruct (Z.ltb_spec (Z.of_nat (List.length l)) 0) as [H | H]; [lia |].
  rewrite Nat2Z.id, nth_error_app2, Nat.sub_diag; [reflexivity | lia].
Qed.

Lemma index_map {A B} (f : A -> B) (l : list A) (i : Z) :
  Js.index (map f l) i = option_map f (Js.index l i).
Proof.
  unfold Js.index. destruct (i <? 0); [reflexivity |]. apply nth_error_map.
Qed.


Lemma panes_withModel f w :
  ChartModel.panes (withModel f w) = _panes (f (_model w)).
Proof. destruct w; reflexivity. Qed.

Lemma panes_storePane p w :
  ChartModel.panes (ChartModel.storePane p w)
  = map (fun q => if Pane.same q p then p else q) (ChartModel.panes w).
Proof. destruct w as [m]; destruct m; reflexivity. Qed.

Lemma panes_fullUpdate w : ChartModel.panes (ChartModel.fullUpdate w) = ChartModel.panes w.
Proof. apply panes_invalidateHandler. Qed.


Lemma serieses_invalidateHandler mask w :
  ChartModel.serieses (_invalidateHandler mask w) = ChartModel.serieses w.
Proof.
  unfold _invalidateHandler.
  destruct (_invalidateMask w); cbn; destruct (_drawPlanned w); reflexivity.
Qed.

Lemma model_invalidateHandler mask w : _model (_invalidateHandler mask w) = _model w.
Proof.
  unfold _invalidateHandler.
  destruct (_invalidateMask w); cbn; destruct (_drawPlanned w); reflexivity.
Qed.

Lemma Pane_same_refl p : Pane.same p p = true.
Proof. apply Nat.eqb_refl. Qed.

Variable assertionFailure : string -> Completion.t unit.
Variable DEFAULT_STRETCH_FACTOR : float.
Variable newPaneScales : Pane.Scales.

Local Abbreviation getOrCreatePane :=
  (ChartModel._getOrCreatePane assertionFailure DEFAULT_STRETCH_FACTOR newPaneScales)
  (only parsing).

(** An index within the list answers the pane stored there and changes
    nothing. *)
Lemma getOrCreatePane_existing index w p :
  0 <= index ->
  Js.index (ChartModel.panes w) index = Some p ->
  getOrCreatePane index w = (Normal p, w).
Proof.
  intros Hge Hp. unfold ChartModel._getOrCreatePane, ChartModel.assertM, ChartModel.assert,
    bind, lift.
  destruct (Z.leb_spec 0 index) as [_ | H]; [| lia].
  assert (Hlt : index < ChartModel.panesLength w).
  { unfold ChartModel.panesLength. unfold Js.index in Hp.
    destruct (index <? 0); [discriminate |].
    assert (Hs : nth_error (ChartModel.panes w) (Z.to_nat index) <> None) by congruence.
    apply nth_error_Some in Hs. lia. }
  rewrite Z.min_r by lia.
  destruct (Z.ltb_spec index (ChartModel.panesLength w)) as [_ | H]; [| lia].
  rewrite Hp. reflexivity.
Qed.

(** An index at or past the end appends one pane, whatever the index. *)
Lemma getOrCreatePane_new index w :
  ChartModel.panesLength w <= index ->
  let pane := Pane.new (nextPaneUid (_model w)) DEFAULT_STRETCH_FACTOR newPaneScales in
  fst (getOrCreatePane index w) = Normal pane
  /\ ChartModel.panes (snd (getOrCreatePane index w)) = ChartModel.panes w ++ [pane]
  /\ ChartModel.serieses (snd (getOrCreatePane index w)) = ChartModel.serieses w
  /\ _paneDataMap (_model (snd (getOrCreatePane index w))) = _paneDataMap (_model w)
  /\ _nextPaneId (_model (snd (getOrCreatePane index w))) = _nextPaneId (_model w).
Proof.
  intros Hle pane. unfold ChartModel._getOrCreatePane, ChartModel.assertM, ChartModel.assert,
    bind, lift.
  assert (H0 : 0 <= ChartModel.panesLength w) by (unfold ChartModel.panesLength; lia).
  destruct (Z.leb_spec 0 index) as [_ | H]; [| lia].
  rewrite Z.min_l by lia.
  rewrite Z.ltb_irrefl. cbn [fst snd].
  unfold ChartModel._invalidate.
  split; [reflexivity |].
  split; [rewrite panes_invalidateHandler; destruct w as [m]; destruct m; reflexivity |].
  split; [rewrite serieses_invalidateHandler; destruct w as [m]; destruct m; reflexivity |].
  rewrite model_invalidateHandler. destruct w as [m]; destruct m; split; reflexivity.
Qed.

Lemma In_paneData_set k v l : In (k, v) (ChartModel.paneData_set k v l).
Proof.
  unfold ChartModel.paneData_set.
  destruct (existsb (fun e => fst e =? k) l) eqn:E.
  - apply existsb_exists in E. destruct E as ([k0 v0] & Hin & Hk). cbn in Hk.
    apply in_map_iff. exists (k0, v0). cbn. rewrite Hk. split; [reflexivity | exact Hin].
  - apply in_or_app. right. left. reflexivity.
Qed.

Lemma panesLength_app w l x :
  ChartModel.panes w = l ++ [x] -> ChartModel.panesLength w = Z.of_nat (List.length l) + 1.
Proof. intros H. unfold ChartModel.panesLength. rewrite H, length_app. cbn. lia. Qed.

(** X6: [addPane(height)] returns the number of panes there were; the
    pane list is one longer; the pane at the returned index is new, it
    holds no data source and its stretch factor is
    [height * DEFAULT_STRETCH_FACTOR / 100] for a positive height and the
    default otherwise; and the pane data recorded under the returned
    index carries the id [pane_N] for the next pane number [N], which
    then moves on by one. *)
Theorem addPane_appends :
  forall (height : float) (w : ChartWidgetState.t),
    let r := ChartModel.addPane assertionFailure DEFAULT_STRETCH_FACTOR newPaneScales
               height w in
    let index := ChartModel.panesLength w in
    fst r = Normal index
    /\ ChartModel.panesLength (snd r) = index + 1
    /\ (exists pane,
          ChartModel.getPaneById index (snd r) = Some pane
          /\ Pane.dataSources pane = []
          /\ Pane.stretchFactor pane
             = if Js.gt height 0%float
               then (height * DEFAULT_STRETCH_FACTOR / 100)%float
               else DEFAULT_STRETCH_FACTOR)
    /\ In (index,
           {| pd_id := ("pane_" ++ ChartModel.Z_toString (_nextPaneId (_model w)))%string;
              pd_title := ("Pane " ++ ChartModel.Z_toString index)%string;
              pd_height := height |})
          (_paneDataMap (_model (snd r)))
    /\ _nextPaneId (_model (snd r)) = _nextPaneId (_model w) + 1
    /\ ChartModel.serieses (snd r) = ChartModel.serieses w.
Proof.
  intros height w r index. subst r.
  destruct (getOrCreatePane_new (index := index) w (Z.le_refl _))
    as (Hfst & Hpanes & Hser & Hpd & Hid).
  fold index in Hfst, Hpanes, Hser, Hpd, Hid.
  unfold ChartModel.addPane, bind, gets, exec, ret. cbv beta iota. fold index.
  destruct (getOrCreatePane index w) as [c w1]. cbn [fst snd] in *. subst c.
  cbv beta iota. cbn [fst snd].
  set (pane := Pane.new (nextPaneUid (_model w)) DEFAULT_STRETCH_FACTOR newPaneScales) in *.
  set (stretched := Pane.setStretchFactor (height * DEFAULT_STRETCH_FACTOR / 100)%float pane).
  set (w2 := if Js.gt height 0%float then ChartModel.storePane stretched w1 else w1).
  assert (Hnth : Js.index (ChartModel.panes w2) index
                 = Some (if Js.gt height 0%float then stretched else pane)).
  { subst w2. destruct (Js.gt height 0%float).
    - rewrite panes_storePane, index_map, Hpanes. unfold index, ChartModel.panesLength.
      rewrite index_app_last. cbn [option_map].
      replace (Pane.same pane stretched) with true; [reflexivity |].
      symmetry. apply Nat.eqb_refl.
    - rewrite Hpanes. apply index_app_last. }
  assert (Hlen : ChartModel.panesLength w2 = index + 1).
  { subst w2. unfold ChartModel.panesLength. destruct (Js.gt height 0%float).
    - rewrite panes_storePane, length_map, Hpanes, length_app. cbn.
      unfold index, ChartModel.panesLength. lia.
    - rewrite Hpanes, length_app. cbn. unfold index, ChartModel.panesLength. lia. }
  assert (Hmodel : _serieses (_model w2) = _serieses (_model w1)
                   /\ _paneDataMap (_model w2) = _paneDataMap (_model w1)
                   /\ _nextPaneId (_model w2) = _nextPaneId (_model w1)).
  { subst w2. destruct (Js.gt height 0%float); [| repeat split].
    destruct w1 as [m1]; destruct m1; repeat split. }
  destruct Hmodel as (Hs2 & Hpd2 & Hid2).
  match goal with
  | |- context [ChartModel.fullUpdate (withModel ?f w2)] => set (record := f)
  end.
  assert (Hpanes3 : ChartModel.panes (ChartModel.fullUpdate (withModel record w2))
                    = ChartModel.panes w2).
  { rewrite panes_fullUpdate, panes_withModel. subst record. destruct w2 as [m2]; destruct m2.
    reflexivity. }
  split; [reflexivity |].
  split; [unfold ChartModel.panesLength at 1; rewrite Hpanes3; exact Hlen |].
  split.
  { exists (if Js.gt height 0%float then stretched else pane).
    split.
    - unfold ChartModel.getPaneById. unfold ChartModel.panesLength at 1. rewrite Hpanes3.
      fold (ChartModel.panesLength w2). rewrite Hlen.
      assert (H0 : 0 <= index) by (unfold index, ChartModel.panesLength; lia).
      destruct (Z.leb_spec 0 index); [| lia].
      destruct (Z.ltb_spec index (index + 1)); [| lia]. exact Hnth.
    - destruct (Js.gt height 0%float); split; reflexivity. }
  unfold ChartModel.fullUpdate, ChartModel._invalidate.
  rewrite model_invalidateHandler. unfold ChartModel.serieses.
  rewrite model_invalidateHandler.
  subst record. destruct w2 as [m2]. destruct m2. cbn in Hs2, Hpd2, Hid2 |- *.
  subst. unfold ChartModel.serieses in Hser. rewrite Hpd, Hid, Hser.
  split; [apply In_paneData_set |]. split; reflexivity.
Qed.

Lemma serieses_storePane p w :
  ChartModel.serieses (ChartModel.storePane p w) = ChartModel.serieses w.
Proof. destruct w as [m]; destruct m; reflexivity. Qed.

Lemma serieses_fullUpdate w :
  ChartModel.serieses (ChartModel.fullUpdate w) = ChartModel.serieses w.
Proof. apply serieses_invalidateHandler. Qed.




Lemma panes_set_paneData (f : ChartModelState.t -> list (Z * PaneData))
    (g : ChartModelState.t -> Z) w :
  ChartModel.panes (withModel (fun m => set_paneData (f m) (g m) m) w) = ChartModel.panes w.
Proof. destruct w as [m]; destruct m; reflexivity. Qed.

Lemma serieses_set_paneData (f : ChartModelState.t -> list (Z * PaneData))
    (g : ChartModelState.t -> Z) w :
  ChartModel.serieses (withModel (fun m => set_paneData (f m) (g m) m) w)
  = ChartModel.serieses w.
Proof. destruct w as [m]; destruct m; reflexivity. Qed.

Lemma panes_spliced index w :
  ChartModel.panes (withModel (fun m => set_panes (Js.splice1 (_panes m) index) m) w)
  = Js.splice1 (ChartModel.panes w) index.
Proof. destruct w as [m]; destruct m; reflexivity. Qed.

Lemma serieses_spliced index w :
  ChartModel.serieses (withModel (fun m => set_panes (Js.splice1 (_panes m) index) m) w)
  = ChartModel.serieses w.
Proof. destruct w as [m]; destruct m; reflexivity. Qed.

Lemma splice1_in_range {A} (l : list A) (i : Z) :
  0 <= i < Z.of_nat (List.length l) ->
  Js.splice1 l i = firstn (Z.to_nat i) l ++ skipn (S (Z.to_nat i)) l
  /\ Z.of_nat (List.length (Js.splice1 l i)) = Z.of_nat (List.length l) - 1.
Proof.
  intros H. unfold Js.splice1.
  destruct (Z.ltb_spec i 0) as [Hlt | _]; [lia |].
  rewrite Z.min_l by lia. split; [reflexivity |].
  rewrite length_app, length_firstn, length_skipn. lia.
Qed.

(** X8: [deletePaneById(paneIndex)] for a pane other than the main one
    that holds no series removes that pane and no other: the panes before
    it and after it stay, in their order, the list is one shorter, and
    no series is touched. *)
Theorem deletePaneById_empty_pane :
  forall (paneIndex : Z) (pane : Pane.t) (w : ChartWidgetState.t),
    0 < paneIndex ->
    Js.index (ChartModel.panes w) paneIndex = Some pane ->
    Pane.series pane = [] ->
    let r := ChartModel.deletePaneById assertionFailure paneIndex w in
    fst r = Normal tt
    /\ ChartModel.panes (snd r)
       = firstn (Z.to_nat paneIndex) (ChartModel.panes w)
         ++ skipn (S (Z.to_nat paneIndex)) (ChartModel.panes w)
    /\ ChartModel.panesLength (snd r) = ChartModel.panesLength w - 1
    /\ ChartModel.serieses (snd r) = ChartModel.serieses w.
Proof.
  intros paneIndex pane w Hpos Hp Hseries r. subst r.
  assert (Hlt : paneIndex < ChartModel.panesLength w).
  { unfold ChartModel.panesLength. unfold Js.index in Hp.
    destruct (paneIndex <? 0); [discriminate |].
    assert (Hs : nth_error (ChartModel.panes w) (Z.to_nat paneIndex) <> None) by congruence.
    apply nth_error_Some in Hs. lia. }
  destruct (splice1_in_range (ChartModel.panes w) (i := paneIndex)) as [Hsplice Hlen];
    [unfold ChartModel.panesLength in Hlt; lia |].
  unfold ChartModel.deletePaneById.
  destruct (Z.eqb_spec paneIndex 0) as [E | _]; [lia |].
  destruct (Z.leb_spec (ChartModel.panesLength w) paneIndex) as [E | _]; [lia |].
  destruct (Z.ltb_spec paneIndex 0) as [E | _]; [lia |].
  cbn [orb]. rewrite Hp.
  unfold ChartModel.removePane, ChartModel.assertM, ChartModel.assert.
  cbv [bind lift exec ret]. cbv beta iota. rewrite Hseries. cbn [forEach].
  cbv [ret]. cbv beta iota.
  unfold ChartModel.panesLength. rewrite panes_set_paneData.
  fold (ChartModel.panesLength w).
  destruct (Z.eqb_spec (ChartModel.panesLength w) 1) as [E | _]; [lia |].
  destruct (Z.leb_spec 0 paneIndex) as [_ | E]; [| lia].
  destruct (Z.ltb_spec paneIndex (ChartModel.panesLength w)) as [_ | E]; [| lia].
  cbn [andb fst snd].
  split; [reflexivity |].
  rewrite !panes_fullUpdate, !serieses_fullUpdate.
  rewrite (panes_set_paneData
             (fun m => fold_left
                         (fun acc e =>
                            if paneIndex <? fst e
                            then ChartModel.paneData_set (fst e - 1) (snd e) acc
                            else ChartModel.paneData_set (fst e) (snd e) acc)
                         (_paneDataMap m) [])
             (fun m => _nextPaneId m)).
  rewrite (serieses_set_paneData
             (fun m => fold_left
                         (fun acc e =>
                            if paneIndex <? fst e
                            then ChartModel.paneData_set (fst e - 1) (snd e) acc
                            else ChartModel.paneData_set (fst e) (snd e) acc)
                         (_paneDataMap m) [])
             (fun m => _nextPaneId m)).
  rewrite !panes_fullUpdate, !serieses_fullUpdate, panes_spliced, serieses_spliced.
  rewrite panes_set_paneData, serieses_set_paneData.
  unfold ChartModel.panesLength.
  rewrite Hlen. split; [exact Hsplice |]. split; reflexivity.
Qed.

End PaneList.

(** Deleting the empty second pane of a chart with two panes. *)
Lemma deletePaneById_empty_pane_witness :
  ChartModel.panesLength
    (snd (ChartModel.deletePaneById Samples.throwingAssert 1 Samples.sparePaneChart)) = 1%Z.
Proof.
  assert (Hpos : (0 < 1)%Z) by lia.
  assert (Hp : Js.index (ChartModel.panes Samples.sparePaneChart) 1
               = Some (Pane.setStretchFactor 1%float
                         (Pane.new 1 1%float (Samples.scalesOf Samples.priceScale))))
    by reflexivity.
  assert (Hs : Pane.series (Pane.setStretchFactor 1%float
                              (Pane.new 1 1%float (Samples.scalesOf Samples.priceScale))) = [])
    by reflexivity.
  exact (proj1 (proj2 (proj2 (@deletePaneById_empty_pane Samples.throwingAssert 1
                                (Pane.setStretchFactor 1%float
                                   (Pane.new 1 1%float
                                      (Samples.scalesOf Samples.priceScale)))
                                Samples.sparePaneChart Hpos Hp Hs)))).
Defined.

(* ------------------------------------------------------------------ *)
(** ** The drawing tools *)

Section DrawingTools.

Local Open Scope float_scope.

(** X9: switching the Fibonacci tool on and then off, with no click in
    between, leaves the annotations as they were, leaves no start anchor
    and no preview, puts the crosshair mode back to what it was and
    drops the cursor override; it never touches the state of the
    trendline tool nor the center dot of the crosshair. *)
Theorem fibonacci_tool_on_then_off :
  forall w : ChartWidgetState.t,
    let w' := ChartWidget._onFibonacciToolToggle false
                (ChartWidget._onFibonacciToolToggle true w) in
    ChartModel.trendlines w' = ChartModel.trendlines w
    /\ ChartModel.fibonacciRetracements w' = ChartModel.fibonacciRetracements w
    /\ _isDrawingFibonacci w' = false
    /\ _fibonacciStartPoint w' = None
    /\ _fibonacciPreviewEnd w' = None
    /\ crosshair_mode (ChartModel.options w') = crosshair_mode (ChartModel.options w)
    /\ _originalCrosshairMode w' = None
    /\ _cursorStyleOverride w' = None
    /\ ChartWidgetState._isDrawingTrendline w' = ChartWidgetState._isDrawingTrendline w
    /\ ChartWidgetState._trendlineStartPoint w' = ChartWidgetState._trendlineStartPoint w
    /\ ChartModel.isDrawingTrendline w' = ChartModel.isDrawingTrendline w
    /\ Crosshair._showCenterDot (ChartModel.crosshairSource w')
       = Crosshair._showCenterDot (ChartModel.crosshairSource w).
Proof.
  intros w w'. subst w'.
  destruct w as [m rafId mask planned cursor toolbar d1 s1 p1 orig d2 s2 p2 win].
  destruct m as [opts ts ps ch ss sym tbs fbs tls fibs md ms mp pdm npi npu].
  destruct planned, mask; repeat split; reflexivity.
Qed.

(** Each event keeps the tools in sync. *)
Lemma inSync_trendlineButton w :
  Tools.inSync w = true -> Tools.inSync (ChartWidget.trendlineButton_click w) = true.
Proof.
  destruct w as [m rafId mask planned cursor toolbar d1 s1 p1 orig d2 s2 p2 win].
  destruct m as [opts ts ps ch ss sym tbs fbs tls fibs md ms mp pdm npi npu].
  destruct toolbar as [[ta fa] |]; [| discriminate].
  destruct ta, fa, d1, d2, md; try discriminate; intros _;
    destruct planned, mask, orig; reflexivity.
Qed.

Lemma inSync_fibonacciButton w :
  Tools.inSync w = true -> Tools.inSync (ChartWidget.fibonacciButton_click w) = true.
Proof.
  destruct w as [m rafId mask planned cursor toolbar d1 s1 p1 orig d2 s2 p2 win].
  destruct m as [opts ts ps ch ss sym tbs fbs tls fibs md ms mp pdm npi npu].
  destruct toolbar as [[ta fa] |]; [| discriminate].
  destruct ta, fa, d1, d2, md; try discriminate; intros _;
    destruct planned, mask, orig; reflexivity.
Qed.

Lemma inSync_paneClick now suffix pane time point w :
  Tools.inSync w = true ->
  Tools.inSync (ChartWidget._onPaneWidgetClicked now suffix pane time point w) = true.
Proof.
  intros H. unfold ChartWidget._onPaneWidgetClicked.
  destruct (ChartWidgetState._isDrawingTrendline w) eqn:Ed.
  - destruct point as [point |]; [| exact H].
    unfold ChartWidget._handleTrendlineClick.
    destruct (PriceScale.firstValue _); [| exact H].
    destruct (PriceScale.coordinateToPrice _ _ _); [| exact H].
    generalize (ChartWidget.clickTimeValue now time point w). intros timeValue.
    destruct w as [m rafId mask planned cursor toolbar d1 s1 p1 orig d2 s2 p2 win].
    destruct m as [opts ts ps ch ss sym tbs fbs tls fibs md ms mp pdm npi npu].
    cbn in Ed. subst d1.
    destruct toolbar as [[ta fa] |]; [| discriminate].
    destruct ta, fa, d2, md; try discriminate.
    destruct s1; [| reflexivity].
    destruct planned, mask, orig; reflexivity.
  - destruct (_isDrawingFibonacci w) eqn:Ef; [| exact H].
    destruct point as [point |]; [| exact H].
    unfold ChartWidget._handleFibonacciClick.
    destruct (PriceScale.firstValue _); [| exact H].
    destruct (PriceScale.coordinateToPrice _ _ _); [| exact H].
    generalize (ChartWidget.clickTimeValue now time point w). intros timeValue.
    destruct w as [m rafId mask planned cursor toolbar d1 s1 p1 orig d2 s2 p2 win].
    destruct m as [opts ts ps ch ss sym tbs fbs tls fibs md ms mp pdm npi npu].
    cbn in Ed, Ef. subst d1 d2.
    destruct toolbar as [[ta fa] |]; [| discriminate].
    destruct ta, fa, md; try discriminate.
    destruct s2; [| reflexivity].
    unfold ChartModel.addFibonacci, ChartModel.onCurrentSymbolFibonacci, withModel.
    cbn [_model set_model ChartModelState._currentSymbol].
    destruct (String.eqb sym EmptyString); destruct planned, mask; reflexivity.
Qed.

(** X10: whatever the user does with the two buttons and with clicks
    on the panes, in any order, the toolbar and the chart stay in sync:
    a button shows active exactly when the chart is in that drawing
    mode, the model agrees with the widget on the trendline mode, and
    the two drawing modes are never on together. *)
Theorem tools_stay_in_sync :
  forall (events : list Tools.UserEvent) (w : ChartWidgetState.t),
    Tools.inSync w = true ->
    Tools.inSync (Tools.handleAll events w) = true.
Proof.
  intros events. unfold Tools.handleAll.
  induction events as [| event events IH]; intros w H; cbn [fold_left]; [exact H |].
  apply IH. destruct event; cbn [Tools.handle].
  - apply inSync_trendlineButton, H.
  - apply inSync_fibonacciButton, H.
  - apply inSync_paneClick, H.
Qed.

(** The time of a click depends on the chart through its time scale
    alone. *)
Lemma clickTimeValue_timeScale now time point w w' :
  ChartModel.timeScale w' = ChartModel.timeScale w ->
  ChartWidget.clickTimeValue now time point w' = ChartWidget.clickTimeValue now time point w.
Proof.
  intros H. unfold ChartWidget.clickTimeValue, ChartWidget._extrapolateTimeFromCoordinate.
  rewrite H. reflexivity.
Qed.

(** X11: a whole session of the trendline tool.  From a chart whose
    toolbar shows no tool active, pressing the trendline button and
    clicking twice on panes that can price the clicks adds exactly one
    trendline, from the time and price of the first click to the time and
    price of the second, under the id given out at the second click; the
    retracements stay as they were.  Afterwards the chart has left the
    drawing mode in the widget, in the model and on the toolbar, no
    anchor and no preview are kept, the center dot and the cursor
    override are off, and the crosshair mode is the one from before the
    session. *)
Theorem trendline_session :
  forall (now1 now2 : float) (suffix1 suffix2 : string) (pane1 pane2 : Pane.t)
         (time1 time2 : option Z) (click1 click2 : Point) (w : ChartWidgetState.t)
         (tb : ToolbarWidget) (firstValue1 price1 firstValue2 price2 : float),
    _toolbarWidget w = Some tb ->
    _isTrendlineActive tb = false ->
    _isFibonacciActive tb = false ->
    PriceScale.firstValue (Pane.defaultPriceScale (Pane.scales pane1)) = Some firstValue1 ->
    PriceScale.coordinateToPrice (Pane.defaultPriceScale (Pane.scales pane1))
      (pt_y click1) firstValue1 = Some price1 ->
    PriceScale.firstValue (Pane.defaultPriceScale (Pane.scales pane2)) = Some firstValue2 ->
    PriceScale.coordinateToPrice (Pane.defaultPriceScale (Pane.scales pane2))
      (pt_y click2) firstValue2 = Some price2 ->
    let final :=
      Tools.handleAll
        [Tools.TrendlineButton;
         Tools.PaneClick now1 suffix1 pane1 time1 (Some click1);
         Tools.PaneClick now2 suffix2 pane2 time2 (Some click2)] w in
    ChartModel.trendlines final
    = JsMap.set (ChartModel.trendlines w) ("trendline_" ++ suffix2)%string
        (Trendline.new
           {| Trendline.id := ("trendline_" ++ suffix2)%string;
              Trendline.point1 :=
                {| Trendline.time := ChartWidget.clickTimeValue now1 time1 click1 w;
                   Trendline.value := price1 |};
              Trendline.point2 :=
                {| Trendline.time := ChartWidget.clickTimeValue now2 time2 click2 w;
                   Trendline.value := price2 |} |} None)
    /\ ChartModel.fibonacciRetracements final = ChartModel.fibonacciRetracements w
    /\ ChartWidgetState._isDrawingTrendline final = false
    /\ ChartModel.isDrawingTrendline final = false
    /\ _toolbarWidget final
       = Some {| _isTrendlineActive := false; _isFibonacciActive := false |}
    /\ ChartWidgetState._trendlineStartPoint final = None
    /\ ChartWidgetState._trendlinePreviewEnd final = None
    /\ ChartModel.getTrendlineStartPoint final = None
    /\ ChartModel.getTrendlinePreviewEnd final = None
    /\ Crosshair._showCenterDot (ChartModel.crosshairSource final) = false
    /\ _cursorStyleOverride final = None
    /\ crosshair_mode (ChartModel.options final) = crosshair_mode (ChartModel.options w)
    /\ _originalCrosshairMode final = None.
Proof.
  intros now1 now2 suffix1 suffix2 pane1 pane2 time1 time2 click1 click2 w tb
         firstValue1 price1 firstValue2 price2 Htb Hta Hfa Hfv1 Hp1 Hfv2 Hp2 final.
  subst final. unfold Tools.handleAll. cbn [fold_left Tools.handle].
  (* the button *)
  assert (Hbutton : ChartWidget.trendlineButton_click w
                    = ChartWidget._onTrendlineToolToggle true
                        (set_toolbarWidget
                           (Some {| _isTrendlineActive := true;
                                    _isFibonacciActive := false |}) w)).
  { unfold ChartWidget.trendlineButton_click. rewrite Htb. destruct tb as [ta fa].
    cbn in Hta, Hfa. subst ta fa. reflexivity. }
  rewrite Hbutton. clear Hbutton.
  set (w1 := ChartWidget._onTrendlineToolToggle true _).
  assert (Hts1 : ChartModel.timeScale w1 = ChartModel.timeScale w).
  { subst w1. destruct w as [m rafId mask planned cursor toolbar d1 s1 p1 orig d2 s2 p2 win].
    destruct m as [opts ts ps ch ss sym tbs fbs tls fibs md ms mp pdm npi npu].
    destruct planned, mask; reflexivity. }
  (* the first click *)
  set (start := {| dp_x := pt_x click1; dp_y := pt_y click1;
                   dp_time := ChartWidget.clickTimeValue now1 time1 click1 w;
                   dp_price := price1 |}).
  assert (Hclick1 : ChartWidget._onPaneWidgetClicked now1 suffix1 pane1 time1 (Some click1) w1
                    = ChartModel.setTrendlineStartPoint (Some start)
                        (set_trendlineDrawing true (Some start) None w1)).
  { unfold ChartWidget._onPaneWidgetClicked, ChartWidget._handleTrendlineClick. cbv zeta.
    rewrite Hfv1, Hp1, (@clickTimeValue_timeScale now1 time1 click1 w w1 Hts1).
    subst w1. destruct w as [m rafId mask planned cursor toolbar d1 s1 p1 orig d2 s2 p2 win].
    destruct m as [opts ts ps ch ss sym tbs fbs tls fibs md ms mp pdm npi npu].
    destruct planned, mask; reflexivity. }
  rewrite Hclick1. clear Hclick1.
  set (w2 := ChartModel.setTrendlineStartPoint (Some start) _).
  assert (Hts2 : ChartModel.timeScale w2 = ChartModel.timeScale w).
  { rewrite <- Hts1. subst w2. destruct w1 as [m]; destruct m; reflexivity. }
  (* the second click *)
  unfold ChartWidget._onPaneWidgetClicked, ChartWidget._handleTrendlineClick. cbv zeta.
  rewrite Hfv2, Hp2, (@clickTimeValue_timeScale now2 time2 click2 w w2 Hts2).
  assert (Hd2 : ChartWidgetState._isDrawingTrendline w2 = true).
  { subst w2 w1. destruct w as [m rafId mask planned cursor toolbar d1 s1 p1 orig d2 s2 p2 win].
    destruct m as [opts ts ps ch ss sym tbs fbs tls fibs md ms mp pdm npi npu].
    destruct planned, mask; reflexivity. }
  assert (Hs2 : ChartWidgetState._trendlineStartPoint w2 = Some start).
  { subst w2 w1. destruct w as [m rafId mask planned cursor toolbar d1 s1 p1 orig d2 s2 p2 win].
    destruct m as [opts ts ps ch ss sym tbs fbs tls fibs md ms mp pdm npi npu].
    destruct planned, mask; reflexivity. }
  rewrite Hd2, Hs2. cbn [dp_time dp_price start].
  set (data := {| Trendline.id := ("trendline_" ++ suffix2)%string;
                  Trendline.point1 := _; Trendline.point2 := _ |}).
  split.
  { unfold ChartModel.addTrendline.
    rewrite (sameAnnotations_trendlines (trendline_cleanup_sameAnnotations _)).
    rewrite (sameAnnotations_trendlines (fullUpdate_sameAnnotations _)).
    rewrite trendlines_onCurrentSymbolTrendlines.
    replace (ChartModel.trendlines w2) with (ChartModel.trendlines w); [reflexivity |].
    subst w2 w1. destruct w as [m rafId mask planned cursor toolbar d1 s1 p1 orig d2 s2 p2 win].
    destruct m as [opts ts ps ch ss sym tbs fbs tls fibs md ms mp pdm npi npu].
    destruct planned, mask; reflexivity. }
  split.
  { unfold ChartModel.addTrendline.
    rewrite (sameAnnotations_fibonacci (trendline_cleanup_sameAnnotations _)).
    rewrite (sameAnnotations_fibonacci (fullUpdate_sameAnnotations _)).
    rewrite fibonacciRetracements_onCurrentSymbolTrendlines.
    subst w2 w1. destruct w as [m rafId mask planned cursor toolbar d1 s1 p1 orig d2 s2 p2 win].
    destruct m as [opts ts ps ch ss sym tbs fbs tls fibs md ms mp pdm npi npu].
    destruct planned, mask; reflexivity. }
  generalize data. clear data. intros data.
  generalize start. clear Hs2 Hd2 Hts2 Hts1. subst w2 w1. intros start0.
  unfold ChartModel.addTrendline, ChartModel.onCurrentSymbolTrendlines, withModel.
  destruct w as [m rafId mask planned cursor toolbar d1 s1 p1 orig d2 s2 p2 win].
  destruct m as [opts ts ps ch ss sym tbs fbs tls fibs md ms mp pdm npi npu].
  cbn [_model set_model ChartModelState._currentSymbol].
  cbn in Htb. subst toolbar.
  destruct planned, mask; cbn; destruct (String.eqb sym EmptyString);
    repeat split; reflexivity.
Qed.

(** What [addFibonacci] leaves alone. *)
Lemma addFibonacci_frame data options w :
  let w' := snd (ChartModel.addFibonacci data options w) in
  _toolbarWidget w' = _toolbarWidget w
  /\ crosshair_mode (ChartModel.options w') = crosshair_mode (ChartModel.options w)
  /\ _originalCrosshairMode w' = _originalCrosshairMode w
  /\ _cursorStyleOverride w' = _cursorStyleOverride w
  /\ _isDrawingFibonacci w' = _isDrawingFibonacci w
  /\ ChartWidgetState._isDrawingTrendline w' = ChartWidgetState._isDrawingTrendline w
  /\ ChartModel.timeScale w' = ChartModel.timeScale w.
Proof.
  unfold ChartModel.addFibonacci, ChartModel.onCurrentSymbolFibonacci, withModel. cbn [snd].
  destruct w as [m rafId mask planned cursor toolbar d1 s1 p1 orig d2 s2 p2 win].
  destruct m as [opts ts ps ch ss sym tbs fbs tls fibs md ms mp pdm npi npu].
  cbn [_model set_model ChartModelState._currentSymbol].
  destruct (String.eqb sym EmptyString); destruct planned, mask; repeat split; reflexivity.
Qed.

(** X12: a whole session of the Fibonacci tool.  From a chart whose
    toolbar shows no tool active, pressing the Fibonacci button and
    clicking twice on panes that can price the clicks adds exactly one
    retracement between the two clicks and leaves the drawing mode, with
    no anchor, no preview and no cursor override kept, and the button
    released.  Unlike the trendline tool it does not put the crosshair
    mode back: the mode stays 0, the one set for drawing, and the mode
    from before the session stays behind in [_originalCrosshairMode]. *)
Theorem fibonacci_session :
  forall (now1 now2 : float) (suffix1 suffix2 : string) (pane1 pane2 : Pane.t)
         (time1 time2 : option Z) (click1 click2 : Point) (w : ChartWidgetState.t)
         (tb : ToolbarWidget) (firstValue1 price1 firstValue2 price2 : float),
    Tools.inSync w = true ->
    _toolbarWidget w = Some tb ->
    _isTrendlineActive tb = false ->
    _isFibonacciActive tb = false ->
    PriceScale.firstValue (Pane.defaultPriceScale (Pane.scales pane1)) = Some firstValue1 ->
    PriceScale.coordinateToPrice (Pane.defaultPriceScale (Pane.scales pane1))
      (pt_y click1) firstValue1 = Some price1 ->
    PriceScale.firstValue (Pane.defaultPriceScale (Pane.scales pane2)) = Some firstValue2 ->
    PriceScale.coordinateToPrice (Pane.defaultPriceScale (Pane.scales pane2))
      (pt_y click2) firstValue2 = Some price2 ->
    let final :=
      Tools.handleAll
        [Tools.FibonacciButton;
         Tools.PaneClick now1 suffix1 pane1 time1 (Some click1);
         Tools.PaneClick now2 suffix2 pane2 time2 (Some click2)] w in
    ChartModel.fibonacciRetracements final
    = JsMap.set (ChartModel.fibonacciRetracements w) ("fibonacci_" ++ suffix2)%string
        (Fibonacci.new
           {| Fibonacci.id := ("fibonacci_" ++ suffix2)%string;
              Fibonacci.point1 :=
                {| Fibonacci.time := ChartWidget.clickTimeValue now1 time1 click1 w;
                   Fibonacci.value := price1 |};
              Fibonacci.point2 :=
                {| Fibonacci.time := ChartWidget.clickTimeValue now2 time2 click2 w;
                   Fibonacci.value := price2 |} |} None)
    /\ ChartModel.trendlines final = ChartModel.trendlines w
    /\ _isDrawingFibonacci final = false
    /\ _toolbarWidget final
       = Some {| _isTrendlineActive := false; _isFibonacciActive := false |}
    /\ _fibonacciStartPoint final = None
    /\ _fibonacciPreviewEnd final = None
    /\ _cursorStyleOverride final = None
    /\ crosshair_mode (ChartModel.options final) = 0%Z
    /\ _originalCrosshairMode final = Some (crosshair_mode (ChartModel.options w)).
Proof.
  intros now1 now2 suffix1 suffix2 pane1 pane2 time1 time2 click1 click2 w tb
         firstValue1 price1 firstValue2 price2 Hsync Htb Hta Hfa Hfv1 Hp1 Hfv2 Hp2 final.
  subst final. unfold Tools.handleAll. cbn [fold_left Tools.handle].
  assert (Hbutton : ChartWidget.fibonacciButton_click w
                    = ChartWidget._onFibonacciToolToggle true
                        (set_toolbarWidget
                           (Some {| _isTrendlineActive := false;
                                    _isFibonacciActive := true |}) w)).
  { unfold ChartWidget.fibonacciButton_click. rewrite Htb. destruct tb as [ta fa].
    cbn in Hta, Hfa. subst ta fa. reflexivity. }
  rewrite Hbutton. clear Hbutton.
  set (w1 := ChartWidget._onFibonacciToolToggle true _).
  assert (Hts1 : ChartModel.timeScale w1 = ChartModel.timeScale w).
  { subst w1. destruct w as [m rafId mask planned cursor toolbar d1 s1 p1 orig d2 s2 p2 win].
    destruct m as [opts ts ps ch ss sym tbs fbs tls fibs md ms mp pdm npi npu].
    destruct planned, mask; reflexivity. }
  assert (Hd : ChartWidgetState._isDrawingTrendline w = false).
  { unfold Tools.inSync in Hsync. rewrite Htb, Hta in Hsync.
    destruct (ChartWidgetState._isDrawingTrendline w); [discriminate | reflexivity]. }
  set (start := {| dp_x := pt_x click1; dp_y := pt_y click1;
                   dp_time := ChartWidget.clickTimeValue now1 time1 click1 w;
                   dp_price := price1 |}).
  assert (Hclick1 : ChartWidget._onPaneWidgetClicked now1 suffix1 pane1 time1 (Some click1) w1
                    = set_fibonacciDrawing true (Some start) None w1).
  { unfold ChartWidget._onPaneWidgetClicked, ChartWidget._handleFibonacciClick. cbv zeta.
    rewrite Hfv1, Hp1, (@clickTimeValue_timeScale now1 time1 click1 w w1 Hts1).
    subst w1. destruct w as [m rafId mask planned cursor toolbar d1 s1 p1 orig d2 s2 p2 win].
    destruct m as [opts ts ps ch ss sym tbs fbs tls fibs md ms mp pdm npi npu].
    cbn in Hd. subst d1. destruct planned, mask; reflexivity. }
  rewrite Hclick1. clear Hclick1.
  set (w2 := set_fibonacciDrawing true (Some start) None w1).
  assert (Hts2 : ChartModel.timeScale w2 = ChartModel.timeScale w).
  { rewrite <- Hts1. subst w2. destruct w1 as [m]; destruct m; reflexivity. }
  unfold ChartWidget._onPaneWidgetClicked, ChartWidget._handleFibonacciClick. cbv zeta.
  rewrite Hfv2, Hp2, (@clickTimeValue_timeScale now2 time2 click2 w w2 Hts2).
  assert (Hd2 : ChartWidgetState._isDrawingTrendline w2 = false).
  { subst w2 w1. destruct w as [m rafId mask planned cursor toolbar d1 s1 p1 orig d2 s2 p2 win].
    destruct m as [opts ts ps ch ss sym tbs fbs tls fibs md ms mp pdm npi npu].
    cbn in Hd. subst d1. destruct planned, mask; reflexivity. }
  assert (Hf2 : _isDrawingFibonacci w2 = true) by reflexivity.
  assert (Hs2 : _fibonacciStartPoint w2 = Some start) by reflexivity.
  rewrite Hd2, Hf2, Hs2. cbn [dp_time dp_price start].
  set (data := {| Fibonacci.id := ("fibonacci_" ++ suffix2)%string;
                  Fibonacci.point1 := _; Fibonacci.point2 := _ |}).
  split.
  { unfold ChartModel.addFibonacci.
    rewrite (sameAnnotations_fibonacci (fibonacci_cleanup_sameAnnotations _)).
    rewrite (sameAnnotations_fibonacci (fullUpdate_sameAnnotations _)).
    rewrite fibonacciRetracements_onCurrentSymbolFibonacci.
    replace (ChartModel.fibonacciRetracements w2) with (ChartModel.fibonacciRetracements w);
      [reflexivity |].
    subst w2 w1. destruct w as [m rafId mask planned cursor toolbar d1 s1 p1 orig d2 s2 p2 win].
    destruct m as [opts ts ps ch ss sym tbs fbs tls fibs md ms mp pdm npi npu].
    destruct planned, mask; reflexivity. }
  split.
  { unfold ChartModel.addFibonacci.
    rewrite (sameAnnotations_trendlines (fibonacci_cleanup_sameAnnotations _)).
    rewrite (sameAnnotations_trendlines (fullUpdate_sameAnnotations _)).
    rewrite trendlines_onCurrentSymbolFibonacci.
    subst w2 w1. destruct w as [m rafId mask planned cursor toolbar d1 s1 p1 orig d2 s2 p2 win].
    destruct m as [opts ts ps ch ss sym tbs fbs tls fibs md ms mp pdm npi npu].
    destruct planned, mask; reflexivity. }
  destruct (addFibonacci_frame data None w2) as (Ha1 & Ha2 & Ha3 & Ha4 & Ha5 & Ha6 & Ha7).
  destruct (ChartModel.addFibonacci data None w2) as [i wA]. cbn [snd] in *.
  assert (Hw2 : _toolbarWidget w2
                = Some {| _isTrendlineActive := false; _isFibonacciActive := true |}
                /\ crosshair_mode (ChartModel.options w2) = 0%Z
                /\ _originalCrosshairMode w2 = Some (crosshair_mode (ChartModel.options w))).
  { subst w2 w1. destruct w as [m rafId mask planned cursor toolbar d1 s1 p1 orig d2 s2 p2 win].
    destruct m as [opts ts ps ch ss sym tbs fbs tls fibs md ms mp pdm npi npu].
    destruct planned, mask; repeat split; reflexivity. }
  destruct Hw2 as (Ht & Hm & Ho). rewrite Ht in Ha1. rewrite Hm in Ha2. rewrite Ho in Ha3.
  clear - Ha1 Ha2 Ha3.
  destruct wA as [m rafId mask planned cursor toolbar d1 s1 p1 orig d2 s2 p2 win].
  cbn in Ha1, Ha3. subst toolbar orig.
  repeat split; try reflexivity. exact Ha2.
Qed.

(** X13: in either drawing mode a click that brings no point, or lands
    on a pane whose default price scale has no first value yet, or whose
    pixel the price scale cannot turn into a price, is ignored: nothing
    at all changes, so no anchor is placed and no annotation is made. *)
Theorem unpriced_clicks_are_ignored :
  forall (now : float) (suffix : string) (pane : Pane.t) (time : option Z)
         (point : option Point) (w : ChartWidgetState.t),
    ChartWidgetState._isDrawingTrendline w = true \/ _isDrawingFibonacci w = true ->
    match point with
    | None => True
    | Some click =>
        match PriceScale.firstValue (Pane.defaultPriceScale (Pane.scales pane)) with
        | None => True
        | Some firstValue =>
            PriceScale.coordinateToPrice (Pane.defaultPriceScale (Pane.scales pane))
              (pt_y click) firstValue = None
        end
    end ->
    ChartWidget._onPaneWidgetClicked now suffix pane time point w = w.
Proof.
  intros now suffix pane time point w Hmode Hprice.
  unfold ChartWidget._onPaneWidgetClicked, ChartWidget._handleTrendlineClick,
    ChartWidget._handleFibonacciClick. cbv zeta.
  destruct point as [click |].
  - destruct (PriceScale.firstValue (Pane.defaultPriceScale (Pane.scales pane))).
    + rewrite Hprice. destruct (ChartWidgetState._isDrawingTrendline w),
        (_isDrawingFibonacci w); reflexivity.
    + destruct (ChartWidgetState._isDrawingTrendline w), (_isDrawingFibonacci w);
        reflexivity.
  - destruct (ChartWidgetState._isDrawingTrendline w), (_isDrawingFibonacci w); reflexivity.
Qed.

End DrawingTools.


(** Pressing the trendline button, then the Fibonacci button, then
    clicking twice on the main pane. *)
Lemma tools_stay_in_sync_witness :
  Tools.inSync
    (Tools.handleAll
       [Tools.TrendlineButton; Tools.FibonacciButton;
        Tools.PaneClick 1700000000000%float "a" Samples.mainPane (Some 1%Z)
          (Some {| pt_x := 12%float; pt_y := 40%float |});
        Tools.PaneClick 1700000000500%float "b" Samples.mainPane (Some 1%Z)
          (Some {| pt_x := 18%float; pt_y := 30%float |})]
       Samples.chartWithToolbar) = true.
Proof.
  assert (H : Tools.inSync Samples.chartWithToolbar = true) by reflexivity.
  exact (tools_stay_in_sync _ _ H).
Defined.

(** The trendline button, then clicks at (12, 40) and (18, 30) that come
    with the indices of the two bars: one trendline from (100, 60) to
    (200, 70). *)
Lemma trendline_session_witness :
  ChartModel.trendlines
    (Tools.handleAll
       [Tools.TrendlineButton;
        Tools.PaneClick 1700000000000%float "a" Samples.mainPane (Some 0%Z)
          (Some {| pt_x := 12%float; pt_y := 40%float |});
        Tools.PaneClick 1700000000500%float "b" Samples.mainPane (Some 1%Z)
          (Some {| pt_x := 18%float; pt_y := 30%float |})]
       Samples.chartWithToolbar)
  = [("trendline_b"%string,
      Trendline.new
        {| Trendline.id := "trendline_b";
           Trendline.point1 := {| Trendline.time := 100%float; Trendline.value := 60%float |};
           Trendline.point2 := {| Trendline.time := 200%float; Trendline.value := 70%float |} |}
        None)].
Proof.
  assert (Htb : _toolbarWidget Samples.chartWithToolbar
                = Some {| _isTrendlineActive := false; _isFibonacciActive := false |})
    by reflexivity.
  assert (Hta : _isTrendlineActive
                  {| _isTrendlineActive := false; _isFibonacciActive := false |} = false)
    by reflexivity.
  assert (Hfa : _isFibonacciActive
                  {| _isTrendlineActive := false; _isFibonacciActive := false |} = false)
    by reflexivity.
  assert (Hfv : PriceScale.firstValue
                  (Pane.defaultPriceScale (Pane.scales Samples.mainPane)) = Some 50%float)
    by reflexivity.
  assert (Hp1 : PriceScale.coordinateToPrice
                  (Pane.defaultPriceScale (Pane.scales Samples.mainPane))
                  40%float 50%float = Some 60%float) by reflexivity.
  assert (Hp2 : PriceScale.coordinateToPrice
                  (Pane.defaultPriceScale (Pane.scales Samples.mainPane))
                  30%float 50%float = Some 70%float) by reflexivity.
  exact (proj1 (@trendline_session 1700000000000%float 1700000000500%float "a" "b"
                  Samples.mainPane Samples.mainPane (Some 0%Z) (Some 1%Z)
                  {| pt_x := 12%float; pt_y := 40%float |}
                  {| pt_x := 18%float; pt_y := 30%float |}
                  Samples.chartWithToolbar
                  {| _isTrendlineActive := false; _isFibonacciActive := false |}
                  50%float 60%float 50%float 70%float
                  Htb Hta Hfa Hfv Hp1 Hfv Hp2)).
Defined.

(** The same with the Fibonacci button: the crosshair mode, 1 before the
    session, is 0 after it. *)
Lemma fibonacci_session_witness :
  crosshair_mode (ChartModel.options Samples.chartWithToolbar) = 1%Z
  /\ crosshair_mode
       (ChartModel.options
          (Tools.handleAll
             [Tools.FibonacciButton;
              Tools.PaneClick 1700000000000%float "a" Samples.mainPane (Some 0%Z)
                (Some {| pt_x := 12%float; pt_y := 40%float |});
              Tools.PaneClick 1700000000500%float "b" Samples.mainPane (Some 1%Z)
                (Some {| pt_x := 18%float; pt_y := 30%float |})]
             Samples.chartWithToolbar)) = 0%Z.
Proof.
  split; [reflexivity |].
  assert (Hsync : Tools.inSync Samples.chartWithToolbar = true) by reflexivity.
  assert (Htb : _toolbarWidget Samples.chartWithToolbar
                = Some {| _isTrendlineActive := false; _isFibonacciActive := false |})
    by reflexivity.
  assert (Hta : _isTrendlineActive
                  {| _isTrendlineActive := false; _isFibonacciActive := false |} = false)
    by reflexivity.
  assert (Hfa : _isFibonacciActive
                  {| _isTrendlineActive := false; _isFibonacciActive := false |} = false)
    by reflexivity.
  assert (Hfv : PriceScale.firstValue
                  (Pane.defaultPriceScale (Pane.scales Samples.mainPane)) = Some 50%float)
    by reflexivity.
  assert (Hp1 : PriceScale.coordinateToPrice
                  (Pane.defaultPriceScale (Pane.scales Samples.mainPane))
                  40%float 50%float = Some 60%float) by reflexivity.
  assert (Hp2 : PriceScale.coordinateToPrice
                  (Pane.defaultPriceScale (Pane.scales Samples.mainPane))
                  30%float 50%float = Some 70%float) by reflexivity.
  exact (proj1 (proj2 (proj2 (proj2 (proj2 (proj2 (proj2 (proj2
           (@fibonacci_session 1700000000000%float 1700000000500%float "a" "b"
              Samples.mainPane Samples.mainPane (Some 0%Z) (Some 1%Z)
              {| pt_x := 12%float; pt_y := 40%float |}
              {| pt_x := 18%float; pt_y := 30%float |}
              Samples.chartWithToolbar
              {| _isTrendlineActive := false; _isFibonacciActive := false |}
              50%float 60%float 50%float 70%float
              Hsync Htb Hta Hfa Hfv Hp1 Hfv Hp2))))))))).
Defined.

(** A click on a pane whose price scale has no data yet, while the
    trendline tool waits for its second anchor. *)
Lemma unpriced_clicks_are_ignored_witness :
  ChartWidget._onPaneWidgetClicked 1700000000000%float "k4"
    (Pane.new 0 2%float (Samples.scalesOf Samples.notReady)) (Some 1%Z)
    (Some {| pt_x := 18%float; pt_y := 30%float |}) Samples.drawingChart
  = Samples.drawingChart.
Proof.
  assert (Hmode : ChartWidgetState._isDrawingTrendline Samples.drawingChart = true
                  \/ _isDrawingFibonacci Samples.drawingChart = true)
    by (left; reflexivity).
  exact (@unpriced_clicks_are_ignored 1700000000000%float "k4"
           (Pane.new 0 2%float (Samples.scalesOf Samples.notReady)) (Some 1%Z)
           (Some {| pt_x := 18%float; pt_y := 30%float |}) Samples.drawingChart Hmode I).
Defined.

(* ------------------------------------------------------------------ *)
(** ** Hit-testing and drawing of trendlines in the pane widget *)

Section HitsAndStrokes.

Import PaneWidget.
Local Open Scope float_scope.

Import Hits.

Lemma fair_step timeScale priceScale firstValue x y l acc entry :
  In entry l ->
  (forall hit, closestHit acc = Some hit -> fair timeScale priceScale firstValue x y l hit) ->
  forall hit,
    closestHit (hitTestTrendline timeScale priceScale firstValue x y acc entry) = Some hit ->
    fair timeScale priceScale firstValue x y l hit.
Proof.
  intros Hin Hacc hit. destruct entry as [id trendline].
  unfold hitTestTrendline.
  destruct (_convertTimeAndPriceToCoordinates
              (Trendline.time (Trendline.point1 (Trendline._data trendline))) _ _ _ _)
    as [coords1 |] eqn:E1; [| apply Hacc].
  destruct (_convertTimeAndPriceToCoordinates
              (Trendline.time (Trendline.point2 (Trendline._data trendline))) _ _ _ _)
    as [coords2 |] eqn:E2; [| apply Hacc].
  set (dist1 := Js.Math_sqrt (Js.Math_pow2 (x - pt_x coords1)
                              + Js.Math_pow2 (y - pt_y coords1))).
  set (dist2 := Js.Math_sqrt (Js.Math_pow2 (x - pt_x coords2)
                              + Js.Math_pow2 (y - pt_y coords2))).
  set (lineDist := _distanceToLine x y (pt_x coords1) (pt_y coords1)
                     (pt_x coords2) (pt_y coords2)).
  assert (H1 : fair timeScale priceScale firstValue x y l
                 {| trendlineId := id; hitType := point1; distance := dist1 |}
               \/ Js.le dist1 SELECTION_HIT_TOLERANCE = false).
  { destruct (Js.le dist1 SELECTION_HIT_TOLERANCE) eqn:E; [left | right; reflexivity].
    exists trendline, coords1, coords2. cbn. repeat split; assumption. }
  assert (H2 : fair timeScale priceScale firstValue x y l
                 {| trendlineId := id; hitType := point2; distance := dist2 |}
               \/ Js.le dist2 SELECTION_HIT_TOLERANCE = false).
  { destruct (Js.le dist2 SELECTION_HIT_TOLERANCE) eqn:E; [left | right; reflexivity].
    exists trendline, coords1, coords2. cbn. repeat split; assumption. }
  assert (H3 : fair timeScale priceScale firstValue x y l
                 {| trendlineId := id; hitType := line; distance := lineDist |}
               \/ Js.le lineDist LINE_HIT_TOLERANCE = false).
  { destruct (Js.le lineDist LINE_HIT_TOLERANCE) eqn:E; [left | right; reflexivity].
    exists trendline, coords1, coords2. cbn. repeat split; assumption. }
  clearbody dist1 dist2 lineDist.
  destruct H1 as [H1 | H1], H2 as [H2 | H2], H3 as [H3 | H3];
    rewrite ?H1, ?H2, ?H3; cbn [andb];
    repeat match goal with
           | |- context [if ?c then _ else _] => destruct c; cbn [closestHit closestDistance]
           | |- Some _ = Some _ -> _ => intros Heq; injection Heq as <-; assumption
           | |- _ => apply Hacc
           end.
Qed.

Lemma fair_fold timeScale priceScale firstValue x y l :
  forall rest acc,
    (forall entry, In entry rest -> In entry l) ->
    (forall hit, closestHit acc = Some hit -> fair timeScale priceScale firstValue x y l hit) ->
    forall hit,
      closestHit (fold_left (hitTestTrendline timeScale priceScale firstValue x y) rest acc)
      = Some hit ->
      fair timeScale priceScale firstValue x y l hit.
Proof.
  induction rest as [| entry rest IH]; intros acc Hsub Hacc hit; cbn [fold_left].
  - apply Hacc.
  - apply IH.
    + intros e He. apply Hsub. right. exact He.
    + apply fair_step; [apply Hsub; left; reflexivity | exact Hacc].
Qed.

(** X15: whatever [_hitTestTrendlines] answers is a trendline of the
    pane widget, both of whose anchors have pixels on the chart, and the
    distance in the answer is the distance from the pointer to the part
    named (the first anchor, the second anchor, or the segment), which
    lies within the tolerance of that part: 8 pixels for an anchor, 5
    for the segment. *)
Theorem hit_is_within_tolerance :
  forall (x y : float) (w : ChartWidgetState.t) (pw : PaneWidget.t)
         (hit : TrendlineHitResult),
    _hitTestTrendlines x y w pw = Some hit ->
    exists state firstValue trendline coords1 coords2,
      let timeScale := ChartModel.timeScale w in
      let priceScale := Pane.defaultPriceScale (Pane.scales state) in
      _state pw = Some state
      /\ PriceScale.firstValue priceScale = Some firstValue
      /\ In (trendlineId hit, trendline) (_trendlines pw)
      /\ _convertTimeAndPriceToCoordinates
           (Trendline.time (Trendline.point1 (Trendline._data trendline)))
           (Trendline.value (Trendline.point1 (Trendline._data trendline)))
           timeScale priceScale firstValue = Some coords1
      /\ _convertTimeAndPriceToCoordinates
           (Trendline.time (Trendline.point2 (Trendline._data trendline)))
           (Trendline.value (Trendline.point2 (Trendline._data trendline)))
           timeScale priceScale firstValue = Some coords2
      /\ match hitType hit with
         | point1 =>
             distance hit = Js.Math_sqrt (Js.Math_pow2 (x - pt_x coords1)
                                          + Js.Math_pow2 (y - pt_y coords1))
             /\ Js.le (distance hit) SELECTION_HIT_TOLERANCE = true
         | point2 =>
             distance hit = Js.Math_sqrt (Js.Math_pow2 (x - pt_x coords2)
                                          + Js.Math_pow2 (y - pt_y coords2))
             /\ Js.le (distance hit) SELECTION_HIT_TOLERANCE = true
         | line =>
             distance hit = _distanceToLine x y (pt_x coords1) (pt_y coords1)
                              (pt_x coords2) (pt_y coords2)
             /\ Js.le (distance hit) LINE_HIT_TOLERANCE = true
         end.
Proof.
  intros x y w pw hit. unfold _hitTestTrendlines.
  destruct (_state pw) as [state |]; [| discriminate].
  destruct (Nat.eqb _ 0); [discriminate |].
  destruct (PriceScale.firstValue _) as [firstValue |] eqn:Hfv; [| discriminate].
  intros H.
  assert (Hinit : forall h,
             closestHit {| closestHit := None; closestDistance := Js.Infinity |} = Some h ->
             fair (ChartModel.timeScale w) (Pane.defaultPriceScale (Pane.scales state))
               firstValue x y (_trendlines pw) h)
    by (intros h Hh; discriminate Hh).
  destruct (@fair_fold (ChartModel.timeScale w)
              (Pane.defaultPriceScale (Pane.scales state)) firstValue x y
              (_trendlines pw) (_trendlines pw)
              {| closestHit := None; closestDistance := Js.Infinity |}
              (fun e He => He) Hinit hit H)
    as (trendline & coords1 & coords2 & Hin & H1 & H2 & H3).
  exists state, firstValue, trendline, coords1, coords2. cbv zeta.
  repeat split; try assumption; destruct (hitType hit); apply H3.
Qed.



(** X16: every stroke of [_drawTrendlines] is made in the bitmap
    coordinate space, and the numbers it gives to [moveTo] and [lineTo]
    are the media pixels of the two anchors of one trendline of the pane
    widget, the very pixels from which [_hitTestTrendlines] measures:
    they are not scaled by the pixel ratio.  The stroke is blue and one
    wider than the trendline's width when the trendline is the selected
    one, and has the trendline's colour and width otherwise. *)
Theorem trendline_strokes_are_unscaled_media_pixels :
  forall (selected : option string) (w : ChartWidgetState.t) (pw : PaneWidget.t)
         (stroke : Stroke),
    In stroke (_drawTrendlines selected w pw) ->
    exists state firstValue id trendline,
      let timeScale := ChartModel.timeScale w in
      let priceScale := Pane.defaultPriceScale (Pane.scales state) in
      let isSelected := match selected with
                        | Some selectedId => String.eqb id selectedId
                        | None => false
                        end in
      _state pw = Some state
      /\ PriceScale.firstValue priceScale = Some firstValue
      /\ In (id, trendline) (_trendlines pw)
      /\ space stroke = BitmapCoordinateSpace
      /\ _convertTimeAndPriceToCoordinates
           (Trendline.time (Trendline.point1 (Trendline._data trendline)))
           (Trendline.value (Trendline.point1 (Trendline._data trendline)))
           timeScale priceScale firstValue = Some (moveTo stroke)
      /\ _convertTimeAndPriceToCoordinates
           (Trendline.time (Trendline.point2 (Trendline._data trendline)))
           (Trendline.value (Trendline.point2 (Trendline._data trendline)))
           timeScale priceScale firstValue = Some (lineTo stroke)
      /\ strokeStyle stroke
         = (if isSelected then "#2196F3"%string
            else Trendline.color (Trendline._options trendline))
      /\ lineWidth stroke
         = (if isSelected then Trendline.lineWidth (Trendline._options trendline) + 1
            else Trendline.lineWidth (Trendline._options trendline)).
Proof.
  intros selected w pw stroke. unfold _drawTrendlines.
  destruct (_state pw) as [state |]; [| intros []].
  destruct (Nat.eqb _ 0); [intros [] |].
  destruct (PriceScale.firstValue _) as [firstValue |] eqn:Hfv; [| intros []].
  intros Hin. apply in_flat_map in Hin. destruct Hin as ([id trendline] & Hentry & Hin).
  exists state, firstValue, id, trendline. cbv zeta.
  change (_timeAndPriceToCoordinates) with (_convertTimeAndPriceToCoordinates) in Hin.
  destruct (_convertTimeAndPriceToCoordinates
              (Trendline.time (Trendline.point1 (Trendline._data trendline))) _ _ _ _)
    as [coords1 |]; [| destruct Hin].
  destruct (_convertTimeAndPriceToCoordinates
              (Trendline.time (Trendline.point2 (Trendline._data trendline))) _ _ _ _)
    as [coords2 |]; [| destruct Hin].
  destruct Hin as [<- | []]. cbn [space moveTo lineTo strokeStyle lineWidth].
  repeat split; assumption.
Qed.

(** The options that switch every trendline of a map to invisible. *)
Lemma hitTestTrendline_updateOptions options timeScale priceScale firstValue x y acc id t :
  hitTestTrendline timeScale priceScale firstValue x y acc
    (id, Trendline.updateOptions options t)
  = hitTestTrendline timeScale priceScale firstValue x y acc (id, t).
Proof. reflexivity. Qed.

Lemma fold_hitTest_updateOptions options timeScale priceScale firstValue x y l :
  forall acc,
    fold_left (hitTestTrendline timeScale priceScale firstValue x y)
      (map (fun e => (fst e, Trendline.updateOptions options (snd e))) l) acc
    = fold_left (hitTestTrendline timeScale priceScale firstValue x y) l acc.
Proof.
  induction l as [| [id t] l IH]; intros acc; cbn [map fold_left fst snd]; [reflexivity |].
  rewrite hitTestTrendline_updateOptions. apply IH.
Qed.

(** X17: the [visible] option of a trendline has no effect in the pane
    widget.  After every trendline has been given [visible: false],
    [_hitTestTrendlines] answers as before for every pointer position,
    and [_drawTrendlines] puts the same strokes on the canvas. *)
Theorem invisible_trendlines_are_drawn_and_hit :
  forall (x y : float) (selected : option string) (w : ChartWidgetState.t)
         (pw : PaneWidget.t),
    let hide := {| Trendline.p_color := None; Trendline.p_lineWidth := None;
                   Trendline.p_lineStyle := None; Trendline.p_extend := None;
                   Trendline.p_visible := Some false |} in
    let hidden := updateTrendlines
                    (map (fun e => (fst e, Trendline.updateOptions hide (snd e)))
                       (_trendlines pw)) pw in
    Forall (fun e => Trendline.visible (Trendline._options (snd e)) = false)
      (_trendlines hidden)
    /\ _hitTestTrendlines x y w hidden = _hitTestTrendlines x y w pw
    /\ _drawTrendlines selected w hidden = _drawTrendlines selected w pw.
Proof.
  intros x y selected w pw hide hidden. subst hidden.
  unfold _hitTestTrendlines, _drawTrendlines, updateTrendlines, JsMap.size.
  cbn [_state _trendlines]. rewrite length_map.
  split.
  { apply Forall_forall. intros e He. apply in_map_iff in He.
    destruct He as (e0 & <- & _). reflexivity. }
  destruct (_state pw) as [state |]; [| split; reflexivity].
  destruct (Nat.eqb _ 0); [split; reflexivity |].
  destruct (PriceScale.firstValue _) as [firstValue |]; [| split; reflexivity].
  split.
  - rewrite fold_hitTest_updateOptions. reflexivity.
  - induction (_trendlines pw) as [| [id t] l IH]; [reflexivity |].
    cbn [map flat_map fst snd]. rewrite IH. reflexivity.
Qed.

End HitsAndStrokes.

(** A hit on the first anchor of the trendline A of the samples, seven
    pixels from the pointer. *)
Lemma hit_is_within_tolerance_witness :
  exists state firstValue trendline coords1 coords2,
    PaneWidget._state (Samples.paneWidget [Samples.nearAnchor]) = Some state
    /\ PriceScale.firstValue (Pane.defaultPriceScale (Pane.scales state)) = Some firstValue
    /\ In ("A"%string, trendline) [Samples.nearAnchor]
    /\ PaneWidget._convertTimeAndPriceToCoordinates
         (Trendline.time (Trendline.point1 (Trendline._data trendline)))
         (Trendline.value (Trendline.point1 (Trendline._data trendline)))
         (ChartModel.timeScale Samples.chart)
         (Pane.defaultPriceScale (Pane.scales state)) firstValue = Some coords1
    /\ PaneWidget._convertTimeAndPriceToCoordinates
         (Trendline.time (Trendline.point2 (Trendline._data trendline)))
         (Trendline.value (Trendline.point2 (Trendline._data trendline)))
         (ChartModel.timeScale Samples.chart)
         (Pane.defaultPriceScale (Pane.scales state)) firstValue = Some coords2
    /\ (7%float
        = Js.Math_sqrt (Js.Math_pow2 (50 - pt_x coords1) + Js.Math_pow2 (50 - pt_y coords1))
        /\ Js.le 7%float PaneWidget.SELECTION_HIT_TOLERANCE = true)%float.
Proof.
  assert (H : PaneWidget._hitTestTrendlines 50%float 50%float Samples.chart
                (Samples.paneWidget [Samples.nearAnchor])
              = Some {| PaneWidget.trendlineId := "A"; PaneWidget.hitType := PaneWidget.point1;
                        PaneWidget.distance := 7%float |}) by (vm_compute; reflexivity).
  exact (hit_is_within_tolerance 50%float 50%float Samples.chart
           (Samples.paneWidget [Samples.nearAnchor]) H).
Defined.

(** The stroke of the trendline A of the samples: from (57, 50) to
    (150, 50), the pixels of its anchors. *)
Lemma trendline_strokes_are_unscaled_media_pixels_witness :
  In {| PaneWidget.space := PaneWidget.BitmapCoordinateSpace;
        PaneWidget.strokeStyle := "#2196F3";
        PaneWidget.lineWidth := 1%float;
        PaneWidget.moveTo := {| pt_x := 57%float; pt_y := 50%float |};
        PaneWidget.lineTo := {| pt_x := 150%float; pt_y := 50%float |} |}
     (PaneWidget._drawTrendlines None Samples.chart (Samples.paneWidget [Samples.nearAnchor]))
  /\ exists state firstValue id trendline,
       PaneWidget._state (Samples.paneWidget [Samples.nearAnchor]) = Some state
       /\ PriceScale.firstValue (Pane.defaultPriceScale (Pane.scales state)) = Some firstValue
       /\ In (id, trendline) [Samples.nearAnchor]
       /\ PaneWidget._convertTimeAndPriceToCoordinates
            (Trendline.time (Trendline.point1 (Trendline._data trendline)))
            (Trendline.value (Trendline.point1 (Trendline._data trendline)))
            (ChartModel.timeScale Samples.chart)
            (Pane.defaultPriceScale (Pane.scales state)) firstValue
          = Some {| pt_x := 57%float; pt_y := 50%float |}.
Proof.
  assert (H : In {| PaneWidget.space := PaneWidget.BitmapCoordinateSpace;
                    PaneWidget.strokeStyle := "#2196F3";
                    PaneWidget.lineWidth := 1%float;
                    PaneWidget.moveTo := {| pt_x := 57%float; pt_y := 50%float |};
                    PaneWidget.lineTo := {| pt_x := 150%float; pt_y := 50%float |} |}
                (PaneWidget._drawTrendlines None Samples.chart
                   (Samples.paneWidget [Samples.nearAnchor])))
    by (vm_compute; left; reflexivity).
  split; [exact H|].
  destruct (trendline_strokes_are_unscaled_media_pixels _ _ _ _ H)
    as (state & firstValue & id & trendline & Hs & Hfv & Hin & _ & H1 & _).
  exists state, firstValue, id, trendline. repeat split; assumption.
Defined.

(* ------------------------------------------------------------------ *)
(** ** The RSI indicator *)

Section RSIValues.

Import Completion.

Lemma length_priceChanges (priceData : list RSI.PriceData) :
  List.length (RSI.priceChanges priceData) = pred (List.length priceData).
Proof.
  induction priceData as [|previous rest IH]; [reflexivity|].
  destruct rest as [|current rest']; [reflexivity|].
  change (RSI.priceChanges (previous :: current :: rest'))
    with ((RSI.close current - RSI.close previous)%float :: RSI.priceChanges (current :: rest')).
  cbn [List.length pred] in *. rewrite IH. reflexivity.
Qed.

Lemma map_snd_combine {A B} (l : list A) (l' : list B) :
  List.length l = List.length l' -> map snd (combine l l') = l'.
Proof.
  revert l'. induction l as [|a l IH]; intros [|b l'] Hlen; try discriminate; [reflexivity|].
  cbn. f_equal. apply IH. now injection Hlen.
Qed.

Lemma times_smoothed (period avgGain avgLoss : float) (rest : list (float * RSI.PriceData)) :
  map RSI.time (RSI.smoothed period avgGain avgLoss rest) =
  map RSI.pd_time (map snd rest).
Proof.
  revert avgGain avgLoss. induction rest as [|[change point] rest IH]; intros avgGain avgLoss;
    [reflexivity|].
  cbn [RSI.smoothed]. destruct (Js.gt change 0); cbn [map snd RSI.time]; now rewrite IH.
Qed.

Lemma skipn_tl {A} (n : nat) (l : list A) (x : A) :
  nth_error l n = Some x -> skipn n l = x :: skipn n (tl l).
Proof.
  revert l. induction n as [|n IH]; intros [|a l] Hx; try discriminate.
  - now injection Hx as ->.
  - cbn [nth_error] in Hx. cbn [skipn tl]. rewrite (IH l Hx).
    destruct l as [|b l]; [destruct n; discriminate|]. reflexivity.
Qed.

Lemma getLastValue_none (values : list RSI.RSIData) (this : RSI.RSIIndicator) :
  RSI.getLastValue (RSI.set_data values this) = None <-> values = [].
Proof.
  unfold RSI.getLastValue, RSI.set_data. cbn [RSI._data]. split.
  - intros H. destruct (rev values) as [|last l] eqn:Hrev; [|discriminate].
    apply (f_equal (@rev _)) in Hrev. now rewrite rev_involutive in Hrev.
  - now intros ->.
Qed.

Lemma indexNumber_whole {A} (l : list A) (x : float) (a : A) :
  Js.indexNumber l x = Some a ->
  exists n, Js.wholeNumber x = Some n /\ (0 <= n < Z.of_nat (List.length l))%Z /\
            nth_error l (Z.to_nat n) = Some a.
Proof.
  unfold Js.indexNumber, Js.index. destruct (Js.wholeNumber x) as [n|]; [|discriminate].
  destruct (Z.ltb_spec n (Z.of_nat (List.length l))) as [Hlt|_]; [|discriminate].
  destruct (Z.ltb_spec n 0) as [_|Hle]; [discriminate|].
  intros Ha. exists n. repeat split; assumption.
Qed.

(** What [calculate] does, by the two tests it makes. *)
Lemma calculate_outcome (priceData : list RSI.PriceData) (this : RSI.RSIIndicator) :
  let period := RSI.period (RSI._options this) in
  if Js.lt (RSI.numberOf (Z.of_nat (List.length priceData))) (period + 1)
  then RSI.calculate priceData this = (Normal [], RSI.set_data [] this)
  else match Js.indexNumber priceData period with
       | None => RSI.calculate priceData this = (Throw (MkError "TypeError"), this)
       | Some first =>
           exists n values,
             Js.wholeNumber period = Some n /\
             (0 <= n < Z.of_nat (List.length priceData))%Z /\
             RSI.calculate priceData this = (Normal values, RSI.set_data values this) /\
             map RSI.time values = map RSI.pd_time (skipn (Z.to_nat n) priceData) /\
             values <> []
       end.
Proof.
  intros period. unfold RSI.calculate. fold period.
  destruct (Js.lt _ _); [reflexivity|].
  destruct (RSI.sumFirst _ _ _ _) as [gains losses].
  destruct (Js.indexNumber priceData period) as [first|] eqn:Hfirst.
  - destruct (indexNumber_whole _ _ Hfirst) as (n & Hn & Hrange & Hnth).
    rewrite Hn. exists n. eexists. split; [reflexivity|]. split; [exact Hrange|].
    split; [reflexivity|]. split; [|discriminate].
    cbn [map RSI.time]. rewrite times_smoothed, (skipn_tl _ _ Hnth).
    cbn [map]. f_equal. rewrite <- skipn_map, map_snd_combine; [reflexivity|].
    rewrite length_priceChanges. now destruct priceData.
  - now destruct (Js.wholeNumber period).
Qed.

(** [calculate] never touches the options, and a call that throws
    leaves the values too. *)
Lemma calculate_options (priceData : list RSI.PriceData) (this : RSI.RSIIndicator) :
  RSI._options (snd (RSI.calculate priceData this)) = RSI._options this.
Proof.
  pose proof (calculate_outcome priceData this) as H. cbv zeta in H.
  destruct (Js.lt _ _); [now rewrite H|].
  destruct (Js.indexNumber _ _); [|now rewrite H].
  destruct H as (n & values & _ & _ & -> & _). reflexivity.
Qed.

Lemma calculate_throw (priceData : list RSI.PriceData) (this : RSI.RSIIndicator) :
  isThrow (fst (RSI.calculate priceData this)) = true <->
  Js.lt (RSI.numberOf (Z.of_nat (List.length priceData)))
        (RSI.period (RSI._options this) + 1) = false /\
  Js.indexNumber priceData (RSI.period (RSI._options this)) = None.
Proof.
  pose proof (calculate_outcome priceData this) as H. cbv zeta in H.
  destruct (Js.lt _ _).
  - rewrite H. cbn. split; [discriminate|]. now intros [? _].
  - destruct (Js.indexNumber _ _).
    + destruct H as (n & values & _ & _ & -> & _). cbn. split; [discriminate|].
      now intros [_ ?].
    + rewrite H. cbn. now split.
Qed.

Lemma calculate_throw_unchanged (priceData : list RSI.PriceData) (this : RSI.RSIIndicator) :
  isThrow (fst (RSI.calculate priceData this)) = true ->
  snd (RSI.calculate priceData this) = this.
Proof.
  pose proof (calculate_outcome priceData this) as H. cbv zeta in H.
  destruct (Js.lt _ _); [now rewrite H|].
  destruct (Js.indexNumber _ _); [|now rewrite H].
  destruct H as (n & values & _ & _ & -> & _). discriminate.
Qed.

(** X18.  [calculate], for every period, a fraction or a negative one
    included.  When the test [priceData.length < period + 1] holds, it
    returns the empty list and empties the stored values, so
    [getLastValue] answers [null].  When the test fails and [period] is
    the index [n] of a price point, it returns normally, stores what it
    returns, and gives one value for each price point from index [n]
    on, with the time of that point: the first [n] points get none, and
    [getLastValue] answers a number. *)
Theorem calculate_one_value_per_later_point :
  forall (priceData : list RSI.PriceData) (this : RSI.RSIIndicator),
    let period := RSI.period (RSI.options this) in
    let tooShort :=
      Js.lt (RSI.numberOf (Z.of_nat (List.length priceData))) (period + 1) in
    (tooShort = true ->
     RSI.calculate priceData this = (Normal [], RSI.set_data [] this) /\
     RSI.getLastValue (RSI.set_data [] this) = None) /\
    (tooShort = false ->
     forall first : RSI.PriceData,
       Js.indexNumber priceData period = Some first ->
       exists (n : Z) (values : list RSI.RSIData),
         Js.wholeNumber period = Some n /\
         (0 <= n < Z.of_nat (List.length priceData))%Z /\
         RSI.calculate priceData this = (Normal values, RSI.set_data values this) /\
         map RSI.time values = map RSI.pd_time (skipn (Z.to_nat n) priceData) /\
         RSI.getLastValue (RSI.set_data values this) <> None).
Proof.
  intros priceData this period tooShort. unfold RSI.options in *.
  pose proof (calculate_outcome priceData this) as H. cbv zeta in H.
  fold period in H. fold tooShort in H. split.
  - intros Hshort. rewrite Hshort in H. split; [exact H|reflexivity].
  - intros Hlong first Hfirst. rewrite Hlong, Hfirst in H.
    destruct H as (n & values & Hn & Hrange & Hcalc & Htimes & Hvalues).
    exists n, values. repeat (split; [assumption|]).
    now rewrite getLastValue_none.
Qed.

Lemma calculate_one_value_per_later_point_witness :
  (exists values : list RSI.RSIData,
     RSI.calculate Samples.fifteenCloses (RSI.new None) =
       (Normal values, RSI.set_data values (RSI.new None)) /\
     map RSI.time values = [15%float] /\
     RSI.getLastValue (RSI.set_data values (RSI.new None)) <> None) /\
  RSI.calculate [] (Samples.withPeriod (-0.5)) =
    (Normal [], RSI.set_data [] (Samples.withPeriod (-0.5))).
Proof.
  split.
  - destruct (calculate_one_value_per_later_point Samples.fifteenCloses (RSI.new None))
      as [_ Hlong].
    destruct (Hlong eq_refl {| RSI.pd_time := 15; RSI.close := 46.75 |} eq_refl)
      as (n & values & Hn & _ & Hcalc & Htimes & Hlast).
    exists values. split; [exact Hcalc|]. split; [|exact Hlast].
    rewrite Htimes. injection Hn as <-. reflexivity.
  - destruct (calculate_one_value_per_later_point [] (Samples.withPeriod (-0.5)))
      as [Hshort _].
    exact (proj1 (Hshort eq_refl)).
Defined.

(** X19.  [calculate] throws exactly when the test
    [priceData.length < period + 1] fails and [period] is not the index
    of a price point, as with a period of 2.5 and four prices, or a
    period of -1 and fifteen.  A call that throws leaves the indicator
    as it was: the values of an earlier calculation stay. *)
Theorem calculate_throws_when_period_is_no_index :
  forall (priceData : list RSI.PriceData) (this : RSI.RSIIndicator),
    let period := RSI.period (RSI.options this) in
    (isThrow (fst (RSI.calculate priceData this)) = true <->
     Js.lt (RSI.numberOf (Z.of_nat (List.length priceData))) (period + 1) = false /\
     Js.indexNumber priceData period = None) /\
    (isThrow (fst (RSI.calculate priceData this)) = true ->
     snd (RSI.calculate priceData this) = this).
Proof.
  intros priceData this period. split.
  - apply calculate_throw.
  - apply calculate_throw_unchanged.
Qed.

Lemma calculate_throws_when_period_is_no_index_witness :
  isThrow (fst (RSI.calculate Samples.fourCloses Samples.fractionalRSI)) = true /\
  snd (RSI.calculate Samples.fourCloses Samples.fractionalRSI) = Samples.fractionalRSI /\
  isThrow (fst (RSI.calculate Samples.fifteenCloses Samples.backwardsRSI)) = true.
Proof.
  destruct (calculate_throws_when_period_is_no_index Samples.fourCloses Samples.fractionalRSI)
    as [Hiff Hsame].
  assert (Hthrow : isThrow (fst (RSI.calculate Samples.fourCloses Samples.fractionalRSI))
                   = true) by (apply Hiff; split; reflexivity).
  split; [exact Hthrow|]. split; [exact (Hsame Hthrow)|].
  apply (calculate_throws_when_period_is_no_index Samples.fifteenCloses Samples.backwardsRSI).
  split; reflexivity.
Defined.

End RSIValues.

(* ------------------------------------------------------------------ *)
(** ** The indicator manager *)

Section IndicatorIds.

Import Completion IndicatorManager Indicators.

Variables PaneT SeriesT H : Type.
Variable _callbacks : IndicatorManagerCallbacks PaneT SeriesT H.
Variable series_applyOptions : SeriesT -> SeriesOptions -> M H unit.
Variable series_setData : SeriesT -> list Row -> SetDataInfo -> M H unit.
Variable toFixed : float -> Z -> string.

Local Abbreviation State := (IndicatorManager.t PaneT SeriesT H) (only parsing).
Local Abbreviation addRSI' :=
  (addRSI _callbacks series_applyOptions series_setData toFixed) (only parsing).
Local Abbreviation perform' :=
  (perform _callbacks series_applyOptions series_setData toFixed) (only parsing).
Local Abbreviation performAll' :=
  (performAll _callbacks series_applyOptions series_setData toFixed) (only parsing).

Lemma Z_toString_inj (a b : Z) :
  ChartModel.Z_toString a = ChartModel.Z_toString b -> a = b.
Proof.
  unfold ChartModel.Z_toString. intros Hs.
  assert (Hnorm : forall z, Z.to_int z <> Decimal.Pos Decimal.Nil /\
                            Z.to_int z <> Decimal.Neg Decimal.Nil).
  { intros [|p|p]; cbn [Z.to_int]; split; try discriminate;
      intros Hd; injection Hd as Hd; exact (DecimalPos.Unsigned.to_uint_nonnil p Hd). }
  apply (f_equal NilZero.int_of_string) in Hs.
  rewrite !NilZero.isi in Hs by apply Hnorm.
  injection Hs as Hs. now apply DecimalZ.to_int_inj.
Qed.

Lemma idOf_inj (a b : Z) : idOf a = idOf b -> a = b.
Proof.
  unfold idOf. cbn [String.append]. intros Hs. injection Hs as Hs. now apply Z_toString_inj.
Qed.


Lemma JsMap_has_set {V} (m : JsMap.t V) (k k' : string) (v : V) :
  JsMap.has (JsMap.set m k v) k' = true -> k' = k \/ JsMap.has m k' = true.
Proof.
  destruct (String.eqb_spec k' k) as [->|Hne]; [now left|].
  unfold JsMap.has. rewrite (JsMap_get_set_other m v Hne). now right.
Qed.

Lemma JsMap_has_delete {V} (m : JsMap.t V) (k k' : string) :
  JsMap.has (JsMap.delete m k) k' = true -> JsMap.has m k' = true.
Proof.
  unfold JsMap.has. induction m as [|[k0 v0] m IH]; cbn; [discriminate|].
  destruct (String.eqb k0 k) eqn:E; cbn.
  - destruct (String.eqb k0 k'); [reflexivity|]. trivial.
  - destruct (String.eqb k0 k'); [reflexivity|exact IH].
Qed.

Lemma JsMap_uniqueKeys_set {V} (m : JsMap.t V) (k : string) (v : V) :
  JsMap.uniqueKeys m = true -> JsMap.uniqueKeys (JsMap.set m k v) = true.
Proof.
  induction m as [|[k0 v0] m IH]; cbn; [reflexivity|].
  intros Hu. apply andb_prop in Hu. destruct Hu as [Hfresh Hu].
  destruct (String.eqb k0 k) eqn:E; cbn.
  - now rewrite Hfresh, Hu.
  - rewrite (IH Hu), andb_true_r.
    destruct (JsMap.has (JsMap.set m k v) k0) eqn:Hhas; [|reflexivity].
    apply JsMap_has_set in Hhas. destruct Hhas as [->|Hhas].
    + now rewrite String.eqb_refl in E.
    + now rewrite Hhas in Hfresh.
Qed.

Lemma JsMap_uniqueKeys_delete {V} (m : JsMap.t V) (k : string) :
  JsMap.uniqueKeys m = true -> JsMap.uniqueKeys (JsMap.delete m k) = true.
Proof.
  induction m as [|[k0 v0] m IH]; cbn; [reflexivity|].
  intros Hu. apply andb_prop in Hu. destruct Hu as [Hfresh Hu].
  destruct (String.eqb k0 k) eqn:E; cbn; [exact Hu|].
  rewrite (IH Hu), andb_true_r.
  destruct (JsMap.has (JsMap.delete m k) k0) eqn:Hhas; [|reflexivity].
  apply JsMap_has_delete in Hhas. now rewrite Hhas in Hfresh.
Qed.

Ltac simplManager :=
  unfold set_nextId, set_chart, set_indicators; cbn [chart _indicators _nextId fst snd].

(** What a call of [addRSI] does to the manager, however the callbacks
    end. *)
Lemma addRSI_effect (mainSeriesData : list RSI.PriceData)
    (createPaneCallback : M H PaneT)
    (createSeriesCallback : PaneT -> SeriesKind -> M H SeriesT) (this : State) :
  let result := addRSI' mainSeriesData createPaneCallback createSeriesCallback this in
  _nextId (snd result) = (_nextId this + 1)%Z /\
  ((isThrow (fst result) = true /\
    (_indicators (snd result) = _indicators this \/
     exists p : IndicatorPane PaneT SeriesT,
       _indicators (snd result) = JsMap.set (_indicators this) (idOf (_nextId this)) p)) \/
   (fst result = Normal (idOf (_nextId this)) /\
    exists p : IndicatorPane PaneT SeriesT,
      _indicators (snd result) = JsMap.set (_indicators this) (idOf (_nextId this)) p /\
      IndicatorManager.id p = idOf (_nextId this) /\ type p = RSI)).
Proof.
  unfold addRSI, onChart. fold (idOf (_nextId this)).
  destruct this as [indicators nextId chart0].
  cbv [bind gets exec lift ret]. cbv beta iota. simplManager.
  destruct (RSI.calculate mainSeriesData (RSI.new None)) as [[rsiData|e] rsi]; cbv beta iota;
    simplManager;
    [|split; [reflexivity|left; split; [reflexivity|now left]]].
  destruct (createPaneCallback chart0) as [[pane0|e] chart1]; cbv beta iota;
    simplManager;
    [|split; [reflexivity|left; split; [reflexivity|now left]]].
  destruct (createSeriesCallback pane0 Line chart1) as [[series0|e] chart2]; cbv beta iota;
    simplManager;
    [|split; [reflexivity|left; split; [reflexivity|now left]]].
  destruct (series_applyOptions series0 _ chart2) as [[[]|e] chart3]; cbv beta iota;
    simplManager;
    [|split; [reflexivity|left; split; [reflexivity|now left]]].
  match goal with
  | |- context [if ?c then _ else _] => destruct c
  end; cbv beta iota; simplManager.
  - destruct (series_setData series0 _ _ chart3) as [[[]|e] chart4]; cbv beta iota;
      simplManager;
      [|split; [reflexivity|left; split; [reflexivity|now left]]].
    destruct (onIndicatorAdded _callbacks _ chart4) as [[[]|e] chart5]; cbv beta iota;
      simplManager.
    + split; [reflexivity|right; split; [reflexivity|eexists; repeat split]].
    + split; [reflexivity|left; split; [reflexivity|right; eexists; reflexivity]].
  - destruct (onIndicatorAdded _callbacks _ chart3) as [[[]|e] chart5]; cbv beta iota;
      simplManager.
    + split; [reflexivity|right; split; [reflexivity|eexists; repeat split]].
    + split; [reflexivity|left; split; [reflexivity|right; eexists; reflexivity]].
Qed.

Lemma removeIndicator_effect (id : string) (this : State) :
  let result := removeIndicator _callbacks id this in
  _nextId (snd result) = _nextId this /\
  match JsMap.get (_indicators this) id with
  | None => result = (Normal false, this)
  | Some _ =>
      _indicators (snd result) = JsMap.delete (_indicators this) id /\
      fst result <> Normal false
  end.
Proof.
  unfold removeIndicator, onChart. destruct this as [indicators nextId chart0].
  cbv [bind gets exec lift ret]. cbv beta iota. simplManager.
  destruct (JsMap.get indicators id) as [p|]; [|split; reflexivity].
  simplManager.
  destruct (onIndicatorRemoved _callbacks id chart0) as [[[]|e] chart1]; cbv beta iota;
    simplManager; repeat split; discriminate.
Qed.

Lemma updateIndicator_effect (id : string) (newData : list RSI.PriceData) (this : State) :
  let result := updateIndicator _callbacks series_setData id newData this in
  _nextId (snd result) = _nextId this /\
  match JsMap.get (_indicators this) id with
  | None => result = (Normal tt, this)
  | Some p =>
      match type p with
      | RSI =>
          _indicators (snd result) =
            JsMap.set (_indicators this) id
              (set_indicator (snd (RSI.calculate newData (indicator p))) p)
      | _ => result = (Normal tt, this)
      end
  end.
Proof.
  unfold updateIndicator, onChart. destruct this as [indicators nextId chart0].
  cbv [bind gets exec lift ret]. cbv beta iota. simplManager.
  destruct (JsMap.get indicators id) as [p|]; [|split; reflexivity].
  destruct (type p); [|split; reflexivity..].
  destruct (RSI.calculate newData (indicator p)) as [[rsiData|e] rsi]; cbv beta iota;
    simplManager; [|split; reflexivity].
  match goal with
  | |- context [if ?c then _ else _] => destruct c
  end; cbv beta iota; simplManager.
  - destruct (series_setData (series p) _ _ chart0) as [[[]|e] chart1]; cbv beta iota;
      simplManager; [|split; reflexivity].
    destruct (onIndicatorUpdated _callbacks id chart1) as [c chart2]; split; reflexivity.
  - destruct (onIndicatorUpdated _callbacks id chart0) as [c chart2]; split; reflexivity.
Qed.

Lemma perform_nextId (this : State) (call : Call PaneT SeriesT H) :
  (_nextId this <= _nextId (perform' this call))%Z.
Proof.
  destruct call as [data cp cs|id|id data|]; cbn [perform].
  - destruct (addRSI_effect data cp cs this) as [Hn _]. cbv zeta in Hn. lia.
  - destruct (removeIndicator_effect id this) as [Hn _]. cbv zeta in Hn. lia.
  - destruct (updateIndicator_effect id data this) as [Hn _]. cbv zeta in Hn. lia.
  - cbn. lia.
Qed.

Lemma performAll_nextId (calls : list (Call PaneT SeriesT H)) (this : State) :
  (_nextId this <= _nextId (performAll' calls this))%Z.
Proof.
  revert this. induction calls as [|call calls IH]; intros this; cbn [performAll fold_left];
    [lia|].
  etransitivity; [apply (perform_nextId this call)|apply IH].
Qed.

Lemma numbered_set (this this' : State) (n : Z) (p : IndicatorPane PaneT SeriesT) :
  numbered this -> (1 <= n < _nextId this')%Z -> (_nextId this <= _nextId this')%Z ->
  _indicators this' = JsMap.set (_indicators this) (idOf n) p ->
  numbered this'.
Proof.
  intros Hnum Hn Hle Hset key Hkey. rewrite Hset in Hkey.
  apply JsMap_has_set in Hkey. destruct Hkey as [->|Hkey].
  - now exists n.
  - destruct (Hnum key Hkey) as (m & -> & Hm). exists m. split; [reflexivity|lia].
Qed.

Lemma numbered_same (this this' : State) :
  numbered this -> (_nextId this <= _nextId this')%Z ->
  (forall key, JsMap.has (_indicators this') key = true ->
               JsMap.has (_indicators this) key = true) ->
  numbered this'.
Proof.
  intros Hnum Hle Hsub key Hkey.
  destruct (Hnum key (Hsub key Hkey)) as (m & -> & Hm). exists m. split; [reflexivity|lia].
Qed.

Lemma perform_numbered (this : State) (call : Call PaneT SeriesT H) :
  (1 <= _nextId this)%Z -> numbered this -> numbered (perform' this call).
Proof.
  intros Hpos Hnum. destruct call as [data cp cs|id|id data|]; cbn [perform].
  - destruct (addRSI_effect data cp cs this) as [Hn Hcases]. cbv zeta in Hn, Hcases.
    destruct Hcases as [[_ [Hsame|[p Hset]]]|[_ (p & Hset & _)]].
    + eapply numbered_same; [exact Hnum|lia|]. now rewrite Hsame.
    + eapply numbered_set; [exact Hnum| |lia|exact Hset]; lia.
    + eapply numbered_set; [exact Hnum| |lia|exact Hset]; lia.
  - destruct (removeIndicator_effect id this) as [Hn Hcases]. cbv zeta in Hn, Hcases.
    destruct (JsMap.get (_indicators this) id) as [p|].
    + destruct Hcases as [Hdel _]. eapply numbered_same; [exact Hnum|lia|].
      rewrite Hdel. intros key. apply JsMap_has_delete.
    + now rewrite Hcases.
  - destruct (updateIndicator_effect id data this) as [Hn Hcases]. cbv zeta in Hn, Hcases.
    destruct (JsMap.get (_indicators this) id) as [p|] eqn:Hp; [|now rewrite Hcases].
    destruct (type p); [|now rewrite Hcases..].
    eapply numbered_same; [exact Hnum|lia|]. rewrite Hcases. intros key Hkey.
    apply JsMap_has_set in Hkey. destruct Hkey as [->|Hkey]; [|exact Hkey].
    unfold JsMap.has. now rewrite Hp.
  - intros key Hkey. discriminate Hkey.
Qed.

Lemma performAll_numbered (calls : list (Call PaneT SeriesT H)) (this : State) :
  (1 <= _nextId this)%Z -> numbered this -> numbered (performAll' calls this).
Proof.
  revert this. induction calls as [|call calls IH]; intros this Hpos Hnum;
    cbn [performAll fold_left]; [exact Hnum|].
  apply IH; [|now apply perform_numbered].
  pose proof (perform_nextId this call). lia.
Qed.

Lemma perform_uniqueKeys (this : State) (call : Call PaneT SeriesT H) :
  JsMap.uniqueKeys (_indicators this) = true ->
  JsMap.uniqueKeys (_indicators (perform' this call)) = true.
Proof.
  intros Hu. destruct call as [data cp cs|id|id data|]; cbn [perform].
  - destruct (addRSI_effect data cp cs this) as [_ Hcases]. cbv zeta in Hcases.
    destruct Hcases as [[_ [Hsame|[p Hset]]]|[_ (p & Hset & _)]].
    + now rewrite Hsame.
    + rewrite Hset. now apply JsMap_uniqueKeys_set.
    + rewrite Hset. now apply JsMap_uniqueKeys_set.
  - destruct (removeIndicator_effect id this) as [_ Hcases]. cbv zeta in Hcases.
    destruct (JsMap.get (_indicators this) id) as [p|].
    + destruct Hcases as [Hdel _]. rewrite Hdel. now apply JsMap_uniqueKeys_delete.
    + now rewrite Hcases.
  - destruct (updateIndicator_effect id data this) as [_ Hcases]. cbv zeta in Hcases.
    destruct (JsMap.get (_indicators this) id) as [p|]; [|now rewrite Hcases].
    destruct (type p); [|now rewrite Hcases..].
    rewrite Hcases. now apply JsMap_uniqueKeys_set.
  - reflexivity.
Qed.

Lemma performAll_uniqueKeys (calls : list (Call PaneT SeriesT H)) (this : State) :
  JsMap.uniqueKeys (_indicators this) = true ->
  JsMap.uniqueKeys (_indicators (performAll' calls this)) = true.
Proof.
  revert this. induction calls as [|call calls IH]; intros this Hu;
    cbn [performAll fold_left]; [exact Hu|].
  apply IH. now apply perform_uniqueKeys.
Qed.

Lemma numbered_new (chart0 : H) : numbered (IndicatorManager.new PaneT SeriesT chart0).
Proof. intros key Hkey. discriminate Hkey. Qed.

(** X20.  [addRSI] never gives out an id twice: whatever is added,
    removed, updated or cleared after an indicator got its id, and
    however the callbacks end, a later [addRSI] that returns answers
    another id, one under which nothing is stored before the call, and
    under which the new RSI entry is stored after it. *)
Theorem addRSI_ids_are_never_reused :
  forall (chart0 : H) (before between : list (Call PaneT SeriesT H))
         (data1 data2 : list RSI.PriceData)
         (createPane1 createPane2 : M H PaneT)
         (createSeries1 createSeries2 : PaneT -> SeriesKind -> M H SeriesT)
         (id1 id2 : string) (this1 this2 : State),
    addRSI' data1 createPane1 createSeries1
            (performAll' before (IndicatorManager.new PaneT SeriesT chart0))
      = (Normal id1, this1) ->
    addRSI' data2 createPane2 createSeries2 (performAll' between this1)
      = (Normal id2, this2) ->
    id2 <> id1 /\
    getIndicator id2 (performAll' between this1) = None /\
    exists p, getIndicator id2 this2 = Some p /\
              IndicatorManager.id p = id2 /\ type p = RSI.
Proof.
  intros chart0 before between data1 data2 cp1 cp2 cs1 cs2 id1 id2 this1 this2 Hadd1 Hadd2.
  set (this0 := performAll' before (IndicatorManager.new PaneT SeriesT chart0)) in *.
  set (thisB := performAll' between this1) in *.
  assert (Hpos0 : (1 <= _nextId this0)%Z).
  { pose proof (performAll_nextId before (IndicatorManager.new PaneT SeriesT chart0)) as Hle.
    cbn in Hle. exact Hle. }
  assert (Hnum0 : numbered this0)
    by (apply performAll_numbered; [cbn; lia|apply numbered_new]).
  destruct (addRSI_effect data1 cp1 cs1 this0) as [Hn1 Hcases1]. cbv zeta in Hn1, Hcases1.
  assert (Hnum1 : numbered this1).
  { change this1 with (snd (Normal id1, this1)). rewrite <- Hadd1.
    exact (@perform_numbered this0 (AddRSI data1 cp1 cs1) Hpos0 Hnum0). }
  rewrite Hadd1 in Hn1, Hcases1. cbn [fst snd] in Hn1, Hcases1.
  destruct Hcases1 as [[Hthrow _]|[Hid1 _]]; [discriminate|]. injection Hid1 as ->.
  assert (HleB : (_nextId this1 <= _nextId thisB)%Z) by apply performAll_nextId.
  assert (HnumB : numbered thisB) by (apply performAll_numbered; [lia|exact Hnum1]).
  destruct (addRSI_effect data2 cp2 cs2 thisB) as [Hn2 Hcases2]. cbv zeta in Hn2, Hcases2.
  rewrite Hadd2 in Hn2, Hcases2. cbn [fst snd] in Hn2, Hcases2.
  destruct Hcases2 as [[Hthrow _]|[Hid2 (p & Hset & Hp & Htype)]]; [discriminate|].
  injection Hid2 as ->. split; [|split].
  - intros Heq. apply idOf_inj in Heq. lia.
  - unfold getIndicator. destruct (JsMap.get (_indicators thisB) _) as [q|] eqn:Hq;
      [|reflexivity].
    destruct (HnumB (idOf (_nextId thisB))) as (n & Heq & Hlt).
    { unfold JsMap.has. now rewrite Hq. }
    apply idOf_inj in Heq. lia.
  - exists p. unfold getIndicator. rewrite Hset, JsMap_get_set_same. now repeat split.
Qed.

(** X21.  After any run of calls on a new manager, [removeIndicator]
    leaves nothing under the id, whether its callback returns or throws.
    It answers [false] exactly when nothing was stored under the id,
    and then neither the manager nor the chart has changed. *)
Theorem removed_indicator_is_gone :
  forall (chart0 : H) (calls : list (Call PaneT SeriesT H)) (id : string),
    let this := performAll' calls (IndicatorManager.new PaneT SeriesT chart0) in
    let result := removeIndicator _callbacks id this in
    getIndicator id (snd result) = None /\
    (fst result = Normal false <-> getIndicator id this = None) /\
    (getIndicator id this = None -> snd result = this).
Proof.
  intros chart0 calls id this result.
  assert (Hu : JsMap.uniqueKeys (_indicators this) = true)
    by (apply performAll_uniqueKeys; reflexivity).
  destruct (removeIndicator_effect id this) as [_ Hcases]. cbv zeta in Hcases.
  fold result in Hcases. unfold getIndicator.
  destruct (JsMap.get (_indicators this) id) as [p|] eqn:Hp.
  - destruct Hcases as [Hdel Hfalse]. rewrite Hdel. split; [|split].
    + now apply JsMap_get_delete_same.
    + split; [intros Hr; now elim Hfalse|discriminate].
    + discriminate.
  - rewrite Hcases. cbn [fst snd]. rewrite Hp. repeat split; reflexivity.
Qed.

(** X22.  [updateIndicator] on a stored RSI entry, for every period and
    however the calls into the chart end: the entry keeps its id, pane,
    series, height and options, and its indicator is the one that
    [calculate] on the new prices leaves.  When [calculate] throws, the
    exception leaves [updateIndicator] before any call into the chart,
    and the values of the indicator stay.  When [calculate] returns no
    value, the series is given no rows: the chart only sees
    [onIndicatorUpdated]. *)
Theorem updateIndicator_recalculates :
  forall (this : State) (id : string) (newData : list RSI.PriceData)
         (p : IndicatorPane PaneT SeriesT),
    getIndicator id this = Some p ->
    type p = RSI ->
    let calculated := RSI.calculate newData (indicator p) in
    let result := updateIndicator _callbacks series_setData id newData this in
    (exists p',
       getIndicator id (snd result) = Some p' /\
       IndicatorManager.id p' = IndicatorManager.id p /\ type p' = RSI /\
       pane p' = pane p /\ series p' = series p /\ height p' = height p /\
       indicator p' = snd calculated /\
       RSI.options (indicator p') = RSI.options (indicator p)) /\
    (forall e, fst calculated = Throw e ->
       fst result = Throw e /\ chart (snd result) = chart this /\
       snd calculated = indicator p) /\
    (fst calculated = Normal [] ->
     fst result = fst (onIndicatorUpdated _callbacks id (chart this)) /\
     chart (snd result) = snd (onIndicatorUpdated _callbacks id (chart this))).
Proof.
  intros this id newData p Hp Htype calculated result.
  assert (Hentry : _indicators (snd result) =
                   JsMap.set (_indicators this) id (set_indicator (snd calculated) p)).
  { destruct (updateIndicator_effect id newData this) as [_ Hcases]. cbv zeta in Hcases.
    unfold getIndicator in Hp. rewrite Hp, Htype in Hcases. exact Hcases. }
  split; [|split].
  - exists (set_indicator (snd calculated) p).
    unfold getIndicator. rewrite Hentry, JsMap_get_set_same.
    repeat split; [exact Htype|]. apply calculate_options.
  - intros e He.
    assert (Hsame : snd calculated = indicator p).
    { apply calculate_throw_unchanged. fold calculated. now rewrite He. }
    split; [|split; [|exact Hsame]].
    + subst result. unfold updateIndicator, onChart, getIndicator in *.
      destruct this as [indicators nextId chart0].
      cbv [bind gets exec lift ret]. cbv beta iota. simplManager. cbn [_indicators] in Hp.
      rewrite Hp, Htype. fold calculated.
      destruct calculated as [c rsi']. cbn [fst] in He. subst c. reflexivity.
    + subst result. unfold updateIndicator, onChart, getIndicator in *.
      destruct this as [indicators nextId chart0].
      cbv [bind gets exec lift ret]. cbv beta iota. simplManager. cbn [_indicators] in Hp.
      rewrite Hp, Htype. fold calculated.
      destruct calculated as [c rsi']. cbn [fst] in He. subst c. reflexivity.
  - intros Hempty.
    subst result. unfold updateIndicator, onChart, getIndicator in *.
    destruct this as [indicators nextId chart0].
    cbv [bind gets exec lift ret]. cbv beta iota. simplManager. cbn [_indicators] in Hp.
    rewrite Hp, Htype. fold calculated.
    destruct calculated as [c rsi']. cbn [fst] in Hempty. subst c. cbv beta iota. simplManager.
    cbn [mapi mapi_from List.length Z.of_nat Z.ltb Z.compare]. cbv beta iota. simplManager.
    destruct (onIndicatorUpdated _callbacks id chart0) as [c chart1]. split; reflexivity.
Qed.

End IndicatorIds.

Section IndicatorExamples.

Import Completion IndicatorManager Indicators.

Local Abbreviation sampleAddRSI :=
  (addRSI Samples.journalCallbacks Samples.journalApplyOptions Samples.journalSetData
          Samples.toFixed) (only parsing).
Local Abbreviation samplePerformAll :=
  (performAll Samples.journalCallbacks Samples.journalApplyOptions Samples.journalSetData
              Samples.toFixed) (only parsing).

Lemma addRSI_ids_are_never_reused_witness :
  sampleAddRSI Samples.fifteenCloses Samples.createPane Samples.createSeries
    (samplePerformAll [] (IndicatorManager.new unit unit []))
    = (Normal "RSI_1"%string, Samples.oneRSI) /\
  sampleAddRSI Samples.fifteenCloses Samples.createPane Samples.createSeries
    (samplePerformAll [RemoveIndicator unit unit Samples.Journal "RSI_1"] Samples.oneRSI)
    = (Normal "RSI_2"%string, Samples.secondRSI) /\
  "RSI_2"%string <> "RSI_1"%string /\
  getIndicator "RSI_2"
    (samplePerformAll [RemoveIndicator unit unit Samples.Journal "RSI_1"] Samples.oneRSI)
    = None /\
  exists p, getIndicator "RSI_2" Samples.secondRSI = Some p /\
            IndicatorManager.id p = "RSI_2"%string /\ type p = RSI.
Proof.
  assert (H1 : sampleAddRSI Samples.fifteenCloses Samples.createPane Samples.createSeries
                 (samplePerformAll [] (IndicatorManager.new unit unit []))
               = (Normal "RSI_1"%string, Samples.oneRSI)) by (vm_compute; reflexivity).
  assert (H2 : sampleAddRSI Samples.fifteenCloses Samples.createPane Samples.createSeries
                 (samplePerformAll [RemoveIndicator unit unit Samples.Journal "RSI_1"]
                    Samples.oneRSI)
               = (Normal "RSI_2"%string, Samples.secondRSI)) by (vm_compute; reflexivity).
  split; [exact H1|]. split; [exact H2|].
  exact (@addRSI_ids_are_never_reused unit unit Samples.Journal
           Samples.journalCallbacks Samples.journalApplyOptions Samples.journalSetData
           Samples.toFixed [] [] [RemoveIndicator unit unit Samples.Journal "RSI_1"]
           Samples.fifteenCloses Samples.fifteenCloses
           Samples.createPane Samples.createPane Samples.createSeries Samples.createSeries
           "RSI_1"%string "RSI_2"%string Samples.oneRSI Samples.secondRSI H1 H2).
Defined.

Lemma updateIndicator_recalculates_witness :
  getIndicator "RSI_1" Samples.oneRSI = Some Samples.rsiEntry /\
  type Samples.rsiEntry = RSI /\
  (exists p',
     getIndicator "RSI_1"
       (snd (updateIndicator Samples.journalCallbacks Samples.journalSetData "RSI_1"
               Samples.threeCloses Samples.oneRSI)) = Some p' /\
     IndicatorManager.id p' = IndicatorManager.id Samples.rsiEntry /\ type p' = RSI /\
     pane p' = pane Samples.rsiEntry /\ series p' = series Samples.rsiEntry /\
     height p' = height Samples.rsiEntry /\
     indicator p' = snd (RSI.calculate Samples.threeCloses (indicator Samples.rsiEntry)) /\
     RSI.options (indicator p') = RSI.options (indicator Samples.rsiEntry)) /\
  fst (updateIndicator Samples.journalCallbacks Samples.journalSetData "RSI_1"
         Samples.threeCloses Samples.oneRSI)
    = fst (onIndicatorUpdated Samples.journalCallbacks "RSI_1" (chart Samples.oneRSI)) /\
  chart (snd (updateIndicator Samples.journalCallbacks Samples.journalSetData "RSI_1"
                Samples.threeCloses Samples.oneRSI))
    = snd (onIndicatorUpdated Samples.journalCallbacks "RSI_1" (chart Samples.oneRSI)).
Proof.
  assert (H1 : getIndicator "RSI_1" Samples.oneRSI = Some Samples.rsiEntry)
    by (vm_compute; reflexivity).
  assert (H2 : type Samples.rsiEntry = RSI) by reflexivity.
  split; [exact H1|]. split; [exact H2|].
  destruct (@updateIndicator_recalculates unit unit Samples.Journal
              Samples.journalCallbacks Samples.journalSetData
              Samples.oneRSI "RSI_1"%string Samples.threeCloses
              Samples.rsiEntry H1 H2) as (Hentry & _ & Hempty).
  split; [exact Hentry|]. apply Hempty. vm_compute. reflexivity.
Defined.

End IndicatorExamples.
(* ------------------------------------------------------------------ *)
(** ** Price-scale options *)

Section ScaleOptions.

Import Completion.

Variable NODE_ENV : string.

Lemma options_storePane p w : ChartModel.options (ChartModel.storePane p w) = ChartModel.options w.
Proof. reflexivity. Qed.

Lemma options_fullUpdate w : ChartModel.options (ChartModel.fullUpdate w) = ChartModel.options w.
Proof. unfold ChartModel.options. now rewrite model_fullUpdate. Qed.

(** X23.  The visibility of the right price scale is kept for the whole
    chart: setting it through the price-scale API of any one pane that
    exists returns normally, plans a redraw, and decides the side that
    [defaultVisiblePriceScaleId] answers from then on (right when
    visible, left when not), while the options of the left side and the
    auto-scale of the right side stay.  Options applied to a scale that
    is neither the left nor the right one leave the options of the chart
    as they are, whether the scale is found or not. *)
Theorem right_scale_visibility_is_chart_wide :
  forall (paneIndex : Z) (pane : Pane.t) (visible : bool) (w : ChartWidgetState.t),
    Js.index (ChartModel.panes w) paneIndex = Some pane ->
    (let result :=
       PriceScaleApi.applyOptions NODE_ENV
         (PriceScaleApi.new PriceScale.DefaultPriceScaleId_Right (Some paneIndex))
         {| PriceScale.p_autoScale := None; PriceScale.p_visible := Some visible |} w in
     fst result = Normal tt /\
     ChartModel.defaultVisiblePriceScaleId (snd result) =
       (if visible then PriceScale.DefaultPriceScaleId_Right
        else PriceScale.DefaultPriceScaleId_Left) /\
     leftPriceScale (ChartModel.options (snd result)) = leftPriceScale (ChartModel.options w) /\
     PriceScale.autoScale (rightPriceScale (ChartModel.options (snd result))) =
       PriceScale.autoScale (rightPriceScale (ChartModel.options w)) /\
     _drawPlanned (snd result) = true) /\
    (forall (priceScaleId : string) (options : PriceScale.Patch),
       priceScaleId <> PriceScale.DefaultPriceScaleId_Left ->
       priceScaleId <> PriceScale.DefaultPriceScaleId_Right ->
       ChartModel.options
         (snd (PriceScaleApi.applyOptions NODE_ENV
                 (PriceScaleApi.new priceScaleId (Some paneIndex)) options w))
       = ChartModel.options w).
Proof.
  intros paneIndex pane visible w Hpane. split.
  - set (patch := {| PriceScale.p_autoScale := None; PriceScale.p_visible := Some visible |}).
    assert (Hresult :
      PriceScaleApi.applyOptions NODE_ENV
        (PriceScaleApi.new PriceScale.DefaultPriceScaleId_Right (Some paneIndex)) patch w
      = (Normal tt,
         ChartModel.fullUpdate (ChartModel.priceScalesOptionsChanged_fire
           (ChartModel.storePane
              (ChartModel.Pane_applyScaleOptions (ChartModel.rightPatch patch) pane)
              (withModel (fun m => set_options
                 (merge (ChartModelState._options m) (ChartModel.rightPatch patch)) m) w))))).
    { unfold PriceScaleApi.applyOptions, PriceScaleApi.new, ChartModel.applyPriceScaleOptions.
      cbn [PriceScaleApi._priceScaleId PriceScaleApi._paneIndex]. rewrite Hpane. reflexivity. }
    cbv zeta. rewrite Hresult. cbn [fst snd].
    unfold ChartModel.priceScalesOptionsChanged_fire, ChartModel.defaultVisiblePriceScaleId.
    rewrite drawPlanned_fullUpdate, !options_fullUpdate, options_storePane.
    unfold ChartModel.options, withModel. destruct w as [m]; destruct m; cbn.
    destruct visible; repeat split.
  - intros priceScaleId options Hleft Hright.
    unfold PriceScaleApi.applyOptions, PriceScaleApi.new, ChartModel.applyPriceScaleOptions.
    cbn [PriceScaleApi._priceScaleId PriceScaleApi._paneIndex]. rewrite Hpane.
    destruct (String.eqb_spec priceScaleId PriceScale.DefaultPriceScaleId_Left) as [?|_];
      [contradiction|].
    destruct (String.eqb_spec priceScaleId PriceScale.DefaultPriceScaleId_Right) as [?|_];
      [contradiction|].
    destruct (ChartModel.findPriceScale priceScaleId paneIndex w) as [res|].
    + cbn [snd]. unfold ChartModel.priceScalesOptionsChanged_fire.
      now rewrite options_fullUpdate, options_storePane.
    + destruct (ChartModel.isDevelopment NODE_ENV); reflexivity.
Qed.

End ScaleOptions.

Lemma right_scale_visibility_is_chart_wide_witness :
  Js.index (ChartModel.panes Samples.chart) 0 = Some Samples.mainPane /\
  ChartModel.defaultVisiblePriceScaleId
    (snd (PriceScaleApi.applyOptions "production"%string%string
            (PriceScaleApi.new PriceScale.DefaultPriceScaleId_Right (Some 0%Z))
            {| PriceScale.p_autoScale := None; PriceScale.p_visible := Some false |}
            Samples.chart))
  = PriceScale.DefaultPriceScaleId_Left.
Proof.
  assert (H : Js.index (ChartModel.panes Samples.chart) 0 = Some Samples.mainPane)
    by reflexivity.
  split; [exact H|].
  exact (proj1 (proj2 (proj1
    (@right_scale_visibility_is_chart_wide "production"%string 0%Z Samples.mainPane false
       Samples.chart H)))).
Defined.

(* ------------------------------------------------------------------ *)
(** ** What the crosshair shows *)

Section CrosshairDot.

Import CrosshairRenderer CrosshairPaneView.
Local Open Scope float_scope.

Variables Math_round Math_floor : float -> float.
Variable CrosshairMode_Hidden : Z.
Variable _source : CrosshairAnswers.
Variables optionsHorzLine optionsVertLine : CrosshairLineOptions.

Lemma crosshair_after_trendline_tool_on w :
  crosshair_mode (ChartModel.options (ChartWidget._onTrendlineToolToggle true w)) = 0%Z /\
  Crosshair._showCenterDot
    (ChartModel.crosshairSource (ChartWidget._onTrendlineToolToggle true w)) = true.
Proof.
  destruct w as [m rafId mask planned cursor toolbar d1 s1 p1 orig d2 s2 p2 win].
  destruct m as [opts ts ps ch ss sym tbs fbs tls fibs md ms mp pdm npi npu].
  destruct planned, mask; split; reflexivity.
Qed.

Lemma crosshair_after_trendline_tool_off w :
  Crosshair._showCenterDot
    (ChartModel.crosshairSource (ChartWidget._onTrendlineToolToggle false w)) = false.
Proof.
  destruct w as [m rafId mask planned cursor toolbar d1 s1 p1 orig d2 s2 p2 win].
  destruct m as [opts ts ps ch ss sym tbs fbs tls fibs md ms mp pdm npi npu].
  destruct orig, planned, mask; reflexivity.
Qed.

Local Abbreviation shown scope view w :=
  (_drawImpl Math_round Math_floor scope
     (Some (snd (renderer CrosshairMode_Hidden _source optionsHorzLine optionsVertLine
                   w (update view))))) (only parsing).

Lemma shown_hidden scope view w :
  crosshair_mode (ChartModel.options w) = CrosshairMode_Hidden ->
  shown scope view w = [].
Proof.
  intros Hmode. unfold renderer, update, _updateImpl. cbn [_invalidated _rendererData snd].
  rewrite Hmode, Z.eqb_refl. reflexivity.
Qed.

Lemma shown_dot scope view w :
  crosshair_mode (ChartModel.options w) <> CrosshairMode_Hidden ->
  Crosshair._showCenterDot (ChartModel.crosshairSource w) = true ->
  shown scope view w =
    [set_fillStyle (stringOr (Some (dot_color (centerDotOptions _source))) "#2196F3");
     beginPath;
     arc (Math_round (appliedX _source * horizontalPixelRatio scope))
         (Math_round (appliedY _source * verticalPixelRatio scope))
         (numberOr (Some (dot_radius (centerDotOptions _source))) 3
          * Js.Math_min (horizontalPixelRatio scope) (verticalPixelRatio scope))
         0 (2 * Math_PI);
     fill].
Proof.
  intros Hmode Hdot. unfold renderer, update, _updateImpl.
  cbn [_invalidated _rendererData snd]. rewrite Hdot.
  destruct (Z.eqb_spec (crosshair_mode (ChartModel.options w)) CrosshairMode_Hidden)
    as [Heq|_]; [now elim Hmode|].
  reflexivity.
Qed.

Lemma shown_without_dot scope view w :
  Crosshair._showCenterDot (ChartModel.crosshairSource w) = false ->
  forall call, In call (shown scope view w) ->
    call <> fill /\ forall x y radius a b, call <> arc x y radius a b.
Proof.
  intros Hdot. unfold renderer, update, _updateImpl.
  cbn [_invalidated _rendererData snd]. rewrite Hdot.
  destruct (Z.eqb (crosshair_mode (ChartModel.options w)) CrosshairMode_Hidden).
  - intros call Hin; exfalso; exact Hin.
  - unfold _drawImpl. cbn [_rendererData _invalidated showCenterDot truthy visible
                           vertLine horzLine x y lineWidth color lineStyle].
    set (vertVisible := source_visible _source && vertLineVisible _source).
    set (horzVisible := source_visible _source && horzLineVisible _source).
    destruct (negb vertVisible && negb horzVisible); [intros call Hin; exfalso; exact Hin|].
    match goal with |- context [if negb ?c then _ else _] => destruct c end;
      cbn [negb]; [|intros call Hin; exfalso; exact Hin].
    intros call Hin. apply in_app_or in Hin. destruct Hin as [[<-|[]]|Hin];
      [split; [discriminate|intros; discriminate]|].
    apply in_app_or in Hin. destruct Hin as [Hin|Hin].
    + match type of Hin with In _ (if ?c then _ else _) => destruct c end; [|destruct Hin].
      cbn [In] in Hin.
      repeat (destruct Hin as [<-|Hin]; [split; [discriminate|intros; discriminate]|]).
      destruct Hin.
    + match type of Hin with In _ (if ?c then _ else _) => destruct c end; [|destruct Hin].
      cbn [In] in Hin.
      repeat (destruct Hin as [<-|Hin]; [split; [discriminate|intros; discriminate]|]).
      destruct Hin.
Qed.

(** X24.  While the trendline tool is on, the crosshair is drawn as the
    center dot and nothing else: after the tool is switched on, the
    view refreshed for the chart makes the renderer fill one circle at
    the applied position of the crosshair, with no line, whatever the
    crosshair's own visibility.  After the tool is switched off the
    renderer draws no circle.  In the hidden mode it draws nothing, dot
    included. *)
Theorem drawing_mode_shows_only_the_dot :
  forall (w : ChartWidgetState.t) (view : CrosshairPaneView.t)
         (scope : BitmapCoordinatesRenderingScope),
    CrosshairMode_Hidden <> 0%Z ->
    shown scope view (ChartWidget._onTrendlineToolToggle true w) =
      [set_fillStyle
         (stringOr (Some (dot_color (centerDotOptions _source))) "#2196F3");
       beginPath;
       arc (Math_round (appliedX _source * horizontalPixelRatio scope))
           (Math_round (appliedY _source * verticalPixelRatio scope))
           (numberOr (Some (dot_radius (centerDotOptions _source))) 3
            * Js.Math_min (horizontalPixelRatio scope) (verticalPixelRatio scope))
           0 (2 * Math_PI);
       fill] /\
    (forall call,
       In call (shown scope view (ChartWidget._onTrendlineToolToggle false w)) ->
       call <> fill /\ forall x y radius a b, call <> arc x y radius a b) /\
    (forall w0, crosshair_mode (ChartModel.options w0) = CrosshairMode_Hidden ->
                shown scope view w0 = []).
Proof.
  intros w view scope Hhidden. split; [|split].
  - destruct (crosshair_after_trendline_tool_on w) as [Hmode Hdot].
    apply shown_dot; [|exact Hdot]. rewrite Hmode. congruence.
  - apply shown_without_dot. apply crosshair_after_trendline_tool_off.
  - intros w0 Hmode. now apply shown_hidden.
Qed.

End CrosshairDot.

Lemma drawing_mode_shows_only_the_dot_witness :
  (2 <> 0)%Z /\
  CrosshairRenderer._drawImpl Samples.Math_round Samples.Math_round Samples.plainScope
    (Some (snd (CrosshairPaneView.renderer 2 Samples.crosshairAnswers
                  Samples.crosshairLine Samples.crosshairLine
                  Samples.hiddenCrosshairChart
                  (CrosshairPaneView.update CrosshairPaneView.new))))
  = [].
Proof.
  assert (H : (2 <> 0)%Z) by discriminate.
  split; [exact H|].
  exact (proj2 (proj2
    (@drawing_mode_shows_only_the_dot Samples.Math_round Samples.Math_round 2
       Samples.crosshairAnswers Samples.crosshairLine Samples.crosshairLine
       Samples.chart CrosshairPaneView.new Samples.plainScope H))
    Samples.hiddenCrosshairChart eq_refl).
Defined.

(* ------------------------------------------------------------------ *)
(** ** A series added and removed again *)

Section SeriesRoundTrip.

Import Completion.
Local Open Scope Z_scope.

Variable assertionFailure : string -> Completion.t unit.
Variable DEFAULT_STRETCH_FACTOR : float.
Variable newPaneScales : Pane.Scales.

Local Abbreviation addSeriesToPane :=
  (ChartModel.addSeriesToPane assertionFailure DEFAULT_STRETCH_FACTOR newPaneScales)
  (only parsing).
Local Abbreviation removeSeries := (ChartModel.removeSeries assertionFailure) (only parsing).

Lemma find_unique {A} (pred : A -> bool) (l : list A) (v : A) :
  (forall q, In q l -> pred q = true -> q = v) ->
  (exists q, In q l /\ pred q = true) ->
  find pred l = Some v.
Proof.
  induction l as [|a l IH]; intros Hall (q & Hin & Hq); [destruct Hin|].
  cbn [find]. destruct (pred a) eqn:Ha.
  - f_equal. apply Hall; [now left|exact Ha].
  - destruct Hin as [->|Hin]; [congruence|].
    apply IH; [|now exists q]. intros q' Hin' Hq'. apply Hall; [now right|exact Hq'].
Qed.





Lemma includes_added (series : Series.t) (l : list Series.t) :
  Pane.includes (l ++ [series]) series = true.
Proof.
  unfold Pane.includes. apply existsb_exists. exists series. split.
  - apply in_or_app. right. now left.
  - apply Nat.eqb_refl.
Qed.

Lemma same_uid_same_pane (l : list Pane.t) (p q : Pane.t) :
  NoDup (map Pane.uid l) -> In p l -> In q l -> Pane.same q p = true -> q = p.
Proof.
  induction l as [|a l IH]; intros Hnd Hp Hq Hsame; [destruct Hp|].
  apply Nat.eqb_eq in Hsame. cbn [map] in Hnd. inversion Hnd as [|? ? Hnotin Hnd']. subst.
  destruct Hp as [->|Hp], Hq as [->|Hq].
  - reflexivity.
  - elim Hnotin. rewrite <- Hsame. now apply in_map.
  - elim Hnotin. rewrite Hsame. now apply in_map.
  - apply IH; [exact Hnd'|exact Hp|exact Hq|now apply Nat.eqb_eq].
Qed.







End SeriesRoundTrip.


(* ------------------------------------------------------------------ *)
(** ** A series moved to another pane *)

Section SeriesMoves.

Import Completion.
Local Open Scope Z_scope.

Variable assertionFailure : string -> Completion.t unit.
Variable DEFAULT_STRETCH_FACTOR : float.
Variable newPaneScales : Pane.Scales.

Local Abbreviation moveSeriesToPane :=
  (ChartModel.moveSeriesToPane assertionFailure DEFAULT_STRETCH_FACTOR newPaneScales)
  (only parsing).

Lemma findIndex_from_found {A} (f : A -> bool) (l : list A) (i : Z) (x : A) :
  (forall q, In q l -> f q = true -> q = x) -> In x l -> f x = true ->
  exists n, Js.findIndex_from f l i = i + Z.of_nat n /\ nth_error l n = Some x.
Proof.
  revert i. induction l as [|a l IH]; intros i Hall Hin Hx; [destruct Hin|].
  cbn [Js.findIndex_from]. destruct (f a) eqn:Ha.
  - exists 0%nat. split; [lia|]. cbn. f_equal. apply Hall; [now left|exact Ha].
  - destruct Hin as [->|Hin]; [congruence|].
    destruct (IH (i + 1)) as (n & Hn & Hnth); [|exact Hin|exact Hx|].
    + intros q Hq. apply Hall. now right.
    + exists (S n). split; [lia|exact Hnth].
Qed.

Lemma indexOf_from_found {A} (eqb : A -> A -> bool) (x : A) (l : list A) (i : Z) :
  (exists y, In y l /\ eqb y x = true) ->
  exists n y, Js.indexOf_from eqb x l i = i + Z.of_nat n
              /\ nth_error l n = Some y /\ eqb y x = true.
Proof.
  revert i. induction l as [|a l IH]; intros i (y & Hin & Hy); [destruct Hin|].
  cbn [Js.indexOf_from]. destruct (eqb a x) eqn:Ha.
  - exists 0%nat, a. split; [lia|]. split; [reflexivity|exact Ha].
  - destruct Hin as [->|Hin]; [congruence|].
    destruct (IH (i + 1)) as (n & y' & Hn & Hnth & Hy'); [now exists y|].
    exists (S n), y'. split; [lia|]. split; assumption.
Qed.

Lemma In_splice1 {A} (l : list A) (i : Z) (x : A) : In x (Js.splice1 l i) -> In x l.
Proof.
  unfold Js.splice1. intros Hin. apply in_app_or in Hin. destruct Hin as [Hin|Hin].
  - rewrite <- (firstn_skipn (Z.to_nat (if i <? 0
        then Z.max (Z.of_nat (List.length l) + i) 0
        else Z.min i (Z.of_nat (List.length l)))) l).
    apply in_or_app. now left.
  - set (n := Z.to_nat _) in Hin. rewrite <- (firstn_skipn (S n) l).
    apply in_or_app. now right.
Qed.

Lemma In_splice1_other {A} (l : list A) (n : nat) (x y : A) :
  nth_error l n = Some y -> x <> y -> In x l -> In x (Js.splice1 l (Z.of_nat n)).
Proof.
  intros Hnth Hne Hin. unfold Js.splice1.
  assert (Hlt : (n < List.length l)%nat) by (apply nth_error_Some; congruence).
  destruct (Z.ltb_spec (Z.of_nat n) 0) as [?|_]; [lia|].
  rewrite Z.min_l by lia. rewrite Nat2Z.id.
  apply nth_error_split in Hnth. destruct Hnth as (l1 & l2 & -> & Hlen).
  rewrite firstn_app, <- Hlen, Nat.sub_diag, firstn_all. cbn [firstn]. rewrite app_nil_r.
  replace (S (List.length l1)) with (List.length (l1 ++ [y]))
    by (rewrite length_app; cbn; lia).
  replace (l1 ++ y :: l2) with ((l1 ++ [y]) ++ l2) by (rewrite <- app_assoc; reflexivity).
  rewrite skipn_app, Nat.sub_diag, skipn_all. cbn [skipn app].
  replace (l1 ++ y :: l2) with (l1 ++ [y] ++ l2) in Hin by reflexivity.
  apply in_app_or in Hin. apply in_or_app. destruct Hin as [Hin|Hin]; [now left|].
  apply in_app_or in Hin. destruct Hin as [[Heq|[]]|Hin]; [congruence|now right].
Qed.

Lemma includes_removed (series : Series.t) (l : list Series.t) :
  Pane.includes (filter (fun s' => negb (Series.same s' series)) l) series = false.
Proof.
  unfold Pane.includes. destruct (existsb _ _) eqn:E; [|reflexivity].
  apply existsb_exists in E. destruct E as (s & Hs & Hsame).
  apply filter_In in Hs. destruct Hs as [_ Hs]. now rewrite Hsame in Hs.
Qed.

Lemma two_distinct_elements {A} (l : list A) (x y : A) :
  In x l -> In y l -> x <> y -> (2 <= List.length l)%nat.
Proof.
  destruct l as [|a [|b l]]; cbn; intros Hx Hy Hne; [destruct Hx| |lia].
  destruct Hx as [<-|[]], Hy as [<-|[]]. now elim Hne.
Qed.

(** The state that a move between two existing panes leaves. *)
Lemma moveSeriesToPane_between (series : Series.t) (newPaneIndex : Z)
    (from to : Pane.t) (w : ChartWidgetState.t) :
  NoDup (map Pane.uid (ChartModel.panes w)) ->
  In from (ChartModel.panes w) ->
  Pane.includes (Pane.dataSources from) series = true ->
  (forall q, In q (ChartModel.panes w) ->
             Pane.includes (Pane.dataSources q) series = true -> q = from) ->
  Js.index (ChartModel.panes w) newPaneIndex = Some to ->
  to <> from ->
  let from' := Pane.removeDataSource series from in
  let to' := Pane.addDataSource series to in
  let moved := ChartModel.storePane to' (ChartModel.storePane from' w) in
  moveSeriesToPane series newPaneIndex w =
    (Normal tt,
     if Z.of_nat (List.length (Pane.dataSources from')) =? 0
     then ChartModel._cleanupIfPaneIsEmpty from' moved else moved)
  /\ (forall q, In q (ChartModel.panes moved) -> Pane.same q from' = true -> q = from')
  /\ In from' (ChartModel.panes moved)
  /\ In to' (ChartModel.panes moved)
  /\ (forall q, In q (ChartModel.panes moved) ->
                Pane.includes (Pane.dataSources q) series = true -> q = to')
  /\ List.length (ChartModel.panes moved) = List.length (ChartModel.panes w)
  /\ to' <> from'.
Proof.
  intros Hnd Hfrom Hinc Honly Hto Hne from' to' moved.
  assert (Hge : 0 <= newPaneIndex).
  { unfold Js.index in Hto. destruct (Z.ltb_spec newPaneIndex 0); [discriminate|lia]. }
  assert (Hinto : In to (ChartModel.panes w)).
  { unfold Js.index in Hto. destruct (newPaneIndex <? 0); [discriminate|].
    now apply nth_error_In in Hto. }
  assert (Hdiff : Pane.same to from = false).
  { destruct (Pane.same to from) eqn:E; [|reflexivity].
    elim Hne. apply (@same_uid_same_pane (ChartModel.panes w) from to Hnd Hfrom Hinto E). }
  set (f := fun q => if Pane.same q from' then from' else q).
  set (g := fun q => if Pane.same q to' then to' else q).
  assert (Hpanes : ChartModel.panes moved = map (fun q => g (f q)) (ChartModel.panes w)).
  { subst moved. now rewrite !panes_storePane, map_map. }
  assert (Huid : forall q, Pane.uid (g (f q)) = Pane.uid q).
  { intros q. unfold g, f. destruct (Pane.same q from') eqn:E1.
    - apply Nat.eqb_eq in E1. cbn in E1.
      change (Pane.same from' to') with (Nat.eqb (Pane.uid from) (Pane.uid to)).
      destruct (Nat.eqb_spec (Pane.uid from) (Pane.uid to)) as [E2|_]; cbn; congruence.
    - destruct (Pane.same q to') eqn:E2; [|reflexivity].
      apply Nat.eqb_eq in E2. cbn in E2. cbn. congruence. }
  assert (Hgf_from : g (f from) = from').
  { unfold g, f. change (Pane.same from from') with (Nat.eqb (Pane.uid from) (Pane.uid from)).
    rewrite Nat.eqb_refl.
    change (Pane.same from' to') with (Nat.eqb (Pane.uid from) (Pane.uid to)).
    unfold Pane.same in Hdiff. rewrite Nat.eqb_sym, Hdiff. reflexivity. }
  assert (Hgf_to : g (f to) = to').
  { unfold g, f. change (Pane.same to from') with (Pane.same to from). rewrite Hdiff.
    change (Pane.same to to') with (Nat.eqb (Pane.uid to) (Pane.uid to)).
    now rewrite Nat.eqb_refl. }
  assert (Hunique : forall q, In q (ChartModel.panes moved) ->
                              Pane.same q from' = true -> q = from').
  { intros q2 Hq2 Hsame. rewrite Hpanes in Hq2. apply in_map_iff in Hq2.
    destruct Hq2 as (q & <- & Hq). apply Nat.eqb_eq in Hsame. rewrite Huid in Hsame.
    cbn in Hsame. assert (q = from) as ->; [|exact Hgf_from].
    apply (@same_uid_same_pane (ChartModel.panes w) from q Hnd Hfrom Hq).
    now apply Nat.eqb_eq. }
  assert (Hin_from' : In from' (ChartModel.panes moved)).
  { rewrite Hpanes, <- Hgf_from. now apply (in_map (fun q => g (f q))). }
  assert (Hin_to' : In to' (ChartModel.panes moved)).
  { rewrite Hpanes, <- Hgf_to. now apply (in_map (fun q => g (f q))). }
  assert (Hholder : forall q, In q (ChartModel.panes moved) ->
                              Pane.includes (Pane.dataSources q) series = true -> q = to').
  { intros q2 Hq2 Hinc2. rewrite Hpanes in Hq2. apply in_map_iff in Hq2.
    destruct Hq2 as (q & <- & Hq). unfold g in *. destruct (Pane.same (f q) to'); [reflexivity|].
    unfold f in *. destruct (Pane.same q from') eqn:E.
    - unfold from', Pane.removeDataSource, Pane.setDataSources in Hinc2.
      cbn [Pane.dataSources] in Hinc2. now rewrite includes_removed in Hinc2.
    - assert (q = from) as -> by now apply Honly.
      change (Pane.same from from') with (Nat.eqb (Pane.uid from) (Pane.uid from)) in E.
      now rewrite Nat.eqb_refl in E. }
  split; [|split; [exact Hunique|split; [exact Hin_from'|split; [exact Hin_to'|
           split; [exact Hholder|split; [now rewrite Hpanes, length_map|]]]]]];
    [|intros Heq; apply (f_equal Pane.uid) in Heq; cbn in Heq;
      unfold Pane.same in Hdiff; apply Nat.eqb_neq in Hdiff; congruence].
  (* the run of the method *)
  destruct (@findIndex_from_found _ (fun p => Pane.includes (Pane.series p) series)
              (ChartModel.panes w) 0 from Honly Hfrom Hinc) as (n & Hn & Hnth).
  assert (Hfound : ChartModel.paneForSource series w = Some from).
  { unfold ChartModel.paneForSource. apply find_unique; [exact Honly|now exists from]. }
  assert (Hother : (newPaneIndex =? ChartModel._seriesPaneIndex series w) = false).
  { apply Z.eqb_neq. unfold ChartModel._seriesPaneIndex, Js.findIndex. rewrite Hn.
    intros ->. unfold Js.index in Hto. cbn [Z.add] in Hto.
    destruct (Z.of_nat n <? 0); [discriminate|]. rewrite Nat2Z.id in Hto. congruence. }
  assert (Hto1 : Js.index (ChartModel.panes (ChartModel.storePane from' w)) newPaneIndex
                 = Some to).
  { rewrite panes_storePane, index_map, Hto. cbn [option_map].
    change (Pane.same to from') with (Pane.same to from). now rewrite Hdiff. }
  assert (Hcurrent : find (Pane.same from) (ChartModel.panes moved) = Some from').
  { apply find_unique.
    - intros q Hq Hsame. apply Hunique; [exact Hq|].
      unfold Pane.same in *. cbn. now rewrite Nat.eqb_sym.
    - exists from'. split; [exact Hin_from'|]. apply Nat.eqb_refl. }
  unfold ChartModel.moveSeriesToPane, ChartModel.assertM, ChartModel.assert.
  destruct (Z.leb_spec 0 newPaneIndex) as [_|?]; [|lia].
  cbv [bind gets lift exec ret]. cbv beta iota. rewrite Hother, Hfound.
  cbn [ensureNotNull]. cbv beta iota.
  fold from'.
  rewrite (@getOrCreatePane_existing assertionFailure DEFAULT_STRETCH_FACTOR newPaneScales
             newPaneIndex (ChartModel.storePane from' w) to Hge Hto1).
  cbv beta iota. unfold ChartModel._addSeriesToPane. fold to'. fold moved.
  rewrite Hcurrent. destruct (_ =? 0); reflexivity.
Qed.

(** X26.  [moveSeriesToPane] to another existing pane puts the series
    into that pane and into no other: afterwards the pane that holds the
    series is the target with the series appended, the list of series is
    as before, and the number of panes is the same, or one less when the
    series was the last data source of the pane it came from, which is
    then removed.  Moving the series to the pane it is in changes
    nothing.  The panes are distinct objects, and the series is in the
    pane [from] only. *)
Theorem moveSeriesToPane_lands_in_the_target :
  forall (series : Series.t) (newPaneIndex : Z) (from to : Pane.t)
         (w : ChartWidgetState.t),
    NoDup (map Pane.uid (ChartModel.panes w)) ->
    In from (ChartModel.panes w) ->
    Pane.includes (Pane.dataSources from) series = true ->
    (forall q, In q (ChartModel.panes w) ->
               Pane.includes (Pane.dataSources q) series = true -> q = from) ->
    Js.index (ChartModel.panes w) newPaneIndex = Some to ->
    to <> from ->
    let result := moveSeriesToPane series newPaneIndex w in
    fst result = Normal tt
    /\ ChartModel.serieses (snd result) = ChartModel.serieses w
    /\ ChartModel.paneForSource series (snd result) = Some (Pane.addDataSource series to)
    /\ (forall q, In q (ChartModel.panes (snd result)) ->
                  Pane.includes (Pane.dataSources q) series = true ->
                  q = Pane.addDataSource series to)
    /\ ChartModel.panesLength (snd result) =
         (if Z.of_nat (List.length (Pane.dataSources (Pane.removeDataSource series from)))
             =? 0
          then ChartModel.panesLength w - 1 else ChartModel.panesLength w)
    /\ (forall index, Js.index (ChartModel.panes w) index = Some from ->
                      moveSeriesToPane series index w = (Normal tt, w)).
Proof.
  intros series newPaneIndex from to w Hnd Hfrom Hinc Honly Hto Hne result.
  destruct (@moveSeriesToPane_between series newPaneIndex from to w
              Hnd Hfrom Hinc Honly Hto Hne)
    as (Hrun & Hunique & Hin_from' & Hin_to' & Hholder & Hlen & Hdistinct).
  set (from' := Pane.removeDataSource series from) in *.
  set (to' := Pane.addDataSource series to) in *.
  set (moved := ChartModel.storePane to' (ChartModel.storePane from' w)) in *.
  assert (Hlands : forall panes',
            (forall q, In q panes' -> In q (ChartModel.panes moved)) ->
            In to' panes' ->
            find (fun p => Pane.includes (Pane.orderedSources p) series) panes' = Some to'
            /\ (forall q, In q panes' ->
                          Pane.includes (Pane.dataSources q) series = true -> q = to')).
  { intros panes' Hsub Hin. split.
    - apply find_unique.
      + intros q Hq Hq'. apply Hholder; [now apply Hsub|exact Hq'].
      + exists to'. split; [exact Hin|]. apply includes_added.
    - intros q Hq. apply Hholder. now apply Hsub. }
  assert (Hsame_pane : forall index, Js.index (ChartModel.panes w) index = Some from ->
                                     moveSeriesToPane series index w = (Normal tt, w)).
  { intros index Hindex.
    destruct (@findIndex_from_found _ (fun p => Pane.includes (Pane.series p) series)
                (ChartModel.panes w) 0 from Honly Hfrom Hinc) as (n & Hn & Hnth).
    unfold Js.index in Hindex. destruct (Z.ltb_spec index 0) as [?|Hge]; [discriminate|].
    assert (Hpos : Z.to_nat index = n).
    { apply (proj1 (NoDup_nth_error (ChartModel.panes w)) (NoDup_map_inv _ _ Hnd)).
      - apply nth_error_Some. congruence.
      - congruence. }
    unfold ChartModel.moveSeriesToPane, ChartModel.assertM, ChartModel.assert.
    destruct (Z.leb_spec 0 index) as [_|?]; [|lia].
    cbv [bind gets lift exec ret]. cbv beta iota.
    unfold ChartModel._seriesPaneIndex, Js.findIndex. rewrite Hn.
    replace (index =? 0 + Z.of_nat n) with true; [reflexivity|].
    symmetry. apply Z.eqb_eq. lia. }
  subst result. rewrite Hrun. cbn [fst snd].
  split; [reflexivity|].
  destruct (Z.eqb_spec (Z.of_nat (List.length (Pane.dataSources from'))) 0) as [Hempty|Hleft].
  - (* the pane the series came from is empty now *)
    assert (Htwo : 1 < ChartModel.panesLength moved).
    { unfold ChartModel.panesLength. rewrite Hlen.
      assert (Hinto : In to (ChartModel.panes w)).
      { unfold Js.index in Hto. destruct (newPaneIndex <? 0); [discriminate|].
        now apply nth_error_In in Hto. }
      pose proof (@two_distinct_elements _ (ChartModel.panes w) to from Hinto Hfrom Hne). lia. }
    unfold ChartModel._cleanupIfPaneIsEmpty. rewrite Hempty.
    destruct (Z.ltb_spec 1 (ChartModel.panesLength moved)) as [_|?]; [|lia].
    cbn [Z.eqb andb].
    rewrite serieses_fullUpdate, serieses_spliced.
    unfold ChartModel.paneForSource, ChartModel.panesLength.
    rewrite panes_fullUpdate, panes_spliced.
    destruct (@indexOf_from_found _ Pane.same from' (ChartModel.panes moved) 0)
      as (n & y & Hn & Hnth & Hy); [exists from'; split; [exact Hin_from'|apply Nat.eqb_refl]|].
    assert (y = from') as -> by (apply Hunique; [now apply nth_error_In in Hnth|exact Hy]).
    unfold ChartModel.getPaneIndex, Js.indexOf. rewrite Hn. cbn [Z.add].
    destruct (Hlands (Js.splice1 (ChartModel.panes moved) (Z.of_nat n)))
      as [Hfind Honly'].
    + intros q. apply In_splice1.
    + now apply (@In_splice1_other _ (ChartModel.panes moved) n to' from' Hnth).
    + split; [subst moved; now rewrite !serieses_storePane|].
      split; [exact Hfind|]. split; [exact Honly'|]. split; [|exact Hsame_pane].
      assert (Hrange : 0 <= Z.of_nat n < Z.of_nat (List.length (ChartModel.panes moved))).
      { split; [lia|]. apply Nat2Z.inj_lt. apply nth_error_Some. congruence. }
      rewrite (proj2 (@splice1_in_range _ (ChartModel.panes moved) (Z.of_nat n) Hrange)), Hlen.
      reflexivity.
  - destruct (Hlands (ChartModel.panes moved)) as [Hfind Honly']; [trivial|exact Hin_to'|].
    split; [subst moved; now rewrite !serieses_storePane|].
    split; [exact Hfind|]. split; [exact Honly'|]. split; [|exact Hsame_pane].
    unfold ChartModel.panesLength. now rewrite Hlen.
Qed.

End SeriesMoves.

Lemma moveSeriesToPane_lands_in_the_target_witness :
  NoDup (map Pane.uid (ChartModel.panes Samples.twoPaneChart))
  /\ In Samples.rsiPane (ChartModel.panes Samples.twoPaneChart)
  /\ Pane.includes (Pane.dataSources Samples.rsiPane) Samples.rsi = true
  /\ (forall q, In q (ChartModel.panes Samples.twoPaneChart) ->
                Pane.includes (Pane.dataSources q) Samples.rsi = true ->
                q = Samples.rsiPane)
  /\ Js.index (ChartModel.panes Samples.twoPaneChart) 0 = Some Samples.mainPane
  /\ Samples.mainPane <> Samples.rsiPane
  /\ ChartModel.paneForSource Samples.rsi
       (snd (ChartModel.moveSeriesToPane Samples.throwingAssert 1
               (Samples.scalesOf Samples.priceScale) Samples.rsi 0 Samples.twoPaneChart))
     = Some (Pane.addDataSource Samples.rsi Samples.mainPane)
  /\ ChartModel.panesLength
       (snd (ChartModel.moveSeriesToPane Samples.throwingAssert 1
               (Samples.scalesOf Samples.priceScale) Samples.rsi 0 Samples.twoPaneChart))
     = 1%Z.
Proof.
  assert (Hpanes : ChartModel.panes Samples.twoPaneChart
                   = [Samples.mainPane; Samples.rsiPane]) by reflexivity.
  assert (H1 : NoDup (map Pane.uid (ChartModel.panes Samples.twoPaneChart))).
  { rewrite Hpanes. cbn. repeat constructor; cbn; intuition discriminate. }
  assert (H2 : In Samples.rsiPane (ChartModel.panes Samples.twoPaneChart))
    by (rewrite Hpanes; right; left; reflexivity).
  assert (H3 : Pane.includes (Pane.dataSources Samples.rsiPane) Samples.rsi = true)
    by reflexivity.
  assert (H4 : forall q, In q (ChartModel.panes Samples.twoPaneChart) ->
                         Pane.includes (Pane.dataSources q) Samples.rsi = true ->
                         q = Samples.rsiPane).
  { rewrite Hpanes. intros q [<-|[<-|[]]] Hq; [discriminate Hq|reflexivity]. }
  assert (H5 : Js.index (ChartModel.panes Samples.twoPaneChart) 0
               = Some Samples.mainPane) by reflexivity.
  assert (H6 : Samples.mainPane <> Samples.rsiPane)
    by (intros H; apply (f_equal Pane.uid) in H; discriminate H).
  repeat (split; [assumption|]).
  pose proof (@moveSeriesToPane_lands_in_the_target Samples.throwingAssert 1
                (Samples.scalesOf Samples.priceScale) Samples.rsi 0 Samples.rsiPane
                Samples.mainPane Samples.twoPaneChart H1 H2 H3 H4 H5 H6)
    as (_ & _ & Hfind & _ & Hlength & _).
  split; [exact Hfind|exact Hlength].
Defined.

(* ------------------------------------------------------------------ *)
(** ** A series added to a pane *)

Section SeriesPlacement.

Import Completion.
Local Open Scope Z_scope.

Variable assertionFailure : string -> Completion.t unit.
Variable DEFAULT_STRETCH_FACTOR : float.
Variable newPaneScales : Pane.Scales.

Local Abbreviation addSeriesToPane :=
  (ChartModel.addSeriesToPane assertionFailure DEFAULT_STRETCH_FACTOR newPaneScales)
  (only parsing).




End SeriesPlacement.

